(** * Website status monitor: the monitoring engine

    A shallow embedding of [src/website_monitor.py], the part of
    [src/database_manager.py] it calls and the constants of
    [src/settings.py], followed by the properties of the probe, the site
    task, the result buffer and the batched flush.

    Conventions of the embedding.
    - A [datetime] is the number of microseconds it denotes (a [Z]); the
      wall clock [datetime.now()] is an oracle of the environment, read in
      sequence.
    - [response_time] is a rational number of seconds.  Python computes it
      as a float; rounding a rational to the nearest float keeps its sign
      and keeps the integer 30 exact.
    - The network ([aiohttp]), the regular-expression engine ([re]) and the
      database driver ([psycopg2]) are oracles of the environment.
    - A Python function that may raise is a computation in a state and
      exception monad; the state survives a raise, as in Python.
    - [collections.deque] is a list: [append] adds at the back, [popleft]
      removes the head.  A [dict] whose order is observed is an association
      list in insertion order. *)

From Stdlib Require Import List ZArith QArith String Bool Arith Lia.
From Stdlib Require Import Permutation Sorted.
Import ListNotations.
Close Scope Q_scope.

(** ** settings.py *)

Module MonitoringSettings.
(** Timeout in seconds for each website request. *)
Definition REQUEST_TIMEOUT : Z := 30.
(** Worker wait time in seconds before fetching the next batch. *)
Definition RESULTS_WORKER_WAIT_TIME : Z := 3.
(** Maximum number of monitoring results to save in one batch. *)
Definition RESULTS_BATCH_SAVE_SIZE : nat := 100.
End MonitoringSettings.

Module HTTPStatus.
Definition OK : Z := 200.
Definition REQUEST_TIMEOUT : Z := 408.
End HTTPStatus.

(** ** Data model *)

(** [datetime], in microseconds. *)
Definition datetime := Z.

(** [(b - a).total_seconds()] *)
Definition total_seconds (b a : datetime) : Q := Qmake (b - a) 1000000.

(** The dataclass [WebsiteMonitoringResult]. *)
Record WebsiteMonitoringResult := mkResult {
  request_timestamp : datetime;
  response_timestamp : datetime;
  response_time : Q;
  http_status_code : Z;
  url : option string;
  website_id : option Z;
  is_regex_pattern_compliant : option bool
}.

Definition set_url (u : string) (r : WebsiteMonitoringResult) :=
  mkResult (request_timestamp r) (response_timestamp r) (response_time r)
           (http_status_code r) (Some u) (website_id r)
           (is_regex_pattern_compliant r).

Definition set_website_id (i : Z) (r : WebsiteMonitoringResult) :=
  mkResult (request_timestamp r) (response_timestamp r) (response_time r)
           (http_status_code r) (url r) (Some i)
           (is_regex_pattern_compliant r).

(** One row of the websites table, the [website_data] dict: the columns
    always exist, [interval] and [regexp_pattern] may be NULL ([None]). *)
Record website_data := mkSite {
  wd_url : string;
  wd_id : Z;
  wd_interval : option Z;
  wd_regexp_pattern : option string
}.

(** The exceptions the engine meets; all derive from [Exception]. *)
Inductive exn :=
| TimeoutError                      (* asyncio.exceptions.TimeoutError *)
| ClientError (msg : string)        (* aiohttp.ClientError *)
| Psycopg2Error (msg : string)      (* psycopg2.Error *)
| OSError (msg : string)            (* open() of the SQL file *)
| OtherException (msg : string).    (* re.error, UnicodeDecodeError, ... *)

(** Python truthiness, as used by [if not x]. *)
Definition truthy_int (x : option Z) : bool :=
  match x with
  | None => false
  | Some v => negb (v =? 0)%Z
  end.

Definition truthy_str (x : option string) : bool :=
  match x with
  | None => false
  | Some s => negb (String.eqb s EmptyString)
  end.

(** ** The environment *)

Inductive http_method := HEAD | GET.

(** What [await response.text()] does. *)
Inductive body_outcome :=
| Text (body : string)
| TextTimeout
| TextClientError (msg : string)
| TextOther (msg : string).

(** What [await session.head(...)] or [await session.get(...)] does. *)
Inductive http_outcome :=
| Response (status : Z) (body : body_outcome)
| RaiseTimeout
| RaiseClientError (msg : string)
| RaiseOther (msg : string).

Inductive net_event :=
| Request (m : http_method) (target : string) (timeout : Z)
| ReadText (target : string).

Record Env := mkEnv {
  (** the n-th reading of [datetime.now()] *)
  clock : nat -> datetime;
  (** the outcome of the n-th network request *)
  http : nat -> http_method -> string -> http_outcome;
  (** [re.search(pattern, body) is not None], or the [re.error] raised *)
  re_search : string -> string -> exn + bool;
  (** content of a SQL file, [None] when it cannot be opened *)
  read_file : string -> option string;
  (** the n-th [executemany] and [commit]: [Some msg] is a psycopg2.Error *)
  executemany : nat -> string -> list WebsiteMonitoringResult -> option string
}.

(** ** The state *)

Inductive log_record :=
| InfoSkipMonitoring (u : string)
| InfoSaved (n : nat) (breakdown : list (Z * nat))
| ErrorCouldNotSave (err : exn)
| ErrorConnecting (u : string) (err : exn)
| ErrorDatabase (err : exn)
| DebugNumTasks (n : nat).

Record state := mkState {
  (** [WebsiteMonitor.monitoring_results], the Result Buffer *)
  monitoring_results : list WebsiteMonitoringResult;
  (** arguments of the calls of [batch_insert_monitoring_data], in order *)
  sink_calls : list (list WebsiteMonitoringResult);
  (** rows committed to the database *)
  db_rows : list WebsiteMonitoringResult;
  logs : list log_record;
  (** number of readings of the clock so far *)
  now_count : nat;
  net_trace : list net_event
}.

Definition initial_state : state := mkState [] [] [] [] 0 [].

(** ** State and exception monad *)

Definition M (A : Type) : Type := state -> (A + exn) * state.

Definition ret {A} (a : A) : M A := fun st => (inl a, st).
Definition raise {A} (e : exn) : M A := fun st => (inr e, st).
Definition bind {A B} (m : M A) (k : A -> M B) : M B :=
  fun st => match m st with
            | (inl a, st') => k a st'
            | (inr e, st') => (inr e, st')
            end.
(** [try: m  except Exception as err: h err] *)
Definition try_except {A} (m : M A) (h : exn -> M A) : M A :=
  fun st => match m st with
            | (inl a, st') => (inl a, st')
            | (inr e, st') => h e st'
            end.

Notation "x <- m ;; k" := (bind m (fun x => k))
  (at level 61, m at next level, right associativity).
Notation "m ;;; k" := (bind m (fun _ => k))
  (at level 61, right associativity).

Definition get_state : M state := fun st => (inl st, st).

Definition log (r : log_record) : M unit := fun st =>
  (inl tt, mkState (monitoring_results st) (sink_calls st) (db_rows st)
                   (logs st ++ [r]) (now_count st) (net_trace st)).

(** [datetime.now()] *)
Definition now (env : Env) : M datetime := fun st =>
  (inl (clock env (now_count st)),
   mkState (monitoring_results st) (sink_calls st) (db_rows st)
           (logs st) (S (now_count st)) (net_trace st)).

Definition emit (ev : net_event) : M unit := fun st =>
  (inl tt, mkState (monitoring_results st) (sink_calls st) (db_rows st)
                   (logs st) (now_count st) (net_trace st ++ [ev])).

Definition requests_made (tr : list net_event) : nat :=
  List.length
    (filter (fun ev => match ev with Request _ _ _ => true | _ => false end) tr).

Definition set_buffer (b : list WebsiteMonitoringResult) : M unit := fun st =>
  (inl tt, mkState b (sink_calls st) (db_rows st)
                   (logs st) (now_count st) (net_trace st)).

(** ** website_monitor.py: [check_website_availability], the Prober *)

(** [await session.head(target, allow_redirects=True, timeout=...)] and
    [await session.get(...)] *)
Definition session_request (env : Env) (m : http_method) (target : string)
  : M (Z * body_outcome) :=
  st <- get_state ;;
  emit (Request m target MonitoringSettings.REQUEST_TIMEOUT) ;;;
  match http env (requests_made (net_trace st)) m target with
  | Response status body => ret (status, body)
  | RaiseTimeout => raise TimeoutError
  | RaiseClientError msg => raise (ClientError msg)
  | RaiseOther msg => raise (OtherException msg)
  end.

(** [await response.text()] *)
Definition response_text (target : string) (body : body_outcome) : M string :=
  emit (ReadText target) ;;;
  match body with
  | Text s => ret s
  | TextTimeout => raise TimeoutError
  | TextClientError msg => raise (ClientError msg)
  | TextOther msg => raise (OtherException msg)
  end.

(** [re.search(pattern, body) is not None] *)
Definition search_is_not_none (env : Env) (pattern body : string) : M bool :=
  match re_search env pattern body with
  | inl e => raise e
  | inr b => ret b
  end.

Definition pattern_text (p : option string) : string :=
  match p with
  | Some s => s
  | None => EmptyString
  end.

(** The values the [try] suite leaves in [response_timestamp],
    [response_time], [http_status_code], [is_regex_pattern_compliant]. *)
Definition probe_vars : Type := (datetime * Q * Z * option bool)%type.

(** The [try] suite of one scheme attempt. *)
Definition try_suite (env : Env) (target : string)
  (regexp_pattern : option string) (request_ts : datetime) : M probe_vars :=
  resp <-
    (if negb (truthy_str regexp_pattern)
     then
       r <- session_request env HEAD target ;;
       ret (fst r, @None bool)
     else
       r <- session_request env GET target ;;
       response_body <- response_text target (snd r) ;;
       b <- search_is_not_none env (pattern_text regexp_pattern) response_body ;;
       ret (fst r, Some b)) ;;
  response_ts <- now env ;;
  ret (response_ts, total_seconds response_ts request_ts, fst resp, snd resp).

(** The [except] clauses.  A raise inside the [try] suite happens before
    [is_regex_pattern_compliant] is assigned, so the handler sees [None]. *)
Definition except_clauses (env : Env) (u : string) (e : exn) : M probe_vars :=
  match e with
  | TimeoutError =>
      response_ts <- now env ;;
      ret (response_ts, inject_Z MonitoringSettings.REQUEST_TIMEOUT,
           HTTPStatus.REQUEST_TIMEOUT, @None bool)
  | ClientError msg =>
      log (ErrorConnecting u (ClientError msg)) ;;;
      raise (ClientError msg)
  | other => raise other
  end.

(** The body of [for scheme in ("https", "http")]. *)
Definition attempt (env : Env) (u : string) (regexp_pattern : option string)
  (scheme : string) : M WebsiteMonitoringResult :=
  let target_url := (scheme ++ "://" ++ u)%string in
  request_ts <- now env ;;
  v <- try_except (try_suite env target_url regexp_pattern request_ts)
                  (except_clauses env u) ;;
  match v with
  | (response_ts, rtime, code, compliant) =>
      ret (mkResult request_ts response_ts rtime code None None compliant)
  end.

(** A [for] loop whose body may [return]: [Some r] is [return r], [None]
    is reaching the end of the body.  Leaving the loop without a [return]
    is Python's implicit [return None]. *)
Fixpoint for_scheme {A} (body : string -> M (option A)) (schemes : list string)
  : M (option A) :=
  match schemes with
  | [] => ret None
  | scheme :: rest =>
      c <- body scheme ;;
      match c with
      | Some r => ret (Some r)
      | None => for_scheme body rest
      end
  end.

Definition schemes : list string := ["https"%string; "http"%string].

(** Opening and closing the [aiohttp.ClientSession] has no effect that the
    engine observes and is left out. *)
Definition check_website_availability (env : Env) (u : string)
  (regexp_pattern : option string) : M (option WebsiteMonitoringResult) :=
  for_scheme
    (fun scheme =>
       r <- attempt env u regexp_pattern scheme ;;
       ret (Some r))
    schemes.

(** ** database_manager.py: [batch_insert_monitoring_data], the Result Sink *)

Definition record_sink_call (batch : list WebsiteMonitoringResult) : M unit :=
  fun st =>
  (inl tt, mkState (monitoring_results st) (sink_calls st ++ [batch])
                   (db_rows st) (logs st) (now_count st) (net_trace st)).

(** [with open(file_path) as sql_file: query = sql_file.read()] *)
Definition open_and_read (env : Env) (file_path : string) : M string :=
  match read_file env file_path with
  | Some query => ret query
  | None => raise (OSError file_path)
  end.

(** [cursor.executemany(query, processed_data); connection.commit()].
    [asdict] maps a result to the dict of its fields; the rows are kept as
    the results themselves. *)
Definition executemany_and_commit (env : Env) (nth_call : nat) (query : string)
  (processed_data : list WebsiteMonitoringResult) : M unit :=
  match executemany env nth_call query processed_data with
  | Some msg => raise (Psycopg2Error msg)
  | None => fun st =>
      (inl tt, mkState (monitoring_results st) (sink_calls st)
                       (db_rows st ++ processed_data) (logs st)
                       (now_count st) (net_trace st))
  end.

(** [except psycopg2.Error as err: rollback; log; raise] *)
Definition except_psycopg2 (e : exn) : M unit :=
  match e with
  | Psycopg2Error msg =>
      log (ErrorDatabase (Psycopg2Error msg)) ;;;
      raise (Psycopg2Error msg)
  | other => raise other
  end.

Definition sql_insert_monitoring_data : string :=
  "sql/insert_website_monitoring_data.sql"%string.

Definition batch_insert_monitoring_data (env : Env)
  (monitoring_data : list WebsiteMonitoringResult) : M unit :=
  st <- get_state ;;
  record_sink_call monitoring_data ;;;
  query <- open_and_read env sql_insert_monitoring_data ;;
  try_except
    (executemany_and_commit env (List.length (sink_calls st)) query monitoring_data)
    except_psycopg2.

(** ** website_monitor.py: [save_website_monitoring_results], the Persister *)

(** A [dict] from status code to count, in insertion order. *)
Definition counter := list (Z * nat).

(** [d[k]] of a [defaultdict(int)]: 0 for a missing key. *)
Fixpoint dict_get (k : Z) (d : counter) : nat :=
  match d with
  | [] => 0
  | (k', v) :: d' => if (k =? k')%Z then v else dict_get k d'
  end.

(** [d[k] = v]: a present key keeps its place, a new one goes last. *)
Fixpoint dict_set (k : Z) (v : nat) (d : counter) : counter :=
  match d with
  | [] => [(k, v)]
  | (k', v') :: d' =>
      if (k =? k')%Z then (k', v) :: d' else (k', v') :: dict_set k v d'
  end.

(** [d[k] += 1] *)
Definition increment (k : Z) (d : counter) : counter :=
  dict_set k (dict_get k d + 1) d.

(** The [while] loop: [buf] is the deque, the other three arguments are
    [monitoring_data], [http_status_code_to_counter] and
    [processed_results_num]. *)
Fixpoint pop_loop (buf : list WebsiteMonitoringResult)
  (monitoring_data : list WebsiteMonitoringResult)
  (code_to_counter : counter) (processed_results_num : nat)
  : list WebsiteMonitoringResult * list WebsiteMonitoringResult * counter * nat :=
  match buf with
  | [] => (buf, monitoring_data, code_to_counter, processed_results_num)
  | url_monitoring_result :: rest =>
      if processed_results_num <? MonitoringSettings.RESULTS_BATCH_SAVE_SIZE
      then pop_loop rest
             (monitoring_data ++ [url_monitoring_result])
             (increment (http_status_code url_monitoring_result) code_to_counter)
             (processed_results_num + 1)
      else (buf, monitoring_data, code_to_counter, processed_results_num)
  end.

(** [sorted(items, key=lambda item: item[1], reverse=True)]: Python's sort
    is stable, also with [reverse=True]; items with equal counts keep the
    order they have in the argument. *)
Fixpoint insert_by_count (x : Z * nat) (l : list (Z * nat)) : list (Z * nat) :=
  match l with
  | [] => [x]
  | y :: l' =>
      if snd x <? snd y then y :: insert_by_count x l' else x :: y :: l'
  end.

Fixpoint sorted_by_count_reverse (items : list (Z * nat)) : list (Z * nat) :=
  match items with
  | [] => []
  | x :: rest => insert_by_count x (sorted_by_count_reverse rest)
  end.

(** [dict(pairs)] *)
Definition dict_of (pairs : list (Z * nat)) : counter :=
  fold_left (fun d kv => dict_set (fst kv) (snd kv) d) pairs [].

(** Nothing raises inside the [while] loop, so the pops of the loop are
    written to the buffer in one go, before the sink is called. *)
Definition save_website_monitoring_results (env : Env) : M unit :=
  st <- get_state ;;
  match pop_loop (monitoring_results st) [] [] 0 with
  | (remaining, monitoring_data, http_status_code_to_counter, _) =>
      set_buffer remaining ;;;
      batch_insert_monitoring_data env monitoring_data ;;;
      let sorted_http_status_to_code :=
        dict_of (sorted_by_count_reverse http_status_code_to_counter) in
      log (InfoSaved (List.length monitoring_data) sorted_http_status_to_code)
  end.

(** ** website_monitor.py: [check_website_recurrently], the Site Task *)

(** [self.monitoring_results.append(r)] *)
Definition append_result (r : WebsiteMonitoringResult) : M unit :=
  st <- get_state ;;
  set_buffer (monitoring_results st ++ [r]).

(** Where a coroutine stands when it gives control back to the event loop. *)
Inductive task_status :=
| Pending                (* created by [asyncio.create_task], not run yet *)
| Sleeping               (* suspended in [await asyncio.sleep(...)] *)
| Done                   (* returned *)
| Failed (e : exn).      (* ended by an exception that nothing caught *)

(** The body of [while True] up to [await asyncio.sleep(interval)].  When
    the Prober gives [None], setting an attribute of it is an
    AttributeError. *)
Definition probe_and_append (env : Env) (wd : website_data) : M unit :=
  r <- check_website_availability env (wd_url wd) (wd_regexp_pattern wd) ;;
  match r with
  | None => raise (OtherException "AttributeError")
  | Some url_monitoring_result =>
      append_result
        (set_website_id (wd_id wd) (set_url (wd_url wd) url_monitoring_result))
  end.

(** [while True]: the loop body, then [resumes] more passes, one for each
    time the sleep ends; the coroutine is then left suspended in its
    sleep. *)
Fixpoint recurrent_loop (env : Env) (wd : website_data) (resumes : nat)
  : M task_status :=
  match resumes with
  | O => probe_and_append env wd ;;; ret Sleeping
  | S n => probe_and_append env wd ;;; recurrent_loop env wd n
  end.

Definition check_website_recurrently (env : Env) (wd : website_data)
  (resumes : nat) : M task_status :=
  if negb (truthy_int (wd_interval wd))
  then log (InfoSkipMonitoring (wd_url wd)) ;;; ret Done
  else recurrent_loop env wd resumes.

(** ** website_monitor.py: [monitor_websites], the Scheduler loop *)

(** [try: self.save_website_monitoring_results()
     except Exception as err: logger.error(...)] *)
Definition flush_cycle (env : Env) : M unit :=
  try_except (save_website_monitoring_results env)
             (fun err => log (ErrorCouldNotSave err)).

(** The outer [while True] from the test of the inner
    [while not self.monitoring_results]: on an empty buffer the coroutine
    suspends in [asyncio.sleep] ([true]); otherwise it flushes, logs the
    number of tasks and tests again, without giving control back.
    [false] is running out of [fuel]. *)
Fixpoint flush_until_empty (env : Env) (num_tasks : nat) (fuel : nat) : M bool :=
  st <- get_state ;;
  match monitoring_results st with
  | [] => ret true
  | _ :: _ =>
      match fuel with
      | O => ret false
      | S fuel' =>
          flush_cycle env ;;;
          log (DebugNumTasks num_tasks) ;;;
          flush_until_empty env num_tasks fuel'
      end
  end.

(** ** The event loop *)

(** The tasks share one event loop and give control back only at an
    [await].  A pass of a Site Task (probe, stamp, append) is one step of
    the system: while it is suspended in the probe it shares only the
    clock and the network with the other tasks, and it touches the buffer
    once, after the probe has returned.  A run of the Scheduler from one
    sleep to the next is one step as well: it has no [await] while the
    buffer holds results.  Which task runs next is the choice of the
    event loop; the sequence of its choices is a list of [event]s. *)

Inductive scheduler_status :=
| NotStarted
| Waiting                       (* suspended in the inner [while] *)
| Crashed (e : exn)
| OutOfFuel.

Record system := mkSystem {
  mem : state;
  tasks : list (website_data * task_status);
  scheduler : scheduler_status
}.

(** What the event loop does next. *)
Inductive event :=
| RunSite (i : nat)               (* start or resume the i-th Site Task *)
| RunScheduler                    (* start or resume [monitor_websites] *)
| Register (wd : website_data).   (* [launch_website_monitoring] from the API *)

(** An asyncio task keeps the exception that ended its coroutine. *)
Definition run_task (m : M task_status) (st : state) : task_status * state :=
  match m st with
  | (inl s, st') => (s, st')
  | (inr e, st') => (Failed e, st')
  end.

Fixpoint set_nth {A} (i : nat) (x : A) (l : list A) : list A :=
  match l, i with
  | [], _ => []
  | _ :: l', O => x :: l'
  | y :: l', S i' => y :: set_nth i' x l'
  end.

Definition is_live (t : website_data * task_status) : bool :=
  match snd t with
  | Pending | Sleeping => true
  | _ => false
  end.

(** [len(asyncio.all_tasks())]: the unfinished Site Tasks and the
    Scheduler itself (tasks of the web server are not counted; the number
    only goes to the debug log). *)
Definition num_tasks (ts : list (website_data * task_status)) : nat :=
  S (List.length (filter is_live ts)).

Definition run_site (env : Env) (i : nat) (sys : system) : system :=
  match nth_error (tasks sys) i with
  | Some (wd, Pending) =>
      let (s, st') := run_task (check_website_recurrently env wd 0) (mem sys) in
      mkSystem st' (set_nth i (wd, s) (tasks sys)) (scheduler sys)
  | Some (wd, Sleeping) =>
      let (s, st') := run_task (recurrent_loop env wd 0) (mem sys) in
      mkSystem st' (set_nth i (wd, s) (tasks sys)) (scheduler sys)
  | _ => sys
  end.

(** The Scheduler coroutine from its start, or from the end of a sleep,
    to its next sleep.  Each flush of a buffer that is not empty removes a
    result, so the length of the buffer is fuel enough
    ([flush_until_empty_suspends]). *)
Definition run_scheduler (env : Env) (sys : system) : system :=
  match scheduler sys with
  | NotStarted | Waiting =>
      let m :=
        (match scheduler sys with
         | NotStarted => log (DebugNumTasks (num_tasks (tasks sys)))
         | _ => ret tt
         end) ;;;
        flush_until_empty env (num_tasks (tasks sys))
          (List.length (monitoring_results (mem sys))) in
      match m (mem sys) with
      | (inl true, st') => mkSystem st' (tasks sys) Waiting
      | (inl false, st') => mkSystem st' (tasks sys) OutOfFuel
      | (inr e, st') => mkSystem st' (tasks sys) (Crashed e)
      end
  | _ => sys
  end.

Definition step (env : Env) (ev : event) (sys : system) : system :=
  match ev with
  | RunSite i => run_site env i sys
  | RunScheduler => run_scheduler env sys
  | Register wd => mkSystem (mem sys) (tasks sys ++ [(wd, Pending)]) (scheduler sys)
  end.

Definition run (env : Env) (evs : list event) (sys : system) : system :=
  fold_left (fun s ev => step env ev s) evs sys.

(** [monitor_websites(websites_data)] up to its first suspension: one
    Site Task is created for each site, none has run yet. *)
Definition monitor_websites (env : Env) (websites_data : list website_data)
  (st : state) : system :=
  run_scheduler env
    (mkSystem st (map (fun wd => (wd, Pending)) websites_data) NotStarted).

(** * Vocabulary of the properties *)

(** ** The [while] loop of the Persister *)

Abbreviation BATCH := MonitoringSettings.RESULTS_BATCH_SAVE_SIZE.

(** The counter the loop builds for a batch, from a starting counter. *)
Definition count_codes (batch : list WebsiteMonitoringResult) (c : counter)
  : counter :=
  fold_left (fun d r => increment (http_status_code r) d) batch c.

(** [rs], appended to the buffer one after the other. *)
Fixpoint append_all (rs : list WebsiteMonitoringResult) : M unit :=
  match rs with
  | [] => ret tt
  | r :: rs' => append_result r ;;; append_all rs'
  end.

(** ** The Result Sink *)

(** Whether the sink call number [n] raises on [batch], and what. *)
Definition sink_outcome (env : Env) (n : nat)
  (batch : list WebsiteMonitoringResult) : option exn :=
  match read_file env sql_insert_monitoring_data with
  | None => Some (OSError sql_insert_monitoring_data)
  | Some query =>
      match executemany env n query batch with
      | Some msg => Some (Psycopg2Error msg)
      | None => None
      end
  end.

(** What the sink call adds to the log when it raises [e]. *)
Definition sink_error_log (e : exn) : list log_record :=
  match e with
  | Psycopg2Error msg => [ErrorDatabase (Psycopg2Error msg)]
  | _ => []
  end.

(** The dict logged for a batch. *)
Definition breakdown_of (batch : list WebsiteMonitoringResult) : counter :=
  dict_of (sorted_by_count_reverse (count_codes batch [])).

(** ** The status-code counter *)

Definition keys (d : counter) : list Z := map fst d.

Definition codes_of (batch : list WebsiteMonitoringResult) : list Z :=
  map http_status_code batch.

(** The distinct elements of a list, in the order of their first
    occurrence. *)
Fixpoint first_occurrences (l : list Z) : list Z :=
  match l with
  | [] => []
  | x :: l' => x :: filter (fun y => negb (y =? x)%Z) (first_occurrences l')
  end.

Definition key_in (k : Z) (ks : list Z) : bool := existsb (Z.eqb k) ks.

(** ** Sorting the counter *)

(** The order of [sorted(..., reverse=True)] on the counts. *)
Definition count_ge (a b : Z * nat) : Prop := snd b <= snd a.

(** The items with count [n], in the order they have in [l]. *)
Definition with_count (n : nat) (l : list (Z * nat)) : list (Z * nat) :=
  filter (fun e => snd e =? n) l.

(** The breakdown that belongs to a list of status codes: each distinct
    code with its number of occurrences, most frequent first, codes with
    equal counts in the order of their first occurrence. *)
Definition breakdown_of_codes (codes : list Z) : list (Z * nat) :=
  sorted_by_count_reverse
    (map (fun c => (c, count_occ Z.eq_dec codes c)) (first_occurrences codes)).

(** ** The Prober *)

Arguments total_seconds : simpl never.

Arguments requests_made : simpl never.

(** The URL the Prober asks for. *)
Definition https_url (u : string) : string := ("https://" ++ u)%string.

Arguments https_url : simpl never.

(** The method follows the truthiness of the pattern. *)
Definition method_for (regexp_pattern : option string) : http_method :=
  if truthy_str regexp_pattern then GET else HEAD.

(** The outcome of the request that a probe started in [st] makes. *)
Definition probe_outcome (env : Env) (u : string)
  (regexp_pattern : option string) (st : state) : http_outcome :=
  http env (requests_made (net_trace st)) (method_for regexp_pattern) (https_url u).

(** The state after a probe that read the clock [ticks] times, added the
    events [evs] to the network trace and the records [lg] to the log. *)
Definition after_probe (st : state) (ticks : nat) (evs : list net_event)
  (lg : list log_record) : state :=
  mkState (monitoring_results st) (sink_calls st) (db_rows st)
          (logs st ++ lg) (ticks + now_count st) (net_trace st ++ evs).

(** Where an exception raised inside the [try] suite leads. *)
Definition after_raise (env : Env) (u : string) (st : state)
  (evs : list net_event) (e : exn) : (WebsiteMonitoringResult + exn) * state :=
  match e with
  | TimeoutError =>
      (inl (mkResult (clock env (now_count st)) (clock env (S (now_count st)))
              (inject_Z MonitoringSettings.REQUEST_TIMEOUT)
              HTTPStatus.REQUEST_TIMEOUT None None None),
       after_probe st 2 evs [])
  | ClientError msg =>
      (inr (ClientError msg),
       after_probe st 1 evs [ErrorConnecting u (ClientError msg)])
  | other => (inr other, after_probe st 1 evs [])
  end.

Definition after_response (env : Env) (st : state) (evs : list net_event)
  (status : Z) (compliant : option bool) : (WebsiteMonitoringResult + exn) * state :=
  (inl (mkResult (clock env (now_count st)) (clock env (S (now_count st)))
          (total_seconds (clock env (S (now_count st))) (clock env (now_count st)))
          status None None compliant),
   after_probe st 2 evs []).

(** The events a probe adds to the network trace: one request to the
    https URL, with the method the pattern asks for, and the read of the
    body when a GET was answered. *)
Definition probe_events (env : Env) (u : string)
  (regexp_pattern : option string) (st : state) : list net_event :=
  Request (method_for regexp_pattern) (https_url u) MonitoringSettings.REQUEST_TIMEOUT
  :: match method_for regexp_pattern, probe_outcome env u regexp_pattern st with
     | GET, Response _ _ => [ReadText (https_url u)]
     | _, _ => []
     end.

(** A probe as a single attempt over https, with no loop. *)
Definition https_only_attempt (env : Env) (u : string)
  (regexp_pattern : option string) : M (option WebsiteMonitoringResult) :=
  r <- attempt env u regexp_pattern "https" ;;
  ret (Some r).

Definition event_target (ev : net_event) : string :=
  match ev with
  | Request _ target _ => target
  | ReadText target => target
  end.

(** The request of a probe times out: the HEAD or GET raises
    [TimeoutError], or the GET is answered and reading the body raises
    it. *)
Definition request_times_out (env : Env) (u : string)
  (regexp_pattern : option string) (st : state) : Prop :=
  probe_outcome env u regexp_pattern st = RaiseTimeout \/
  (truthy_str regexp_pattern = true /\
   exists status, probe_outcome env u regexp_pattern st = Response status TextTimeout).

(** ** The Site Tasks *)

(** A task that has ended. *)
Definition ended (s : task_status) : Prop :=
  s = Done \/ exists e, s = Failed e.

(** A Site Task that is about to probe: suspended in its sleep, or created
    for a site with an interval. *)
Definition about_to_probe (wd : website_data) (s : task_status) : Prop :=
  s = Sleeping \/ (s = Pending /\ truthy_int (wd_interval wd) = true).

(** A site with no interval: the task that was created for it is still to
    run, or has returned. *)
Definition idle (s : task_status) : Prop := s = Pending \/ s = Done.

(** ** Scenarios *)

(** Concrete environments and states, for the cases of
    [tests/test_website_monitor.py] and the instances of the theorems. *)

(** A clock that advances by a quarter of a second at each reading. *)
Definition steady_clock (n : nat) : datetime := (Z.of_nat n * 250000)%Z.

(** [re.search] for a pattern that has no special character: the
    pattern occurs somewhere in the body. *)
Definition literal_search (pattern body : string) : exn + bool :=
  inr (match String.index 0 pattern body with
       | Some _ => true
       | None => false
       end).

Definition insert_query : string :=
  "INSERT INTO website_monitoring_data VALUES (...)"%string.

(** Every site answers 200, the database works. *)
Definition env_up : Env :=
  mkEnv steady_clock
        (fun _ _ _ => Response 200 (Text "Test Pattern in response"%string))
        literal_search
        (fun _ => Some insert_query)
        (fun _ _ _ => None).

(** Every request times out, after 31.5 seconds on the clock. *)
Definition env_timeout : Env :=
  mkEnv (fun n => match n with O => 0%Z | _ => 31500000%Z end)
        (fun _ _ _ => RaiseTimeout)
        literal_search
        (fun _ => Some insert_query)
        (fun _ _ _ => None).

(** Every connection is refused. *)
Definition env_refused : Env :=
  mkEnv steady_clock
        (fun _ _ _ => RaiseClientError "Cannot connect to host"%string)
        literal_search
        (fun _ => Some insert_query)
        (fun _ _ _ => None).

(** The database rejects every write. *)
Definition env_db_down : Env :=
  mkEnv steady_clock
        (fun _ _ _ => Response 200 (Text "Test Pattern in response"%string))
        literal_search
        (fun _ => Some insert_query)
        (fun _ _ _ => Some "server closed the connection unexpectedly"%string).

(** The wall clock is set back by five seconds while the request is in
    flight. *)
Definition env_clock_back : Env :=
  mkEnv (fun n => match n with O => 10000000%Z | _ => 5000000%Z end)
        (fun _ _ _ => Response 200 (Text ""%string))
        literal_search
        (fun _ => Some insert_query)
        (fun _ _ _ => None).

Definition result_with_code (code : Z) : WebsiteMonitoringResult :=
  mkResult 0%Z 250000%Z (Qmake 1 4) code (Some "test.com"%string) (Some 1%Z) None.

Definition buffer_of (codes : list Z) : state :=
  mkState (map result_with_code codes) [] [] [] 0 [].

Definition site_a : website_data := mkSite "www.test1.com"%string 1 (Some 10%Z) None.

Definition site_b : website_data := mkSite "www.test2.com"%string 2 None None.

Definition two_sites : system :=
  monitor_websites env_refused [site_a; site_b] initial_state.

(** * More of the engine: vocabulary *)

(** ** Whole runs of the Scheduler *)

(** The batches that successive flushes take from a buffer: the first
    [BATCH] results, then the next ones, until none is left ([fuel] bounds
    the number of batches). *)
Fixpoint batches (fuel : nat) (buf : list WebsiteMonitoringResult)
  : list (list WebsiteMonitoringResult) :=
  match buf, fuel with
  | [], _ => []
  | _ :: _, O => []
  | _ :: _, S fuel' => firstn BATCH buf :: batches fuel' (skipn BATCH buf)
  end.

(** The rows that reach the database when the batches [bs] go to the
    sink, the first of them in the sink call number [k]: the batches whose
    call does not raise. *)
Fixpoint committed (env : Env) (k : nat) (bs : list (list WebsiteMonitoringResult))
  : list WebsiteMonitoringResult :=
  match bs with
  | [] => []
  | b :: bs' =>
      match sink_outcome env k b with
      | None => b ++ committed env (S k) bs'
      | Some _ => committed env (S k) bs'
      end
  end.

(** The SQL file can be read and no write is rejected. *)
Definition sink_works (env : Env) : Prop :=
  forall n batch, sink_outcome env n batch = None.

(** Every sink call raises. *)
Definition sink_down (env : Env) : Prop :=
  forall n batch, sink_outcome env n batch <> None.

(** ** Where results come from *)

(** The sites the Scheduler has a task for. *)
Definition sites (sys : system) : list website_data := map fst (tasks sys).

(** [r] carries the url and the id of one of the sites [ws]. *)
Definition belongs (ws : list website_data) (r : WebsiteMonitoringResult) : Prop :=
  exists wd, In wd ws /\
             url r = Some (wd_url wd) /\ website_id r = Some (wd_id wd).

(** Every result held anywhere (buffer, batches handed to the sink, rows
    of the database) belongs to a site of the Scheduler. *)
Definition all_results_belong (sys : system) : Prop :=
  Forall (belongs (sites sys)) (monitoring_results (mem sys)) /\
  Forall (Forall (belongs (sites sys))) (sink_calls (mem sys)) /\
  Forall (belongs (sites sys)) (db_rows (mem sys)).

(** A Scheduler that wakes up on three buffered results. *)
Definition three_buffered : system :=
  mkSystem (buffer_of [200; 404; 200]%Z) [(site_a, Sleeping)] Waiting.

(** The pattern of this site is not a regular expression: [re.search]
    raises [re.error]. *)
Definition env_bad_pattern : Env :=
  mkEnv steady_clock
        (fun _ _ _ => Response 200 (Text "Test Pattern in response"%string))
        (fun _ _ => inl (OtherException "re.error: unterminated character set"%string))
        (fun _ => Some insert_query)
        (fun _ _ _ => None).

Definition site_bad_pattern : website_data :=
  mkSite "www.test3.com"%string 3 (Some 10%Z) (Some "[a-"%string).

Definition one_sleeping_site (wd : website_data) : system :=
  mkSystem initial_state [(wd, Sleeping)] Waiting.

(** The sum of the counts of a counter. *)
Definition total_count (d : counter) : nat := list_sum (map snd d).

(** * database_manager.py, url_validator.py and main.py *)

(** The rest of the repository: the statements of the database manager,
    the URL formatter and the two endpoints of the API.

    - A value of a row or of a request is [None], an [int] or a [str]; a
      row is a [dict] from column names to values, in insertion order.
    - The SQL files are not part of the sources: the database is an
      oracle, [cursor_execute], that gives for the n-th statement what
      [cursor.execute] does, and what the cursor then holds.  A commit is
      taken to succeed.
    - [re.match(URL_VALIDITY_REGEX, url)], [urllib.parse.urlparse] and
      [str.lower] are library functions, taken as oracles; a string is the
      sequence of its characters.
    - The tasks that [launch_website_monitoring] creates are kept as the
      rows they were created from. *)

Inductive pyval :=
| PyNone
| PyInt (z : Z)
| PyStr (s : string).

Definition pydict := list (string * pyval).

(** [d[k]]; [None] is a KeyError. *)
Fixpoint pydict_get (k : string) (d : pydict) : option pyval :=
  match d with
  | [] => None
  | (k', v) :: d' => if String.eqb k k' then Some v else pydict_get k d'
  end.

(** [d[k] = v]: a present key keeps its place, a new one goes last. *)
Fixpoint pydict_set (k : string) (v : pyval) (d : pydict) : pydict :=
  match d with
  | [] => [(k, v)]
  | (k', v') :: d' =>
      if String.eqb k k' then (k', v) :: d' else (k', v') :: pydict_set k v d'
  end.

(** [dict(pairs)] *)
Definition pydict_of (pairs : list (string * pyval)) : pydict :=
  fold_left (fun d kv => pydict_set (fst kv) (snd kv) d) pairs [].

Inductive app_exn :=
| DbError (msg : string)                         (* psycopg2.Error *)
| NoSuchFile (path : string)                     (* OSError of open() *)
| TypeError
| IndexError
| KeyError (key : string)
| ValueError                                     (* of urlparse *)
| InvalidUrlException (u : string)
| HTTPException (status_code : Z) (detail : string).

(** What [cursor.execute(query, fields)] does: it raises, or the cursor
    then has a [description] ([None] for a statement that returns no rows)
    and the rows that [fetchall] gives. *)
Inductive execute_outcome :=
| ExecuteRaises (msg : string)
| ExecuteReturns (description : option (list string)) (rows : list (list pyval)).

Record AppEnv := mkAppEnv {
  sql_files : string -> option string;
  cursor_execute : nat -> string -> option pydict -> execute_outcome;
  url_regex_matches : string -> bool;
  (** [netloc] and [path] of [urlparse(url)]; [None] is a ValueError *)
  urlparse : string -> option (string * string);
  str_lower : string -> string
}.

Inductive db_event :=
| Execute (query : string) (fields : option pydict)
| Commit
| Rollback.

Inductive app_log :=
| InfoDbVersion (version : pyval)
| InfoExecutedSqlFile (file_path : string)
| ErrorDatabaseRollback (err : app_exn).

Record webapp := mkWebapp {
  db_events : list db_event;
  app_logs : list app_log;
  (** the rows [launch_website_monitoring] was called with, in order *)
  launched : list pydict
}.

Definition initial_webapp : webapp := mkWebapp [] [] [].

(** ** State and exception monad of the application *)

Definition App (X : Type) : Type := webapp -> (X + app_exn) * webapp.

Definition aret {X} (x : X) : App X := fun a => (inl x, a).
Definition araise {X} (e : app_exn) : App X := fun a => (inr e, a).
Definition abind {X Y} (m : App X) (k : X -> App Y) : App Y :=
  fun a => match m a with
           | (inl x, a') => k x a'
           | (inr e, a') => (inr e, a')
           end.
Definition atry {X} (m : App X) (h : app_exn -> App X) : App X :=
  fun a => match m a with
           | (inl x, a') => (inl x, a')
           | (inr e, a') => h e a'
           end.

Declare Scope app_scope.
Notation "x <- m ;; k" := (abind m (fun x => k))
  (at level 61, m at next level, right associativity) : app_scope.
Notation "m ;;; k" := (abind m (fun _ => k))
  (at level 61, right associativity) : app_scope.
Open Scope app_scope.

Definition record_db_event (ev : db_event) : App unit := fun a =>
  (inl tt, mkWebapp (db_events a ++ [ev]) (app_logs a) (launched a)).

Definition write_app_log (r : app_log) : App unit := fun a =>
  (inl tt, mkWebapp (db_events a) (app_logs a ++ [r]) (launched a)).

Definition statements_run (evs : list db_event) : nat :=
  List.length
    (filter (fun ev => match ev with Execute _ _ => true | _ => false end) evs).

(** [cursor.execute(query, fields)] *)
Definition execute (env : AppEnv) (query : string) (fields : option pydict)
  : App (option (list string) * list (list pyval)) :=
  fun a =>
  let a' := mkWebapp (db_events a ++ [Execute query fields]) (app_logs a) (launched a) in
  match cursor_execute env (statements_run (db_events a)) query fields with
  | ExecuteRaises msg => (inr (DbError msg), a')
  | ExecuteReturns description rows => (inl (description, rows), a')
  end.

(** ** database_manager.py *)

(** [check_db]: the statement is not committed and there is no [except]
    clause.  [fetchone] raises a psycopg2.Error when there is no result
    set and gives [None] when there is no row. *)
Definition check_db (env : AppEnv) : App unit :=
  cur <- execute env "SELECT VERSION()"%string None ;;
  match cur with
  | (None, _) => araise (DbError "no results to fetch"%string)
  | (Some _, []) => araise TypeError
  | (Some _, [] :: _) => araise IndexError
  | (Some _, (version :: _) :: _) => write_app_log (InfoDbVersion version)
  end.

(** [with open(file_path) as sql_file: query = sql_file.read()] *)
Definition read_sql_file (env : AppEnv) (file_path : string) : App string :=
  match sql_files env file_path with
  | Some query => aret query
  | None => araise (NoSuchFile file_path)
  end.

(** [dict(zip(column_names, row))] *)
Definition row_dict (column_names : list string) (row : list pyval) : pydict :=
  pydict_of (combine column_names row).

(** How the [try] suite of [execute_sql_file] ends: by [return None], or
    at its end with [column_names] and [rows] set. *)
Inductive try_end :=
| ReturnedNone
| WithRows (column_names : list string) (rows : list (list pyval)).

(** [except psycopg2.Error as err: rollback; log; raise] *)
Definition except_db_error (e : app_exn) : App try_end :=
  match e with
  | DbError msg =>
      record_db_event Rollback ;;;
      write_app_log (ErrorDatabaseRollback (DbError msg)) ;;;
      araise (DbError msg)
  | other => araise other
  end.

Definition execute_sql_file (env : AppEnv) (file_path : string)
  (is_return_data : bool) (fields_data : option pydict)
  : App (option (list pydict)) :=
  query <- read_sql_file env file_path ;;
  t <- atry
         (cur <- execute env query fields_data ;;
          record_db_event Commit ;;;
          write_app_log (InfoExecutedSqlFile file_path) ;;;
          if negb is_return_data then aret ReturnedNone
          else
            match fst cur with
            | None => araise TypeError
            | Some column_names => aret (WithRows column_names (snd cur))
            end)
         except_db_error ;;
  match t with
  | ReturnedNone => aret None
  | WithRows column_names rows => aret (Some (map (row_dict column_names) rows))
  end.

Definition create_tables (env : AppEnv) : App (option (list pydict)) :=
  execute_sql_file env "sql/create_tables.sql"%string false None.

(** [insert_website_data] and [update_website_data] drop what
    [execute_sql_file] returns. *)
Definition insert_website_data (env : AppEnv) (fields_data : pydict)
  (is_return_data : bool) : App unit :=
  execute_sql_file env "sql/insert_website_info.sql"%string is_return_data
    (Some fields_data) ;;;
  aret tt.

Definition update_website_data (env : AppEnv) (fields_data : pydict) : App unit :=
  execute_sql_file env "sql/update_website_info.sql"%string false
    (Some fields_data) ;;;
  aret tt.

Definition get_website_data (env : AppEnv) (u : option string)
  : App (option (list pydict)) :=
  if negb (truthy_str u)
  then execute_sql_file env "sql/get_all_websites_info.sql"%string true None
  else execute_sql_file env "sql/get_website_info.sql"%string true
         (Some [("url"%string, PyStr (pattern_text u))]).

(** ** url_validator.py *)

(** [is_website_url_valid] *)
Definition is_website_url_valid (env : AppEnv) (u : string) : bool :=
  url_regex_matches env u.

Definition char_in (c : Ascii.ascii) (chars : string) : bool :=
  existsb (Ascii.eqb c) (list_ascii_of_string chars).

(** [s.lstrip(chars)]: the leading characters that occur in [chars] are
    removed. *)
Fixpoint lstrip (chars : string) (s : string) : string :=
  match s with
  | EmptyString => EmptyString
  | String c s' => if char_in c chars then lstrip chars s' else s
  end.

(** The character of a string of one character. *)
Definition char_of (s : string) : Ascii.ascii :=
  match s with
  | String c _ => c
  | EmptyString => Ascii.zero
  end.

(** [s.split("/")[0]]: [s] up to its first slash. *)
Fixpoint before_slash (s : string) : string :=
  match s with
  | EmptyString => EmptyString
  | String c s' =>
      if Ascii.eqb c (char_of "/") then EmptyString
      else String c (before_slash s')
  end.

Definition nonempty (s : string) : bool := negb (String.eqb s EmptyString).

(** [parser.netloc or parser.path.split("/")[0]] *)
Definition clean_url (netloc path : string) : string :=
  if nonempty netloc then netloc else before_slash path.

Definition get_formatted_url (env : AppEnv) (u : string) (skip_validation : bool)
  : App string :=
  if negb skip_validation && negb (is_website_url_valid env u)
  then araise (InvalidUrlException u)
  else
    match urlparse env u with
    | None => araise ValueError
    | Some (netloc, path) =>
        aret (str_lower env (lstrip "www."%string (clean_url netloc path)))
    end.

(** ** main.py *)

Module HTTP.
Definition CREATED : Z := 201.
Definition BAD_REQUEST : Z := 400.
Definition NOT_FOUND : Z := 404.
End HTTP.

(** The pydantic model [WebsiteInfo]. *)
Record WebsiteInfo := mkWebsiteInfo {
  wi_url : string;
  wi_interval : option Z;
  wi_regexp_pattern : option string
}.

Definition py_int (x : option Z) : pyval :=
  match x with
  | Some z => PyInt z
  | None => PyNone
  end.

Definition py_str (x : option string) : pyval :=
  match x with
  | Some s => PyStr s
  | None => PyNone
  end.

(** [website_info.dict()] *)
Definition website_info_dict (wi : WebsiteInfo) : pydict :=
  [("url"%string, PyStr (wi_url wi));
   ("interval"%string, py_int (wi_interval wi));
   ("regexp_pattern"%string, py_str (wi_regexp_pattern wi))].

(** [launch_website_monitoring]: the coroutine object is made without
    running it; the name of the task is [website_data["url"]]. *)
Definition launch_website_monitoring (website_data : pydict) : App unit :=
  match pydict_get "url"%string website_data with
  | None => araise (KeyError "url"%string)
  | Some _ => fun a =>
      (inl tt, mkWebapp (db_events a) (app_logs a) (launched a ++ [website_data]))
  end.

(** The [for] loop of [monitor_websites], on the rows as the database
    gives them: [await self.launch_website_monitoring(website_data)] for
    each row in turn; a raise ends the loop. *)
Fixpoint launch_all (websites_data : list pydict) : App unit :=
  match websites_data with
  | [] => aret tt
  | website_data :: rest =>
      launch_website_monitoring website_data ;;; launch_all rest
  end.

(** [for website_data in websites_data]: iterating over [None] is a
    TypeError. *)
Definition launch_websites (websites_data : option (list pydict)) : App unit :=
  match websites_data with
  | None => araise TypeError
  | Some rows => launch_all rows
  end.

(** The task of [monitor_websites] in the event loop.
    [asyncio.create_task] makes the task and schedules it; the coroutine
    does not run before the event loop gets control back. *)
Inductive monitor_task :=
| MonitorNotCreated
| MonitorCreated (websites_data : option (list pydict))  (* not run yet *)
| MonitorLaunched                    (* past its [for] loop *)
| MonitorFailed (e : app_exn).       (* ended by an exception *)

(** The application together with the task of [monitor_websites]. *)
Record server := mkServer {
  web : webapp;
  monitor : monitor_task
}.

(** [startup_event].  The handler calls the database three times and
    creates the task of [monitor_websites] with what the last call
    returned, [None] included; it launches nothing itself and returns
    [None].  An exception of a database call leaves it before the task
    is created.  Connecting to the database ([DatabaseManager()]) is left
    out. *)
Definition startup_event (env : AppEnv) (a : webapp)
  : (unit + app_exn) * server :=
  match (check_db env ;;;
         create_tables env ;;;
         get_website_data env None) a with
  | (inl websites, a') => (inl tt, mkServer a' (MonitorCreated websites))
  | (inr e, a') => (inr e, mkServer a' MonitorNotCreated)
  end.

(** The first run of the created task by the event loop, from the start
    of [monitor_websites] to the end of its [for] loop (the loop has no
    suspension point).  An exception ends the task and stays in it: the
    handler that created the task has returned. *)
Definition run_monitor_task (s : server) : server :=
  match monitor s with
  | MonitorCreated websites_data =>
      match launch_websites websites_data (web s) with
      | (inl _, a') => mkServer a' MonitorLaunched
      | (inr e, a') => mkServer a' (MonitorFailed e)
      end
  | _ => s
  end.

(** [except InvalidUrlException as err: raise HTTPException(...)] *)
Definition except_invalid_url (wi : WebsiteInfo) (e : app_exn) : App string :=
  match e with
  | InvalidUrlException _ =>
      araise (HTTPException HTTP.BAD_REQUEST ("Invalid URL: " ++ wi_url wi)%string)
  | other => araise other
  end.

(** The decorator [validate_and_alter_website_info_url]. *)
Definition validate_and_alter_website_info_url {X} (env : AppEnv)
  (func : WebsiteInfo -> App X) (wi : WebsiteInfo) : App X :=
  formatted <- atry (get_formatted_url env (wi_url wi) false)
                    (except_invalid_url wi) ;;
  func (mkWebsiteInfo formatted (wi_interval wi) (wi_regexp_pattern wi)).

(** [found_websites[0]] *)
Definition first_row (found : option (list pydict)) : App pydict :=
  match found with
  | None => araise TypeError
  | Some [] => araise IndexError
  | Some (row :: _) => aret row
  end.

(** Truthiness of what [get_website_data] returns. *)
Definition truthy_rows (found : option (list pydict)) : bool :=
  match found with
  | Some (_ :: _) => true
  | _ => false
  end.

(** The body of [create_website_info]. *)
Definition create_website_info_body (env : AppEnv) (wi : WebsiteInfo) : App string :=
  found_website <- get_website_data env (Some (wi_url wi)) ;;
  if truthy_rows found_website
  then araise (HTTPException HTTP.BAD_REQUEST
                 ("Website with URL " ++ wi_url wi ++ " already exists")%string)
  else
    insert_website_data env (website_info_dict wi) false ;;;
    found_websites <- get_website_data env (Some (wi_url wi)) ;;
    row <- first_row found_websites ;;
    launch_website_monitoring row ;;;
    aret "Website added to monitoring"%string.

Definition create_website_info (env : AppEnv) : WebsiteInfo -> App string :=
  validate_and_alter_website_info_url env (create_website_info_body env).

Definition is_none {X} (x : option X) : bool :=
  match x with
  | None => true
  | Some _ => false
  end.

(** [if value is not None: row[key] = value] *)
Definition set_if_given (key : string) (value : pyval) (row : pydict) : pydict :=
  match value with
  | PyNone => row
  | _ => pydict_set key value row
  end.

(** The body of [update_website_info]. *)
Definition update_website_info_body (env : AppEnv) (wi : WebsiteInfo) : App string :=
  if is_none (wi_interval wi) && is_none (wi_regexp_pattern wi)
  then araise (HTTPException HTTP.BAD_REQUEST
                 "Interval or regexp_pattern should be filled"%string)
  else
    found_websites <- get_website_data env (Some (wi_url wi)) ;;
    if negb (truthy_rows found_websites)
    then araise (HTTPException HTTP.NOT_FOUND
                   ("Website with URL " ++ wi_url wi ++ " not found")%string)
    else
      found_website <- first_row found_websites ;;
      let found_website :=
        set_if_given "interval"%string (py_int (wi_interval wi)) found_website in
      let found_website :=
        set_if_given "regexp_pattern"%string (py_str (wi_regexp_pattern wi))
          found_website in
      update_website_data env found_website ;;;
      aret "Website info changed, it will be applied during the next run of the app"%string.

Definition update_website_info (env : AppEnv) : WebsiteInfo -> App string :=
  validate_and_alter_website_info_url env (update_website_info_body env).

Close Scope app_scope.

(** * The database layer and the API: vocabulary *)

(** What a call of [execute_sql_file] adds to the state when the
    statement raises [msg]. *)
Definition after_db_error (a : webapp) (query : string) (fields : option pydict)
  (msg : string) : webapp :=
  mkWebapp (db_events a ++ [Execute query fields; Rollback])
           (app_logs a ++ [ErrorDatabaseRollback (DbError msg)])
           (launched a).

(** What a call of [execute_sql_file] adds to the state when the
    statement is executed. *)
Definition after_commit (a : webapp) (file_path query : string)
  (fields : option pydict) : webapp :=
  mkWebapp (db_events a ++ [Execute query fields; Commit])
           (app_logs a ++ [InfoExecutedSqlFile file_path])
           (launched a).

(** The events of the database come in pairs: a statement and its commit,
    or a statement and its rollback. *)
Inductive bracketed : list db_event -> Prop :=
| bracketed_nil : bracketed []
| bracketed_commit query fields evs :
    bracketed evs -> bracketed (Execute query fields :: Commit :: evs)
| bracketed_rollback query fields evs :
    bracketed evs -> bracketed (Execute query fields :: Rollback :: evs).

(** The characters that [lstrip("www.")] removes. *)
Definition w_or_dot (c : Ascii.ascii) : Prop :=
  c = char_of "w" \/ c = char_of ".".

(** ** Scenarios *)

(** [str.lower] on the letters A to Z. *)
Definition ascii_lower_char (c : Ascii.ascii) : Ascii.ascii :=
  let n := Ascii.nat_of_ascii c in
  if (65 <=? n) && (n <=? 90) then Ascii.ascii_of_nat (n + 32) else c.

Fixpoint ascii_lower (s : string) : string :=
  match s with
  | EmptyString => EmptyString
  | String c s' => String (ascii_lower_char c) (ascii_lower s')
  end.

(** [urlparse] of a string with no scheme and no ["//"]: no netloc, the
    string is the path. *)
Definition parse_as_path (u : string) : option (string * string) :=
  Some (EmptyString, u).

Definition website_columns : list string :=
  ["id"%string; "url"%string; "interval"%string; "regexp_pattern"%string].

Definition stored_row : list pyval :=
  [PyInt 7; PyStr "example.com"; PyInt 30; PyNone].

(** A database that holds one website and returns it to every
    statement. *)
Definition env_one_site : AppEnv :=
  mkAppEnv (fun path => Some path)
           (fun _ _ _ => ExecuteReturns (Some website_columns) [stored_row])
           (fun _ => true)
           parse_as_path
           ascii_lower.

(** A database that holds no website: the lookups give no row; the third
    statement of a creation, the read back, gives the new row. *)
Definition env_empty_table : AppEnv :=
  mkAppEnv (fun path => Some path)
           (fun n _ _ =>
              match n with
              | 2 => ExecuteReturns (Some website_columns) [stored_row]
              | _ => ExecuteReturns (Some website_columns) []
              end)
           (fun _ => true)
           parse_as_path
           ascii_lower.

(** A database that rejects every statement. *)
Definition env_db_rejects : AppEnv :=
  mkAppEnv (fun path => Some path)
           (fun _ _ _ => ExecuteRaises "connection already closed"%string)
           (fun _ => true)
           parse_as_path
           ascii_lower.

(** A statement that returns no rows, such as an INSERT. *)
Definition env_no_result_set : AppEnv :=
  mkAppEnv (fun path => Some path)
           (fun _ _ _ => ExecuteReturns None [])
           (fun _ => true)
           parse_as_path
           ascii_lower.

(** No URL is valid. *)
Definition env_no_valid_url : AppEnv :=
  mkAppEnv (fun path => Some path)
           (fun _ _ _ => ExecuteReturns (Some website_columns) [stored_row])
           (fun _ => false)
           parse_as_path
           ascii_lower.

(** ** The endpoints *)

(** What [get_formatted_url] makes of the host that [urlparse] found. *)
Definition formatted (env : AppEnv) (netloc path : string) : string :=
  str_lower env (lstrip "www."%string (clean_url netloc path)).

(** A computation that creates no task, whether it returns or raises. *)
Definition keeps_launched {X} (m : App X) : Prop :=
  forall a, launched (snd (m a)) = launched a.

(** A computation that creates one task, for a row that has a url, when it
    returns, and none when it raises. *)
Definition launches_one_on_success {X} (m : App X) : Prop :=
  forall a,
    match fst (m a) with
    | inl _ =>
        exists row, launched (snd (m a)) = launched a ++ [row] /\
                    pydict_get "url"%string row <> None
    | inr _ => launched (snd (m a)) = launched a
    end.

(** The dict of the lookup of one website. *)
Definition url_fields (u : string) : option pydict :=
  Some [("url"%string, PyStr u)].

Definition example_info : WebsiteInfo :=
  mkWebsiteInfo "www.Example.com"%string (Some 30%Z) None.

(** The rows of [rows] up to the first one that has no url. *)
Fixpoint rows_with_url (rows : list pydict) : list pydict :=
  match rows with
  | [] => []
  | row :: rest =>
      match pydict_get "url"%string row with
      | Some _ => row :: rows_with_url rest
      | None => []
      end
  end.

(** A host made of the characters [w] and [.] only, as that of
    "www.ww". *)
Definition only_w_and_dots (s : string) : Prop :=
  Forall w_or_dot (list_ascii_of_string s).

(** A database whose lookups never give a row. *)
Definition env_never_reads_back : AppEnv :=
  mkAppEnv (fun path => Some path)
           (fun _ _ _ => ExecuteReturns (Some website_columns) [])
           (fun _ => true)
           parse_as_path
           ascii_lower.

Definition second_row : list pyval :=
  [PyInt 8; PyStr "test.org"; PyNone; PyStr "ok"].

(** A database with two websites; the version check gives one value. *)
Definition env_two_sites : AppEnv :=
  mkAppEnv (fun path => Some path)
           (fun n _ _ =>
              match n with
              | O => ExecuteReturns (Some ["version"%string]) [[PyStr "PostgreSQL 15"]]
              | _ => ExecuteReturns (Some website_columns) [stored_row; second_row]
              end)
           (fun _ => true)
           parse_as_path
           ascii_lower.

(** * Properties *)

(** ** The [while] loop of the Persister and the Result Sink *)

Lemma pop_loop_spec (buf data : list WebsiteMonitoringResult) (c : counter) (n : nat) :
  pop_loop buf data c n =
  (skipn (BATCH - n) buf,
   data ++ firstn (BATCH - n) buf,
   count_codes (firstn (BATCH - n) buf) c,
   n + List.length (firstn (BATCH - n) buf)).
Proof.
  revert data c n.
  induction buf as [|r rest IH]; intros data c n.
  - cbn [pop_loop]. rewrite skipn_nil, firstn_nil, app_nil_r.
    cbn. now rewrite Nat.add_0_r.
  - cbn [pop_loop].
    destruct (n <? BATCH) eqn:Hlt.
    + apply Nat.ltb_lt in Hlt.
      rewrite IH.
      replace (BATCH - n) with (S (BATCH - (n + 1))) by lia.
      cbn [skipn firstn List.length count_codes fold_left].
      rewrite <- app_assoc. cbn [app].
      f_equal. lia.
    + apply Nat.ltb_ge in Hlt.
      replace (BATCH - n) with 0 by lia.
      cbn. now rewrite app_nil_r, Nat.add_0_r.
Qed.

Lemma pop_loop_from_start (buf : list WebsiteMonitoringResult) :
  pop_loop buf [] [] 0 =
  (skipn BATCH buf, firstn BATCH buf, count_codes (firstn BATCH buf) [],
   List.length (firstn BATCH buf)).
Proof.
  rewrite pop_loop_spec. now rewrite Nat.sub_0_r.
Qed.

Lemma batch_insert_eq (env : Env) (batch : list WebsiteMonitoringResult) (st : state) :
  batch_insert_monitoring_data env batch st =
  match sink_outcome env (List.length (sink_calls st)) batch with
  | Some e =>
      (inr e, mkState (monitoring_results st) (sink_calls st ++ [batch])
                      (db_rows st) (logs st ++ sink_error_log e)
                      (now_count st) (net_trace st))
  | None =>
      (inl tt, mkState (monitoring_results st) (sink_calls st ++ [batch])
                       (db_rows st ++ batch) (logs st)
                       (now_count st) (net_trace st))
  end.
Proof.
  unfold batch_insert_monitoring_data, sink_outcome, open_and_read,
    executemany_and_commit, try_except, bind, get_state, record_sink_call.
  cbn.
  destruct (read_file env sql_insert_monitoring_data) as [query|]; cbn.
  - destruct (executemany env (List.length (sink_calls st)) query batch); cbn.
    + reflexivity.
    + reflexivity.
  - now rewrite app_nil_r.
Qed.

Lemma save_eq (env : Env) (st : state) :
  save_website_monitoring_results env st =
  let buf := monitoring_results st in
  let batch := firstn BATCH buf in
  match sink_outcome env (List.length (sink_calls st)) batch with
  | Some e =>
      (inr e, mkState (skipn BATCH buf) (sink_calls st ++ [batch])
                      (db_rows st) (logs st ++ sink_error_log e)
                      (now_count st) (net_trace st))
  | None =>
      (inl tt, mkState (skipn BATCH buf) (sink_calls st ++ [batch])
                       (db_rows st ++ batch)
                       (logs st ++ [InfoSaved (List.length batch) (breakdown_of batch)])
                       (now_count st) (net_trace st))
  end.
Proof.
  unfold save_website_monitoring_results.
  unfold bind at 1. unfold get_state at 1.
  rewrite pop_loop_from_start.
  cbv zeta.
  generalize (firstn BATCH (monitoring_results st)) as batch.
  generalize (skipn BATCH (monitoring_results st)) as remaining.
  intros remaining batch.
  unfold bind at 1. unfold set_buffer at 1.
  unfold bind at 1. rewrite batch_insert_eq. cbn.
  destruct (sink_outcome env (List.length (sink_calls st)) batch); reflexivity.
Qed.

(** ** The status-code counter *)

Lemma dict_get_set (c k : Z) (v : nat) (d : counter) :
  dict_get c (dict_set k v d) = if (c =? k)%Z then v else dict_get c d.
Proof.
  induction d as [|[k' v'] d IH]; cbn.
  - reflexivity.
  - destruct (k =? k')%Z eqn:Hk; cbn.
    + apply Z.eqb_eq in Hk. subst k'.
      destruct (c =? k)%Z; reflexivity.
    + destruct (c =? k')%Z eqn:Hc.
      * apply Z.eqb_eq in Hc. subst k'.
        rewrite Z.eqb_sym in Hk. now rewrite Hk.
      * exact IH.
Qed.

Lemma keys_set (k : Z) (v : nat) (d : counter) :
  keys (dict_set k v d) = if key_in k (keys d) then keys d else keys d ++ [k].
Proof.
  induction d as [|[k' v'] d IH]; cbn.
  - reflexivity.
  - destruct (k =? k')%Z eqn:Hk; cbn.
    + reflexivity.
    + fold (keys (dict_set k v d)). fold (keys d). fold (key_in k (keys d)).
      rewrite IH. destruct (key_in k (keys d)); reflexivity.
Qed.

Lemma dict_get_count_codes (c : Z) (batch : list WebsiteMonitoringResult) (d : counter) :
  dict_get c (count_codes batch d) =
  dict_get c d + count_occ Z.eq_dec (codes_of batch) c.
Proof.
  revert d. induction batch as [|r batch IH]; intros d; cbn.
  - now rewrite Nat.add_0_r.
  - fold (count_codes batch (increment (http_status_code r) d)).
    rewrite IH. unfold increment. rewrite dict_get_set.
    fold (codes_of batch).
    destruct (Z.eq_dec (http_status_code r) c) as [E|N].
    + subst c. rewrite Z.eqb_refl. lia.
    + destruct (c =? http_status_code r)%Z eqn:Hc.
      * apply Z.eqb_eq in Hc. congruence.
      * reflexivity.
Qed.

Lemma filter_filter_neq (x : Z) (f : Z -> bool) (l : list Z) :
  filter f (filter (fun y => negb (y =? x)%Z) l) =
  filter (fun y => f y && negb (y =? x)%Z) l.
Proof.
  induction l as [|a l IH]; cbn.
  - reflexivity.
  - destruct (a =? x)%Z; cbn.
    + rewrite andb_false_r. exact IH.
    + rewrite andb_true_r. destruct (f a); now rewrite IH.
Qed.

Lemma keys_count_codes (batch : list WebsiteMonitoringResult) (d : counter) :
  keys (count_codes batch d) =
  keys d ++ filter (fun y => negb (key_in y (keys d)))
                   (first_occurrences (codes_of batch)).
Proof.
  revert d. induction batch as [|r batch IH]; intros d; cbn.
  - now rewrite app_nil_r.
  - fold (count_codes batch (increment (http_status_code r) d)).
    fold (codes_of batch).
    set (x := http_status_code r).
    rewrite IH. unfold increment. rewrite keys_set.
    rewrite filter_filter_neq.
    destruct (key_in x (keys d)) eqn:Hx; cbn.
    + f_equal. apply filter_ext. intros y.
      destruct (y =? x)%Z eqn:Hy; cbn.
      * apply Z.eqb_eq in Hy. subst y. now rewrite Hx.
      * now rewrite andb_true_r.
    + rewrite <- app_assoc. cbn. do 2 f_equal.
      apply filter_ext. intros y.
      unfold key_in. rewrite existsb_app. cbn. rewrite orb_false_r.
      now rewrite negb_orb.
Qed.

Lemma first_occurrences_In (c : Z) (l : list Z) :
  In c (first_occurrences l) <-> In c l.
Proof.
  induction l as [|x l IH]; cbn.
  - reflexivity.
  - rewrite filter_In, IH. split.
    + intros [H | [H _]]; auto.
    + intros [H | H]; [now left |].
      destruct (Z.eq_dec x c) as [E|N]; [now left | right].
      split; [assumption |].
      apply negb_true_iff, Z.eqb_neq. congruence.
Qed.

Lemma first_occurrences_NoDup (l : list Z) : NoDup (first_occurrences l).
Proof.
  induction l as [|x l IH]; cbn.
  - constructor.
  - constructor.
    + rewrite filter_In. intros [_ H].
      now rewrite Z.eqb_refl in H.
    + now apply NoDup_filter.
Qed.

Lemma keys_count_codes_start (batch : list WebsiteMonitoringResult) :
  keys (count_codes batch []) = first_occurrences (codes_of batch).
Proof.
  rewrite keys_count_codes. cbn.
  induction (first_occurrences (codes_of batch)) as [|a l IH]; cbn.
  - reflexivity.
  - now rewrite IH.
Qed.

Lemma counter_by_keys (d : counter) :
  NoDup (keys d) -> d = map (fun k => (k, dict_get k d)) (keys d).
Proof.
  induction d as [|[k v] d IH]; cbn; intros Hnd.
  - reflexivity.
  - inversion Hnd as [|? ? Hnotin Hnd']; subst.
    rewrite Z.eqb_refl. f_equal.
    rewrite (IH Hnd') at 1.
    apply map_ext_in. intros k' Hin.
    destruct (k' =? k)%Z eqn:Hk.
    + apply Z.eqb_eq in Hk. subst k'. contradiction.
    + reflexivity.
Qed.

(** The counter of a batch: each code that occurs, in the order of first
    occurrence, with the number of results that carry it. *)
Lemma count_codes_eq (batch : list WebsiteMonitoringResult) :
  count_codes batch [] =
  map (fun c => (c, count_occ Z.eq_dec (codes_of batch) c))
      (first_occurrences (codes_of batch)).
Proof.
  rewrite (counter_by_keys (count_codes batch [])).
  - rewrite keys_count_codes_start.
    apply map_ext. intros c. now rewrite dict_get_count_codes.
  - rewrite keys_count_codes_start. apply first_occurrences_NoDup.
Qed.

(** ** Sorting the counter *)

Lemma insert_by_count_perm (x : Z * nat) (l : list (Z * nat)) :
  Permutation (insert_by_count x l) (x :: l).
Proof.
  induction l as [|y l IH]; cbn [insert_by_count].
  - apply Permutation_refl.
  - destruct (snd x <? snd y).
    + apply Permutation_trans with (y :: x :: l).
      * now apply perm_skip.
      * apply perm_swap.
    + apply Permutation_refl.
Qed.

Lemma sorted_by_count_reverse_perm (l : list (Z * nat)) :
  Permutation (sorted_by_count_reverse l) l.
Proof.
  induction l as [|x l IH]; cbn.
  - apply perm_nil.
  - apply Permutation_trans with (x :: sorted_by_count_reverse l).
    + apply insert_by_count_perm.
    + now apply perm_skip.
Qed.

Lemma insert_by_count_sorted (x : Z * nat) (l : list (Z * nat)) :
  StronglySorted count_ge l -> StronglySorted count_ge (insert_by_count x l).
Proof.
  induction l as [|y l IH]; cbn [insert_by_count]; intros Hs.
  - repeat constructor.
  - inversion Hs as [|? ? Hs' Hall]; subst.
    destruct (snd x <? snd y) eqn:Hlt.
    + apply Nat.ltb_lt in Hlt.
      constructor; [now apply IH |].
      apply Forall_forall. intros z Hz.
      apply (Permutation_in z (insert_by_count_perm x l)) in Hz.
      destruct Hz as [<- | Hz].
      * unfold count_ge. lia.
      * rewrite Forall_forall in Hall. now apply Hall.
    + apply Nat.ltb_ge in Hlt.
      constructor; [assumption |].
      constructor; [exact Hlt |].
      rewrite Forall_forall in Hall |- *. intros z Hz.
      specialize (Hall z Hz). unfold count_ge in *. lia.
Qed.

Lemma sorted_by_count_reverse_sorted (l : list (Z * nat)) :
  StronglySorted count_ge (sorted_by_count_reverse l).
Proof.
  induction l as [|x l IH]; cbn.
  - constructor.
  - now apply insert_by_count_sorted.
Qed.

Lemma insert_by_count_stable (n : nat) (x : Z * nat) (l : list (Z * nat)) :
  with_count n (insert_by_count x l) = with_count n (x :: l).
Proof.
  unfold with_count.
  induction l as [|y l IH]; cbn [insert_by_count].
  - reflexivity.
  - destruct (snd x <? snd y) eqn:Hlt; [| reflexivity].
    apply Nat.ltb_lt in Hlt. cbn [filter] in *.
    rewrite IH.
    destruct (snd x =? n) eqn:Hx; [| reflexivity].
    apply Nat.eqb_eq in Hx.
    destruct (snd y =? n) eqn:Hy; [| reflexivity].
    apply Nat.eqb_eq in Hy. lia.
Qed.

(** Stability: items with equal counts keep their relative order. *)
Lemma sorted_by_count_reverse_stable (n : nat) (l : list (Z * nat)) :
  with_count n (sorted_by_count_reverse l) = with_count n l.
Proof.
  induction l as [|x l IH]; cbn [sorted_by_count_reverse].
  - reflexivity.
  - rewrite insert_by_count_stable.
    unfold with_count in *. cbn [filter]. now rewrite IH.
Qed.

Lemma dict_set_fresh (k : Z) (v : nat) (d : counter) :
  ~ In k (keys d) -> dict_set k v d = d ++ [(k, v)].
Proof.
  induction d as [|[k' v'] d IH]; cbn; intros Hk.
  - reflexivity.
  - destruct (k =? k')%Z eqn:E.
    + apply Z.eqb_eq in E. subst. tauto.
    + f_equal. apply IH. tauto.
Qed.

Lemma fold_dict_set_nodup (pairs acc : list (Z * nat)) :
  NoDup (keys (acc ++ pairs)) ->
  fold_left (fun d kv => dict_set (fst kv) (snd kv) d) pairs acc = acc ++ pairs.
Proof.
  revert acc. induction pairs as [|[k v] pairs IH]; intros acc Hnd; cbn.
  - now rewrite app_nil_r.
  - rewrite dict_set_fresh.
    + rewrite IH.
      * now rewrite <- app_assoc.
      * now rewrite <- app_assoc.
    + unfold keys in Hnd. rewrite map_app in Hnd. cbn in Hnd.
      apply NoDup_remove_2 in Hnd.
      intros Hin. apply Hnd. apply in_or_app. now left.
Qed.

(** [dict(pairs)] keeps pairs with distinct keys as they are. *)
Lemma dict_of_nodup (pairs : list (Z * nat)) :
  NoDup (keys pairs) -> dict_of pairs = pairs.
Proof.
  intros Hnd. unfold dict_of. now rewrite fold_dict_set_nodup.
Qed.

Lemma breakdown_of_eq (batch : list WebsiteMonitoringResult) :
  breakdown_of batch = sorted_by_count_reverse (count_codes batch []).
Proof.
  unfold breakdown_of. apply dict_of_nodup.
  apply Permutation_NoDup with (keys (count_codes batch [])).
  - apply Permutation_map, Permutation_sym, sorted_by_count_reverse_perm.
  - rewrite keys_count_codes_start. apply first_occurrences_NoDup.
Qed.

(** ** The flush cycle and the Scheduler loop *)

Lemma flush_cycle_eq (env : Env) (st : state) :
  flush_cycle env st =
  let buf := monitoring_results st in
  let batch := firstn BATCH buf in
  match sink_outcome env (List.length (sink_calls st)) batch with
  | Some e =>
      (inl tt, mkState (skipn BATCH buf) (sink_calls st ++ [batch])
                       (db_rows st)
                       (logs st ++ sink_error_log e ++ [ErrorCouldNotSave e])
                       (now_count st) (net_trace st))
  | None =>
      (inl tt, mkState (skipn BATCH buf) (sink_calls st ++ [batch])
                       (db_rows st ++ batch)
                       (logs st ++ [InfoSaved (List.length batch) (breakdown_of batch)])
                       (now_count st) (net_trace st))
  end.
Proof.
  unfold flush_cycle, try_except. rewrite save_eq. cbv zeta.
  destruct (sink_outcome env (List.length (sink_calls st))
              (firstn BATCH (monitoring_results st))) as [e|].
  - unfold log. cbn [logs monitoring_results sink_calls db_rows now_count net_trace].
    now rewrite <- app_assoc.
  - reflexivity.
Qed.

(** A flush cycle never raises and leaves the buffer without its first
    [BATCH] results. *)
Lemma flush_cycle_returns (env : Env) (st : state) :
  fst (flush_cycle env st) = inl tt /\
  monitoring_results (snd (flush_cycle env st)) =
  skipn BATCH (monitoring_results st).
Proof.
  rewrite flush_cycle_eq. cbv zeta.
  destruct (sink_outcome env (List.length (sink_calls st))
              (firstn BATCH (monitoring_results st))); split; reflexivity.
Qed.

Lemma skipn_batch_shorter (A : Type) (x : A) (l : list A) :
  List.length (skipn BATCH (x :: l)) <= List.length l.
Proof.
  rewrite length_skipn. cbn [List.length].
  unfold MonitoringSettings.RESULTS_BATCH_SAVE_SIZE. lia.
Qed.

(** With one unit of fuel for each buffered result the loop reaches its
    sleep, and the buffer is empty then. *)
Lemma flush_until_empty_suspends (env : Env) (n fuel : nat) (st : state) :
  List.length (monitoring_results st) <= fuel ->
  exists st', flush_until_empty env n fuel st = (inl true, st') /\
              monitoring_results st' = [].
Proof.
  revert st. induction fuel as [|fuel IH]; intros st Hlen.
  - destruct (monitoring_results st) as [|x l] eqn:Hbuf; cbn [List.length] in Hlen; [| lia].
    exists st. cbn. unfold bind, get_state. now rewrite Hbuf.
  - cbn [flush_until_empty]. unfold bind at 1. unfold get_state at 1.
    destruct (monitoring_results st) as [|x l] eqn:Hbuf.
    + exists st. split; [reflexivity | assumption].
    + destruct (flush_cycle_returns env st) as [Hr Hb].
      unfold bind at 1.
      destruct (flush_cycle env st) as [r st1]. cbn [fst snd] in Hr, Hb. subst r.
      unfold bind at 1. unfold log at 1.
      apply IH. cbn [monitoring_results]. rewrite Hb, Hbuf.
      pose proof (skipn_batch_shorter _ x l). cbn [List.length] in Hlen. lia.
Qed.

Lemma run_scheduler_eq (env : Env) (sys : system) :
  scheduler sys = NotStarted \/ scheduler sys = Waiting ->
  exists st', run_scheduler env sys = mkSystem st' (tasks sys) Waiting /\
              monitoring_results st' = [].
Proof.
  intros Hs. unfold run_scheduler.
  destruct Hs as [Hs | Hs]; rewrite Hs.
  - unfold bind at 1. unfold log at 1.
    destruct (flush_until_empty_suspends env (num_tasks (tasks sys))
                (List.length (monitoring_results (mem sys)))
                (mkState (monitoring_results (mem sys)) (sink_calls (mem sys))
                   (db_rows (mem sys))
                   (logs (mem sys) ++ [DebugNumTasks (num_tasks (tasks sys))])
                   (now_count (mem sys)) (net_trace (mem sys))))
      as [st' [E Hb]]; [cbn; lia |].
    rewrite E. exists st'. auto.
  - unfold bind at 1. unfold ret at 1.
    destruct (flush_until_empty_suspends env (num_tasks (tasks sys))
                (List.length (monitoring_results (mem sys))) (mem sys))
      as [st' [E Hb]]; [lia |].
    rewrite E. exists st'. auto.
Qed.

(** The Scheduler loop never ends: each time it runs it drains the buffer
    and suspends again. *)
Lemma run_scheduler_waits (env : Env) (sys : system) :
  scheduler sys = NotStarted \/ scheduler sys = Waiting ->
  scheduler (run_scheduler env sys) = Waiting /\
  monitoring_results (mem (run_scheduler env sys)) = [] /\
  tasks (run_scheduler env sys) = tasks sys.
Proof.
  intros Hs. destruct (run_scheduler_eq env sys Hs) as [st' [E Hb]].
  rewrite E. cbn. auto.
Qed.

(** ** The Persister: what one flush does *)

Lemma firstn_min_length (A : Type) (n : nat) (l : list A) :
  firstn (Nat.min (List.length l) n) l = firstn n l.
Proof.
  rewrite Nat.min_comm, <- firstn_firstn. now rewrite firstn_all.
Qed.

(** Appends go to the back of the buffer. *)
Lemma append_all_buffer (rs : list WebsiteMonitoringResult) (st : state) :
  fst (append_all rs st) = inl tt /\
  monitoring_results (snd (append_all rs st)) = monitoring_results st ++ rs.
Proof.
  revert st. induction rs as [|r rs IH]; intros st; cbn [append_all].
  - cbn. now rewrite app_nil_r.
  - unfold bind, append_result, get_state, set_buffer. cbn.
    match goal with
    | |- context [append_all rs ?s] => destruct (IH s) as [Hr Hb]
    end.
    split; [exact Hr |].
    rewrite Hb. cbn [monitoring_results]. now rewrite <- app_assoc.
Qed.

(** X8.  Results appended to an empty buffer come out of the next flush
    in the order of the appends, all of them when they fit in one batch:
    the sink is called with exactly the appended sequence, and the buffer
    is empty again. *)
Lemma appends_then_flush_fifo (env : Env) (rs : list WebsiteMonitoringResult)
  (st : state) :
  monitoring_results st = [] ->
  List.length rs <= BATCH ->
  let st1 := snd (append_all rs st) in
  let st2 := snd (save_website_monitoring_results env st1) in
  sink_calls st2 = sink_calls st1 ++ [rs] /\ monitoring_results st2 = [].
Proof.
  intros Hempty Hlen. cbv zeta.
  destruct (append_all_buffer rs st) as [_ Hb].
  rewrite Hempty in Hb. cbn [app] in Hb.
  rewrite save_eq. cbv zeta. rewrite Hb.
  rewrite firstn_all2 by exact Hlen.
  rewrite skipn_all2 by exact Hlen.
  destruct (sink_outcome env _ rs); split; reflexivity.
Qed.

(** C1.  One call of [save_website_monitoring_results] removes the first
    min(length, 100) results from the front of the buffer, in insertion
    order, and hands exactly that sequence to the Result Sink in one call:
    the buffer before the call is the batch followed by the buffer after
    it, the batch has min(length, 100) elements (at most [BATCH] = 100, all
    of the buffer when it holds fewer), and the sink is called once, with
    the batch.  The function is total and has no suspension point; on an
    empty buffer its loop ends without a pass. *)
Theorem flush_hands_front_batch_to_sink (env : Env) (st : state) :
  let buf := monitoring_results st in
  let st' := snd (save_website_monitoring_results env st) in
  let batch := firstn (Nat.min (List.length buf) 100) buf in
  BATCH = 100 /\
  buf = batch ++ monitoring_results st' /\
  List.length batch = Nat.min (List.length buf) 100 /\
  List.length batch <= 100 /\
  List.length (monitoring_results st') = List.length buf - 100 /\
  sink_calls st' = sink_calls st ++ [batch] /\
  pop_loop [] [] [] 0 = ([], [], [], 0).
Proof.
  cbv zeta.
  change 100 with BATCH.
  rewrite firstn_min_length.
  assert (Hst : monitoring_results (snd (save_website_monitoring_results env st))
                = skipn BATCH (monitoring_results st) /\
                sink_calls (snd (save_website_monitoring_results env st))
                = sink_calls st ++ [firstn BATCH (monitoring_results st)]).
  { rewrite save_eq. cbv zeta.
    destruct (sink_outcome env (List.length (sink_calls st))
                (firstn BATCH (monitoring_results st))); split; reflexivity. }
  destruct Hst as [Hbuf Hsink]. rewrite Hbuf, Hsink.
  repeat split.
  - symmetry. apply firstn_skipn.
  - rewrite length_firstn. apply Nat.min_comm.
  - rewrite length_firstn. apply Nat.le_min_l.
  - apply length_skipn.
Qed.

(** C10.  Called on an empty buffer, [save_website_monitoring_results]
    still calls the Result Sink, with the empty list; and then either it
    logs a batch size of 0 with an empty breakdown, or that sink call is
    what raised. *)
Theorem flush_of_empty_buffer_calls_sink (env : Env) (st : state) :
  monitoring_results st = [] ->
  let r := fst (save_website_monitoring_results env st) in
  let st' := snd (save_website_monitoring_results env st) in
  sink_calls st' = sink_calls st ++ [[]] /\
  monitoring_results st' = [] /\
  match r with
  | inl _ => logs st' = logs st ++ [InfoSaved 0 []]
  | inr e => fst (batch_insert_monitoring_data env [] st) = inr e
  end.
Proof.
  intros Hbuf. cbv zeta. rewrite save_eq, batch_insert_eq. cbv zeta.
  rewrite Hbuf, firstn_nil, skipn_nil.
  destruct (sink_outcome env (List.length (sink_calls st)) []);
    cbn; auto.
Qed.

(** C7.  The counter that the loop builds is over exactly the popped
    batch: every status code maps to the number of popped results that
    carry it, the keys being the codes of the batch, and no other, in the
    order of first occurrence.  The dict that is logged is that counter
    sorted by descending count, items with equal counts keeping their
    order (a permutation of the counter, sorted, and stable).  The flush
    hands the batch to the sink in one call, and what it logs follows
    from that call alone: when the call returns, the flush returns and
    has added to the log exactly one record, the length of the batch
    together with that dict; when the call raises, the flush raises
    the same exception and the sink's own record is all that is added.
    For the codes [200,200,404,500,200] the dict is
    {200: 3, 404: 1, 500: 1}, and a flush of a buffer with those five
    results on a working sink logs 5 with that dict. *)
Theorem histogram_counts_popped_batch (env : Env) (st : state) :
  let buf := monitoring_results st in
  let batch := firstn BATCH buf in
  let st' := snd (save_website_monitoring_results env st) in
  exists hist : counter,
    pop_loop buf [] [] 0 = (skipn BATCH buf, batch, hist, List.length batch) /\
    (forall c, dict_get c hist = count_occ Z.eq_dec (codes_of batch) c) /\
    keys hist = first_occurrences (codes_of batch) /\
    (forall c, In c (keys hist) <-> In c (codes_of batch)) /\
    Permutation (dict_of (sorted_by_count_reverse hist)) hist /\
    StronglySorted count_ge (dict_of (sorted_by_count_reverse hist)) /\
    (forall n, with_count n (dict_of (sorted_by_count_reverse hist))
               = with_count n hist) /\
    dict_of (sorted_by_count_reverse hist) = breakdown_of_codes (codes_of batch) /\
    sink_calls st' = sink_calls st ++ [batch] /\
    match fst (batch_insert_monitoring_data env batch
                 (snd (set_buffer (skipn BATCH buf) st))) with
    | inl _ =>
        fst (save_website_monitoring_results env st) = inl tt /\
        logs st' = logs st ++
          [InfoSaved (List.length batch) (dict_of (sorted_by_count_reverse hist))]
    | inr e =>
        fst (save_website_monitoring_results env st) = inr e /\
        logs st' = logs st ++ sink_error_log e
    end /\
    breakdown_of_codes [200; 200; 404; 500; 200]%Z
    = [(200%Z, 3); (404%Z, 1); (500%Z, 1)] /\
    logs (snd (save_website_monitoring_results env_up
                 (buffer_of [200; 200; 404; 500; 200]%Z)))
    = [InfoSaved 5 [(200%Z, 3); (404%Z, 1); (500%Z, 1)]].
Proof.
  cbv zeta.
  set (batch := firstn BATCH (monitoring_results st)).
  exists (count_codes batch []).
  fold (breakdown_of batch). rewrite breakdown_of_eq.
  split; [apply pop_loop_from_start |].
  split; [intros c; now rewrite dict_get_count_codes |].
  split; [apply keys_count_codes_start |].
  split.
  { intros c. rewrite keys_count_codes_start. apply first_occurrences_In. }
  split; [apply sorted_by_count_reverse_perm |].
  split; [apply sorted_by_count_reverse_sorted |].
  split; [intros n; apply sorted_by_count_reverse_stable |].
  split; [unfold breakdown_of_codes; now rewrite count_codes_eq |].
  rewrite save_eq, batch_insert_eq. cbv zeta. fold batch.
  cbn [set_buffer snd sink_calls logs].
  split.
  { destruct (sink_outcome env (List.length (sink_calls st)) batch);
      reflexivity. }
  split.
  { destruct (sink_outcome env (List.length (sink_calls st)) batch);
      cbn [fst snd logs].
    - split; reflexivity.
    - split; [reflexivity | now rewrite breakdown_of_eq]. }
  split; reflexivity.
Qed.

(** The log only grows while the Scheduler loop runs. *)
Lemma flush_until_empty_logs (env : Env) (n fuel : nat) (st : state) :
  exists l, logs (snd (flush_until_empty env n fuel st)) = logs st ++ l.
Proof.
  revert st. induction fuel as [|fuel IH]; intros st.
  - exists []. cbn. unfold bind, get_state.
    destruct (monitoring_results st); cbn; now rewrite app_nil_r.
  - cbn [flush_until_empty]. unfold bind at 1. unfold get_state at 1.
    destruct (monitoring_results st) as [|x l] eqn:Hbuf.
    + exists []. cbn. now rewrite app_nil_r.
    + unfold bind at 1.
      pose proof (flush_cycle_eq env st) as E. cbv zeta in E.
      destruct (flush_cycle_returns env st) as [Hr _].
      destruct (flush_cycle env st) as [r st1]. cbn [fst] in Hr. subst r.
      unfold bind at 1. unfold log at 1.
      match goal with
      | |- context [flush_until_empty env n fuel ?s] =>
          destruct (IH s) as [l' Hl']
      end.
      rewrite Hl'. cbn [logs].
      destruct (sink_outcome env (List.length (sink_calls st))
                  (firstn BATCH (monitoring_results st)));
        inversion E; subst st1; cbn [logs];
        eexists; rewrite <- !app_assoc; reflexivity.
Qed.

(** First pass of the Scheduler loop on a buffer that is not empty. *)
Lemma flush_until_empty_step (env : Env) (n fuel : nat) (st : state) :
  monitoring_results st <> [] ->
  flush_until_empty env n (S fuel) st =
  flush_until_empty env n fuel
    (snd (log (DebugNumTasks n) (snd (flush_cycle env st)))).
Proof.
  intros Hne. cbn [flush_until_empty]. unfold bind at 1. unfold get_state at 1.
  destruct (monitoring_results st) as [|x l] eqn:Hbuf; [congruence |].
  unfold bind at 1.
  destruct (flush_cycle_returns env st) as [Hr _].
  destruct (flush_cycle env st) as [r st1]. cbn [fst] in Hr. subst r.
  unfold bind at 1. reflexivity.
Qed.

(** C2.  When the sink call of a flush of a non-empty batch raises [e]:
    the flush raises [e]; the flush cycle of the Scheduler loop catches it
    and returns normally; the popped batch is not put back (the buffer
    before the cycle is the batch followed by the buffer after it) and
    is not committed either; the failure is logged by the loop; and the
    Scheduler coroutine, run on that state, does not end: it is waiting
    again afterwards, with the error in the log. *)
Theorem sink_failure_loses_batch (env : Env) (st : state) (e : exn) :
  monitoring_results st <> [] ->
  fst (batch_insert_monitoring_data env
         (firstn BATCH (monitoring_results st))
         (snd (set_buffer (skipn BATCH (monitoring_results st)) st))) = inr e ->
  let buf := monitoring_results st in
  let batch := firstn BATCH buf in
  let st' := snd (flush_cycle env st) in
  batch <> [] /\
  fst (save_website_monitoring_results env st) = inr e /\
  fst (flush_cycle env st) = inl tt /\
  buf = batch ++ monitoring_results st' /\
  db_rows st' = db_rows st /\
  logs st' = logs st ++ sink_error_log e ++ [ErrorCouldNotSave e] /\
  (forall sys, mem sys = st -> scheduler sys = Waiting ->
     scheduler (run_scheduler env sys) = Waiting /\
     In (ErrorCouldNotSave e) (logs (mem (run_scheduler env sys)))).
Proof.
  intros Hne Hraise. cbv zeta.
  rewrite batch_insert_eq in Hraise.
  cbn [set_buffer snd sink_calls] in Hraise.
  assert (Hout : sink_outcome env (List.length (sink_calls st))
                   (firstn BATCH (monitoring_results st)) = Some e).
  { destruct (sink_outcome env (List.length (sink_calls st))
                (firstn BATCH (monitoring_results st)));
      cbn [fst] in Hraise; congruence. }
  clear Hraise.
  assert (Hcycle : flush_cycle env st =
            (inl tt, mkState (skipn BATCH (monitoring_results st))
                       (sink_calls st ++ [firstn BATCH (monitoring_results st)])
                       (db_rows st)
                       (logs st ++ sink_error_log e ++ [ErrorCouldNotSave e])
                       (now_count st) (net_trace st))).
  { rewrite flush_cycle_eq. cbv zeta. now rewrite Hout. }
  split.
  { destruct (monitoring_results st) as [|x l]; [congruence |].
    unfold MonitoringSettings.RESULTS_BATCH_SAVE_SIZE.
    cbn [firstn]. discriminate. }
  split.
  { rewrite save_eq. cbv zeta. now rewrite Hout. }
  rewrite Hcycle. cbn [fst snd monitoring_results db_rows logs].
  split; [reflexivity |].
  split; [symmetry; apply firstn_skipn |].
  split; [reflexivity |].
  split; [reflexivity |].
  intros sys Hmem Hsched.
  split.
  - apply run_scheduler_waits. now right.
  - unfold run_scheduler. rewrite Hsched, Hmem.
    unfold bind at 1. unfold ret at 1.
    destruct (monitoring_results st) as [|x l] eqn:Hbuf; [congruence |].
    cbn [List.length].
    rewrite flush_until_empty_step by (rewrite Hbuf; discriminate).
    rewrite Hcycle. cbn [snd log].
    match goal with
    | |- context [flush_until_empty env ?n ?f ?s] =>
        destruct (flush_until_empty_logs env n f s) as [l' Hl'];
        destruct (flush_until_empty env n f s) as [[[|]|e'] st2]
    end;
      cbn [snd mem logs] in *; rewrite Hl';
      rewrite !in_app_iff; cbn [In]; tauto.
Qed.

(** ** The Prober *)

(** One attempt over https, case by case on what the network, the body
    and the search do. *)
Lemma attempt_https_eq (env : Env) (u : string) (regexp_pattern : option string)
  (st : state) :
  attempt env u regexp_pattern "https" st =
  let req := Request (method_for regexp_pattern) (https_url u)
               MonitoringSettings.REQUEST_TIMEOUT in
  let txt := ReadText (https_url u) in
  match probe_outcome env u regexp_pattern st with
  | Response status body =>
      if truthy_str regexp_pattern then
        match body with
        | Text s =>
            match re_search env (pattern_text regexp_pattern) s with
            | inr b => after_response env st [req; txt] status (Some b)
            | inl e => after_raise env u st [req; txt] e
            end
        | TextTimeout => after_raise env u st [req; txt] TimeoutError
        | TextClientError msg => after_raise env u st [req; txt] (ClientError msg)
        | TextOther msg => after_raise env u st [req; txt] (OtherException msg)
        end
      else after_response env st [req] status None
  | RaiseTimeout => after_raise env u st [req] TimeoutError
  | RaiseClientError msg => after_raise env u st [req] (ClientError msg)
  | RaiseOther msg => after_raise env u st [req] (OtherException msg)
  end.
Proof.
  unfold attempt, probe_outcome, method_for, after_raise, after_response, after_probe.
  change ("https" ++ "://" ++ u)%string with (https_url u).
  unfold try_except, try_suite, session_request, response_text,
    search_is_not_none, except_clauses, bind, get_state, now, emit, log,
    ret, raise.
  cbn.
  destruct (truthy_str regexp_pattern) eqn:Hp; cbn.
  - destruct (http env (requests_made (net_trace st)) GET (https_url u))
      as [status body | | msg | msg]; cbn.
    + destruct body as [s | | msg | msg]; cbn.
      * destruct (re_search env (pattern_text regexp_pattern) s) as [e | b]; cbn.
        -- destruct e; cbn; rewrite <- ?app_assoc, ?app_nil_r; reflexivity.
        -- rewrite <- ?app_assoc, ?app_nil_r; reflexivity.
      * rewrite <- ?app_assoc, ?app_nil_r; reflexivity.
      * rewrite <- ?app_assoc, ?app_nil_r; reflexivity.
      * rewrite <- ?app_assoc, ?app_nil_r; reflexivity.
    + rewrite ?app_nil_r; reflexivity.
    + rewrite ?app_nil_r; reflexivity.
    + rewrite ?app_nil_r; reflexivity.
  - destruct (http env (requests_made (net_trace st)) HEAD (https_url u))
      as [status body | | msg | msg]; cbn;
      rewrite ?app_nil_r; reflexivity.
Qed.

Lemma check_website_availability_eq (env : Env) (u : string)
  (regexp_pattern : option string) (st : state) :
  check_website_availability env u regexp_pattern st =
  match attempt env u regexp_pattern "https" st with
  | (inl r, st') => (inl (Some r), st')
  | (inr e, st') => (inr e, st')
  end.
Proof.
  unfold check_website_availability, schemes.
  cbn [for_scheme]. unfold bind, ret.
  destruct (attempt env u regexp_pattern "https" st) as [[r|e] st']; reflexivity.
Qed.

Lemma after_raise_trace (env : Env) (u : string) (st : state)
  (evs : list net_event) (e : exn) :
  net_trace (snd (after_raise env u st evs e)) = net_trace st ++ evs.
Proof. destruct e; reflexivity. Qed.

Lemma probe_trace (env : Env) (u : string) (regexp_pattern : option string)
  (st : state) :
  net_trace (snd (check_website_availability env u regexp_pattern st)) =
  net_trace st ++ probe_events env u regexp_pattern st.
Proof.
  assert (H : net_trace (snd (attempt env u regexp_pattern "https" st)) =
              net_trace st ++ probe_events env u regexp_pattern st).
  { rewrite attempt_https_eq. unfold probe_events, method_for. cbv zeta.
    destruct (probe_outcome env u regexp_pattern st) as [status body | | msg | msg];
      destruct (truthy_str regexp_pattern);
      try (apply after_raise_trace); try reflexivity.
    destruct body as [s | | msg | msg];
      try (apply after_raise_trace).
    destruct (re_search env (pattern_text regexp_pattern) s) as [e | b];
      [apply after_raise_trace | reflexivity]. }
  rewrite check_website_availability_eq.
  destruct (attempt env u regexp_pattern "https" st) as [[r|e] st']; exact H.
Qed.

(** C8.  The loop over the two schemes behaves as a single attempt over
    https: the probe equals [https_only_attempt]; it never leaves the loop
    without a result or an exception; it makes exactly one request; and
    every network event it adds carries the https URL, so the http URL is
    never asked for. *)
Theorem probe_is_single_https_attempt (env : Env) (u : string)
  (regexp_pattern : option string) (st : state) :
  let out := check_website_availability env u regexp_pattern st in
  out = https_only_attempt env u regexp_pattern st /\
  fst out <> inl None /\
  requests_made (net_trace (snd out)) = S (requests_made (net_trace st)) /\
  exists evs,
    net_trace (snd out) = net_trace st ++ evs /\
    Forall (fun ev => event_target ev = ("https://" ++ u)%string) evs /\
    ~ In (Request HEAD ("http://" ++ u)%string MonitoringSettings.REQUEST_TIMEOUT) evs /\
    ~ In (Request GET ("http://" ++ u)%string MonitoringSettings.REQUEST_TIMEOUT) evs.
Proof.
  cbv zeta.
  split.
  { rewrite check_website_availability_eq. unfold https_only_attempt, bind, ret.
    destruct (attempt env u regexp_pattern "https" st) as [[r|e] st']; reflexivity. }
  split.
  { rewrite check_website_availability_eq.
    destruct (attempt env u regexp_pattern "https" st) as [[r|e] st'];
      cbn; discriminate. }
  rewrite probe_trace.
  assert (Hall : Forall (fun ev => event_target ev = ("https://" ++ u)%string)
                   (probe_events env u regexp_pattern st)).
  { unfold probe_events. constructor; [reflexivity |].
    destruct (method_for regexp_pattern);
      destruct (probe_outcome env u regexp_pattern st);
      repeat constructor. }
  split.
  { unfold requests_made. rewrite filter_app, length_app.
    unfold probe_events. cbn [filter].
    destruct (method_for regexp_pattern);
      destruct (probe_outcome env u regexp_pattern st); cbn; lia. }
  exists (probe_events env u regexp_pattern st).
  split; [reflexivity |].
  split; [exact Hall |].
  rewrite Forall_forall in Hall.
  split; intros Hin; apply Hall in Hin; cbn in Hin; discriminate.
Qed.

(** C9.  An empty pattern is treated as no pattern: the probe with the
    pattern [""] is the probe with no pattern; it makes one HEAD request
    to the https URL, reads no body, and a result it returns has
    [is_regex_pattern_compliant] unset. *)
Theorem empty_pattern_is_no_pattern (env : Env) (u : string) (st : state) :
  let out := check_website_availability env u (Some ""%string) st in
  out = check_website_availability env u None st /\
  net_trace (snd out) =
    net_trace st ++
    [Request HEAD ("https://" ++ u)%string MonitoringSettings.REQUEST_TIMEOUT] /\
  match fst out with
  | inl (Some r) => is_regex_pattern_compliant r = None
  | _ => True
  end.
Proof.
  cbv zeta.
  split; [reflexivity |].
  split.
  - rewrite probe_trace. reflexivity.
  - rewrite check_website_availability_eq, attempt_https_eq. cbv zeta.
    cbn [truthy_str String.eqb negb].
    destruct (probe_outcome env u (Some ""%string) st); cbn; exact I || reflexivity.
Qed.

(** C6.  With no pattern the probe makes one HEAD request to the https
    URL and nothing else on the network (no body is read), and a result
    it returns has [is_regex_pattern_compliant] unset.  With a pattern
    (a non-empty string) the request is a GET; when it is answered the body
    is read, and when [re.search] runs on that body the result carries
    whether the search found the pattern, with the status of the
    response. *)
Theorem probe_method_follows_pattern (env : Env) (u : string)
  (regexp_pattern : option string) (st : state) :
  let out := check_website_availability env u regexp_pattern st in
  let target := ("https://" ++ u)%string in
  let timeout := MonitoringSettings.REQUEST_TIMEOUT in
  (regexp_pattern = None ->
     net_trace (snd out) = net_trace st ++ [Request HEAD target timeout] /\
     (forall r, fst out = inl (Some r) -> is_regex_pattern_compliant r = None)) /\
  (forall p, regexp_pattern = Some p -> p <> ""%string ->
     (exists rest,
        net_trace (snd out) = net_trace st ++ Request GET target timeout :: rest) /\
     (forall status body,
        http env (requests_made (net_trace st)) GET target
        = Response status (Text body) ->
        net_trace (snd out) =
          net_trace st ++ [Request GET target timeout; ReadText target] /\
        (forall b, re_search env p body = inr b ->
           exists r, fst out = inl (Some r) /\
                     is_regex_pattern_compliant r = Some b /\
                     http_status_code r = status))).
Proof.
  cbv zeta. split.
  - intros ->. split.
    + rewrite probe_trace. reflexivity.
    + intros r. rewrite check_website_availability_eq, attempt_https_eq.
      cbv zeta. cbn [truthy_str].
      destruct (probe_outcome env u None st); cbn; intros H;
        inversion H; reflexivity.
  - intros p -> Hp.
    assert (Ht : truthy_str (Some p) = true).
    { cbn. destruct (String.eqb_spec p ""%string); [contradiction | reflexivity]. }
    assert (Hm : method_for (Some p) = GET) by (unfold method_for; now rewrite Ht).
    split.
    + rewrite probe_trace. unfold probe_events. rewrite Hm. eexists. reflexivity.
    + intros status body Hresp.
      assert (Ho : probe_outcome env u (Some p) st = Response status (Text body)).
      { unfold probe_outcome. rewrite Hm. exact Hresp. }
      split.
      * rewrite probe_trace. unfold probe_events. rewrite Hm, Ho. reflexivity.
      * intros b Hb.
        rewrite check_website_availability_eq, attempt_https_eq.
        cbv zeta. rewrite Ho, Ht. cbn [pattern_text]. rewrite Hb.
        eexists. cbn. repeat split.
Qed.

(** C3, as amended.  A probe that returns a result whose response
    timestamp is not earlier than its request timestamp has a response time
    that is not negative.  When the request times out the probe returns a
    result, with status 408, a response time of exactly the configured
    timeout (30 seconds, whatever the two timestamps are) and
    [is_regex_pattern_compliant] unset. *)
Theorem probe_response_time (env : Env) (u : string)
  (regexp_pattern : option string) (st : state) :
  let out := check_website_availability env u regexp_pattern st in
  (forall r, fst out = inl (Some r) ->
     (request_timestamp r <= response_timestamp r)%Z ->
     (0 <= response_time r)%Q) /\
  (request_times_out env u regexp_pattern st ->
     exists r, fst out = inl (Some r) /\
               http_status_code r = 408%Z /\
               response_time r = inject_Z 30 /\
               MonitoringSettings.REQUEST_TIMEOUT = 30%Z /\
               is_regex_pattern_compliant r = None).
Proof.
  cbv zeta.
  rewrite check_website_availability_eq, attempt_https_eq. cbv zeta.
  split.
  - intros r.
    destruct (probe_outcome env u regexp_pattern st) as [status body | | msg | msg];
      try destruct (truthy_str regexp_pattern);
      try destruct body as [s | | msg | msg];
      try destruct (re_search env (pattern_text regexp_pattern) s) as [e | b];
      try destruct e;
      cbn; intros H Hle; inversion H; subst r;
      cbn [request_timestamp response_timestamp response_time] in *;
      unfold total_seconds, Qle, MonitoringSettings.REQUEST_TIMEOUT;
      cbn [Qnum Qden inject_Z]; lia.
  - intros [Ho | [Ht [status Ho]]]; rewrite Ho; [| rewrite Ht];
      cbn; eexists; repeat split.
Qed.

(** ** The Site Task *)

Lemma after_raise_buffer (env : Env) (u : string) (st : state)
  (evs : list net_event) (e : exn) :
  monitoring_results (snd (after_raise env u st evs e)) = monitoring_results st.
Proof. destruct e; reflexivity. Qed.

(** The Prober does not touch the Result Buffer. *)
Lemma probe_keeps_buffer (env : Env) (u : string) (regexp_pattern : option string)
  (st : state) :
  monitoring_results (snd (check_website_availability env u regexp_pattern st))
  = monitoring_results st.
Proof.
  assert (H : monitoring_results (snd (attempt env u regexp_pattern "https" st))
              = monitoring_results st).
  { rewrite attempt_https_eq. cbv zeta.
    destruct (probe_outcome env u regexp_pattern st) as [status body | | msg | msg];
      try destruct (truthy_str regexp_pattern);
      try destruct body as [s | | msg | msg];
      try destruct (re_search env (pattern_text regexp_pattern) s) as [e | b];
      try (apply after_raise_buffer); reflexivity. }
  rewrite check_website_availability_eq.
  destruct (attempt env u regexp_pattern "https" st) as [[r|e] st']; exact H.
Qed.

(** A probe that meets a [ClientError] on its request gives no result:
    it logs the error and raises it again. *)
Lemma probe_client_error (env : Env) (u : string) (regexp_pattern : option string)
  (st : state) (msg : string) :
  probe_outcome env u regexp_pattern st = RaiseClientError msg ->
  check_website_availability env u regexp_pattern st =
  (inr (ClientError msg),
   after_probe st 1
     [Request (method_for regexp_pattern) (https_url u)
        MonitoringSettings.REQUEST_TIMEOUT]
     [ErrorConnecting u (ClientError msg)]).
Proof.
  intros Ho. rewrite check_website_availability_eq, attempt_https_eq.
  cbv zeta. rewrite Ho. reflexivity.
Qed.

Lemma probe_and_append_raises (env : Env) (wd : website_data) (st : state)
  (e : exn) (st' : state) :
  check_website_availability env (wd_url wd) (wd_regexp_pattern wd) st
  = (inr e, st') ->
  probe_and_append env wd st = (inr e, st').
Proof.
  intros H. unfold probe_and_append, bind. now rewrite H.
Qed.

(** A pass of a Site Task whose probe returns a result appends that
    result, stamped with the url and the id of the site, at the back of
    the buffer. *)
Lemma probe_and_append_returns (env : Env) (wd : website_data) (st : state)
  (r : WebsiteMonitoringResult) (st' : state) :
  check_website_availability env (wd_url wd) (wd_regexp_pattern wd) st
  = (inl (Some r), st') ->
  fst (probe_and_append env wd st) = inl tt /\
  monitoring_results (snd (probe_and_append env wd st)) =
  monitoring_results st ++ [set_website_id (wd_id wd) (set_url (wd_url wd) r)].
Proof.
  intros H.
  pose proof (probe_keeps_buffer env (wd_url wd) (wd_regexp_pattern wd) st) as Hb.
  unfold probe_and_append, bind. rewrite H in *. cbn [snd] in Hb.
  unfold append_result, bind, get_state, set_buffer. cbn.
  now rewrite Hb.
Qed.

Lemma nth_error_set_nth_same {A} (i : nat) (x y : A) (l : list A) :
  nth_error l i = Some y -> nth_error (set_nth i x l) i = Some x.
Proof.
  revert i. induction l as [|a l IH]; intros [|i]; cbn; try discriminate.
  - reflexivity.
  - apply IH.
Qed.

Lemma nth_error_set_nth_other {A} (i j : nat) (x : A) (l : list A) :
  j <> i -> nth_error (set_nth i x l) j = nth_error l j.
Proof.
  revert i j. induction l as [|a l IH]; intros [|i] [|j] Hne; cbn;
    try reflexivity; try congruence.
  apply IH. congruence.
Qed.

Lemma run_site_other (env : Env) (i j : nat) (sys : system) :
  j <> i -> nth_error (tasks (run_site env i sys)) j = nth_error (tasks sys) j.
Proof.
  intros Hne. unfold run_site.
  destruct (nth_error (tasks sys) i) as [[wd [| | |e]]|]; try reflexivity.
  - destruct (run_task (check_website_recurrently env wd 0) (mem sys)).
    cbn. now apply nth_error_set_nth_other.
  - destruct (run_task (recurrent_loop env wd 0) (mem sys)).
    cbn. now apply nth_error_set_nth_other.
Qed.

Lemma run_scheduler_tasks (env : Env) (sys : system) :
  tasks (run_scheduler env sys) = tasks sys.
Proof.
  unfold run_scheduler.
  destruct (scheduler sys); try reflexivity.
  - match goal with |- context [?m (mem sys)] =>
      match type of m with M bool => destruct (m (mem sys)) as [[[|]|e] st'] end
    end; reflexivity.
  - match goal with |- context [?m (mem sys)] =>
      match type of m with M bool => destruct (m (mem sys)) as [[[|]|e] st'] end
    end; reflexivity.
Qed.

(** The event loop never runs an ended task again: no step changes its
    entry. *)
Lemma ended_task_stays (env : Env) (ev : event) (sys : system) (i : nat)
  (wd : website_data) (s : task_status) :
  ended s ->
  nth_error (tasks sys) i = Some (wd, s) ->
  nth_error (tasks (step env ev sys)) i = Some (wd, s).
Proof.
  intros Hend Hi. destruct ev as [j | | wd']; cbn [step].
  - destruct (Nat.eq_dec j i) as [-> | Hne].
    + unfold run_site. rewrite Hi.
      destruct Hend as [-> | [e ->]]; exact Hi.
    + rewrite run_site_other by congruence. exact Hi.
  - now rewrite run_scheduler_tasks.
  - cbn [tasks]. rewrite nth_error_app1; [exact Hi |].
    apply nth_error_Some. congruence.
Qed.

Lemma ended_task_stays_run (env : Env) (evs : list event) (sys : system)
  (i : nat) (wd : website_data) (s : task_status) :
  ended s ->
  nth_error (tasks sys) i = Some (wd, s) ->
  nth_error (tasks (run env evs sys)) i = Some (wd, s).
Proof.
  intros Hend. revert sys.
  induction evs as [|ev evs IH]; intros sys Hi; cbn.
  - exact Hi.
  - apply IH. now apply ended_task_stays.
Qed.

Lemma run_site_about_to_probe (env : Env) (i : nat) (sys : system)
  (wd : website_data) (s : task_status) :
  nth_error (tasks sys) i = Some (wd, s) ->
  about_to_probe wd s ->
  run_site env i sys =
  let (s', st') := run_task (recurrent_loop env wd 0) (mem sys) in
  mkSystem st' (set_nth i (wd, s') (tasks sys)) (scheduler sys).
Proof.
  intros Hi [-> | [-> Hint]]; unfold run_site; rewrite Hi.
  - reflexivity.
  - unfold check_website_recurrently. rewrite Hint. reflexivity.
Qed.

(** C4.  When the request of a probe meets an [aiohttp.ClientError], the
    Prober returns no result and raises the error (after logging it); the
    Site Task that called it ends with that error, having appended nothing
    to the buffer; the other Site Tasks and the Scheduler are as they were;
    and whatever the event loop does afterwards, the task stays ended: it
    is not restarted, and running it again changes nothing. *)
Theorem client_error_ends_only_its_site_task (env : Env) (sys : system)
  (i : nat) (wd : website_data) (s : task_status) (msg : string) :
  nth_error (tasks sys) i = Some (wd, s) ->
  about_to_probe wd s ->
  probe_outcome env (wd_url wd) (wd_regexp_pattern wd) (mem sys)
  = RaiseClientError msg ->
  let e := ClientError msg in
  let sys' := step env (RunSite i) sys in
  fst (check_website_availability env (wd_url wd) (wd_regexp_pattern wd) (mem sys))
  = inr e /\
  logs (mem sys') = logs (mem sys) ++ [ErrorConnecting (wd_url wd) e] /\
  nth_error (tasks sys') i = Some (wd, Failed e) /\
  monitoring_results (mem sys') = monitoring_results (mem sys) /\
  (forall j, j <> i -> nth_error (tasks sys') j = nth_error (tasks sys) j) /\
  scheduler sys' = scheduler sys /\
  (forall evs, nth_error (tasks (run env evs sys')) i = Some (wd, Failed e)) /\
  step env (RunSite i) sys' = sys'.
Proof.
  intros Hi Hs Ho. cbv zeta.
  pose proof (probe_client_error env (wd_url wd) (wd_regexp_pattern wd)
                (mem sys) msg Ho) as Hprobe.
  assert (Hstep : step env (RunSite i) sys =
            mkSystem
              (after_probe (mem sys) 1
                 [Request (method_for (wd_regexp_pattern wd)) (https_url (wd_url wd))
                    MonitoringSettings.REQUEST_TIMEOUT]
                 [ErrorConnecting (wd_url wd) (ClientError msg)])
              (set_nth i (wd, Failed (ClientError msg)) (tasks sys))
              (scheduler sys)).
  { cbn [step]. rewrite (run_site_about_to_probe env i sys wd s Hi Hs).
    unfold run_task. cbn [recurrent_loop]. unfold bind at 1.
    rewrite (probe_and_append_raises env wd (mem sys) _ _ Hprobe).
    reflexivity. }
  assert (Hfailed : nth_error (tasks (step env (RunSite i) sys)) i
                    = Some (wd, Failed (ClientError msg))).
  { rewrite Hstep. cbn [tasks]. now apply nth_error_set_nth_same with (wd, s). }
  split; [now rewrite Hprobe |].
  split; [now rewrite Hstep |].
  split; [exact Hfailed |].
  split; [now rewrite Hstep |].
  split.
  { intros j Hj. rewrite Hstep. cbn [tasks]. now apply nth_error_set_nth_other. }
  split; [now rewrite Hstep |].
  split.
  { intros evs. apply ended_task_stays_run; [| exact Hfailed].
    right. now exists (ClientError msg). }
  cbn [step] in *. unfold run_site at 1. now rewrite Hfailed.
Qed.

Lemma check_website_recurrently_no_interval (env : Env) (wd : website_data)
  (resumes : nat) (st : state) :
  truthy_int (wd_interval wd) = false ->
  check_website_recurrently env wd resumes st =
  (inl Done, snd (log (InfoSkipMonitoring (wd_url wd)) st)).
Proof.
  intros H. unfold check_website_recurrently. rewrite H. reflexivity.
Qed.

Lemma idle_task_stays_idle (env : Env) (ev : event) (sys : system) (i : nat)
  (wd : website_data) :
  truthy_int (wd_interval wd) = false ->
  (exists s, nth_error (tasks sys) i = Some (wd, s) /\ idle s) ->
  exists s, nth_error (tasks (step env ev sys)) i = Some (wd, s) /\ idle s.
Proof.
  intros Hint [s [Hi Hs]].
  destruct Hs as [-> | ->].
  - destruct ev as [j | | wd']; cbn [step].
    + destruct (Nat.eq_dec j i) as [-> | Hne].
      * exists Done. split; [| now right].
        unfold run_site, run_task. rewrite Hi.
        rewrite check_website_recurrently_no_interval by exact Hint.
        cbn. now apply nth_error_set_nth_same with (wd, Pending).
      * exists Pending. split; [| now left].
        rewrite run_site_other by congruence. exact Hi.
    + exists Pending. split; [| now left]. now rewrite run_scheduler_tasks.
    + exists Pending. split; [| now left].
      cbn [tasks]. rewrite nth_error_app1; [exact Hi |].
      apply nth_error_Some. congruence.
  - exists Done. split; [| now right].
    apply ended_task_stays; [now left | exact Hi].
Qed.

Lemma idle_task_stays_idle_run (env : Env) (evs : list event) (sys : system)
  (i : nat) (wd : website_data) :
  truthy_int (wd_interval wd) = false ->
  (exists s, nth_error (tasks sys) i = Some (wd, s) /\ idle s) ->
  exists s, nth_error (tasks (run env evs sys)) i = Some (wd, s) /\ idle s.
Proof.
  intros Hint. revert sys.
  induction evs as [|ev evs IH]; intros sys H; cbn.
  - exact H.
  - apply IH. now apply idle_task_stays_idle.
Qed.

(** C5.  For a site whose interval is [None] or 0,
    [check_website_recurrently] logs that monitoring is skipped and
    returns, without an exception, whatever the number of resumptions
    allowed to it: the state changes by that log record only, so the Prober
    is not called and nothing is appended.  And in the event loop, after
    any sequence of events, running the task of that site leaves the
    buffer, the network trace and the clock as they are, and the task is
    [Done], not [Failed]. *)
Theorem no_interval_site_is_never_probed (env : Env) (wd : website_data) :
  wd_interval wd = None \/ wd_interval wd = Some 0%Z ->
  (forall resumes st,
     check_website_recurrently env wd resumes st =
     (inl Done,
      mkState (monitoring_results st) (sink_calls st) (db_rows st)
              (logs st ++ [InfoSkipMonitoring (wd_url wd)])
              (now_count st) (net_trace st))) /\
  (forall sys i evs,
     nth_error (tasks sys) i = Some (wd, Pending) ->
     let before := run env evs sys in
     let after := step env (RunSite i) before in
     monitoring_results (mem after) = monitoring_results (mem before) /\
     net_trace (mem after) = net_trace (mem before) /\
     now_count (mem after) = now_count (mem before) /\
     nth_error (tasks after) i = Some (wd, Done)).
Proof.
  intros Hint.
  assert (Hfalsy : truthy_int (wd_interval wd) = false).
  { destruct Hint as [-> | ->]; reflexivity. }
  split.
  - intros resumes st.
    now rewrite check_website_recurrently_no_interval.
  - intros sys i evs Hi. cbv zeta.
    destruct (idle_task_stays_idle_run env evs sys i wd Hfalsy) as [s [Hs Hidle]].
    { exists Pending. split; [exact Hi | now left]. }
    cbn [step]. unfold run_site, run_task. rewrite Hs.
    destruct Hidle as [-> | ->].
    + rewrite check_website_recurrently_no_interval by exact Hfalsy.
      cbn. repeat split.
      now apply nth_error_set_nth_same with (wd, Pending).
    + repeat split. exact Hs.
Qed.

(** ** The cases of the test suite *)

(** test_check_website_availability_no_regexp *)
Example probe_no_regexp :
  check_website_availability env_up "www.test.com"%string None initial_state =
  (inl (Some (mkResult 0%Z 250000%Z (Qmake 250000 1000000) 200 None None None)),
   mkState [] [] [] [] 2 [Request HEAD "https://www.test.com"%string 30]).
Proof. reflexivity. Qed.

(** test_check_website_availability_with_regexp: the pattern is found
    inside the body, which is longer than the pattern. *)
Example probe_with_regexp :
  check_website_availability env_up "www.test.com"%string (Some "Test Pattern"%string)
    initial_state =
  (inl (Some (mkResult 0%Z 250000%Z (Qmake 250000 1000000) 200 None None
                (Some true))),
   mkState [] [] [] [] 2
     [Request GET "https://www.test.com"%string 30; ReadText "https://www.test.com"%string]).
Proof. reflexivity. Qed.

(** test_check_website_availability_timeout *)
Example probe_timeout :
  check_website_availability env_timeout "www.test.com"%string None initial_state =
  (inl (Some (mkResult 0%Z 31500000%Z (inject_Z 30) 408 None None None)),
   mkState [] [] [] [] 2 [Request HEAD "https://www.test.com"%string 30]).
Proof. reflexivity. Qed.

(** test_check_website_availability_client_error *)
Example probe_client_error_raises :
  fst (check_website_availability env_refused "www.test.com"%string None initial_state)
  = inr (ClientError "Cannot connect to host"%string).
Proof. reflexivity. Qed.

(** test_save_website_monitoring_results: ten results, one sink call,
    an empty buffer afterwards. *)
Example save_ten_results :
  let st' := snd (save_website_monitoring_results env_up
                    (buffer_of (repeat 200%Z 10))) in
  monitoring_results st' = [] /\
  sink_calls st' = [map result_with_code (repeat 200%Z 10)] /\
  logs st' = [InfoSaved 10 [(200%Z, 10)]].
Proof. repeat split. Qed.

(** More results than one batch holds: 100 go to the sink, 150 stay. *)
Example save_250_results :
  let st' := snd (save_website_monitoring_results env_up
                    (buffer_of (repeat 200%Z 250))) in
  List.length (monitoring_results st') = 150 /\
  map (@List.length _) (sink_calls st') = [100].
Proof. vm_compute. repeat split. Qed.

(** test_no_interval_skip_monitoring and test_monitor_single_website:
    after each task has run once, the site with an interval has one
    result in the buffer and the other has none. *)
Example two_sites_first_round :
  let sys := run env_up [RunSite 0; RunSite 1]
               (monitor_websites env_up [site_a; site_b] initial_state) in
  map url (monitoring_results (mem sys)) = [Some "www.test1.com"%string] /\
  map snd (tasks sys) = [Sleeping; Done].
Proof. repeat split. Qed.

(** ** Instances *)

(** The wall clock read by [datetime.now()] can be set back between the
    two readings of a probe; the difference of the readings is then
    negative.  Here the probe completes with a response time of -5
    seconds. *)
Lemma response_time_negative_when_clock_set_back :
  exists r,
    fst (check_website_availability env_clock_back "www.test.com"%string None
           initial_state) = inl (Some r) /\
    ~ (0 <= response_time r)%Q.
Proof.
  eexists. split; [reflexivity |].
  cbn. unfold total_seconds, Qle. cbn. lia.
Qed.

Lemma probe_response_time_witness :
  (exists r,
     fst (check_website_availability env_timeout "www.test.com"%string None
            initial_state) = inl (Some r) /\
     http_status_code r = 408%Z /\
     response_time r = inject_Z 30 /\
     MonitoringSettings.REQUEST_TIMEOUT = 30%Z /\
     is_regex_pattern_compliant r = None) /\
  (0 <= Qmake 250000 1000000)%Q.
Proof.
  split.
  - apply (probe_response_time env_timeout "www.test.com"%string None initial_state).
    left. reflexivity.
  - apply (proj1 (probe_response_time env_up "www.test.com"%string None initial_state)
             (mkResult 0%Z 250000%Z (Qmake 250000 1000000) 200 None None None)).
    + reflexivity.
    + cbn. lia.
Defined.

Lemma probe_method_follows_pattern_witness :
  exists r,
    fst (check_website_availability env_up "www.test.com"%string
           (Some "Test Pattern"%string) initial_state) = inl (Some r) /\
    is_regex_pattern_compliant r = Some true /\
    http_status_code r = 200%Z.
Proof.
  apply (proj2 (probe_method_follows_pattern env_up "www.test.com"%string
                  (Some "Test Pattern"%string) initial_state)
           "Test Pattern"%string eq_refl)
    with (body := "Test Pattern in response"%string).
  - discriminate.
  - reflexivity.
  - reflexivity.
Defined.

Lemma sink_failure_loses_batch_witness :
  let st := buffer_of [200; 404]%Z in
  fst (flush_cycle env_db_down st) = inl tt /\
  monitoring_results st = map result_with_code [200; 404]%Z /\
  monitoring_results (snd (flush_cycle env_db_down st)) = [] /\
  db_rows (snd (flush_cycle env_db_down st)) = [].
Proof.
  cbv zeta.
  destruct (sink_failure_loses_batch env_db_down (buffer_of [200; 404]%Z)
              (Psycopg2Error "server closed the connection unexpectedly"%string))
    as (_ & _ & Hcaught & _ & Hrows & _).
  - discriminate.
  - reflexivity.
  - split; [exact Hcaught |].
    split; [reflexivity |].
    split; [reflexivity | exact Hrows].
Defined.

Lemma flush_of_empty_buffer_calls_sink_witness :
  sink_calls (snd (save_website_monitoring_results env_up initial_state)) = [[]] /\
  logs (snd (save_website_monitoring_results env_up initial_state))
  = [InfoSaved 0 []].
Proof.
  destruct (flush_of_empty_buffer_calls_sink env_up initial_state eq_refl)
    as (Hsink & _ & Hlog).
  split; [exact Hsink | exact Hlog].
Defined.

Lemma client_error_ends_only_its_site_task_witness :
  let sys' := step env_refused (RunSite 0) two_sites in
  nth_error (tasks sys') 0
  = Some (site_a, Failed (ClientError "Cannot connect to host"%string)) /\
  nth_error (tasks sys') 1 = Some (site_b, Pending) /\
  monitoring_results (mem sys') = [].
Proof.
  cbv zeta.
  destruct (client_error_ends_only_its_site_task env_refused two_sites 0 site_a
              Pending "Cannot connect to host"%string)
    as (_ & _ & Hfailed & Hbuf & Hothers & _).
  - reflexivity.
  - right. split; reflexivity.
  - reflexivity.
  - split; [exact Hfailed |].
    split; [rewrite Hothers by discriminate; reflexivity |].
    rewrite Hbuf. reflexivity.
Defined.

Lemma no_interval_site_is_never_probed_witness :
  check_website_recurrently env_up site_b 3 initial_state =
  (inl Done,
   mkState [] [] [] [InfoSkipMonitoring "www.test2.com"%string] 0 []).
Proof.
  apply (proj1 (no_interval_site_is_never_probed env_up site_b (or_introl eq_refl))
           3 initial_state).
Defined.

(** * More of the engine: properties *)

(** ** Whole runs of the Scheduler *)

Lemma batches_concat (fuel : nat) (buf : list WebsiteMonitoringResult) :
  List.length buf <= fuel -> List.concat (batches fuel buf) = buf.
Proof.
  revert buf. induction fuel as [|fuel IH]; intros buf Hlen.
  - destruct buf; [reflexivity | cbn [List.length] in Hlen; lia].
  - destruct buf as [|x l]; [reflexivity |].
    cbn [batches List.concat]. rewrite IH.
    + apply firstn_skipn.
    + pose proof (skipn_batch_shorter _ x l). cbn [List.length] in Hlen. lia.
Qed.

Lemma batches_bounds (fuel : nat) (buf : list WebsiteMonitoringResult) :
  Forall (fun b => 1 <= List.length b <= BATCH) (batches fuel buf).
Proof.
  revert buf. induction fuel as [|fuel IH]; intros buf.
  - destruct buf; constructor.
  - destruct buf as [|x l]; [constructor |].
    cbn [batches]. constructor; [| apply IH].
    rewrite length_firstn. cbn [List.length].
    unfold MonitoringSettings.RESULTS_BATCH_SAVE_SIZE. lia.
Qed.

Lemma batches_full (fuel : nat) (buf : list WebsiteMonitoringResult) :
  Forall (fun b => List.length b = BATCH) (removelast (batches fuel buf)).
Proof.
  revert buf. induction fuel as [|fuel IH]; intros buf.
  - destruct buf; constructor.
  - destruct buf as [|x l]; [constructor |].
    cbn [batches].
    destruct (batches fuel (skipn BATCH (x :: l))) as [|b bs] eqn:Hrest.
    + constructor.
    + change (removelast (firstn BATCH (x :: l) :: b :: bs))
        with (firstn BATCH (x :: l) :: removelast (b :: bs)).
      constructor.
      * rewrite length_firstn.
        destruct (skipn BATCH (x :: l)) as [|y l'] eqn:Hskip.
        { destruct fuel; discriminate Hrest. }
        assert (Hlen : List.length (skipn BATCH (x :: l)) = S (List.length l'))
          by now rewrite Hskip.
        rewrite length_skipn in Hlen. lia.
      * rewrite <- Hrest. apply IH.
Qed.

Lemma Forall_firstn_skipn {A} (P : A -> Prop) (n : nat) (l : list A) :
  Forall P l -> Forall P (firstn n l) /\ Forall P (skipn n l).
Proof.
  intros H. rewrite <- (firstn_skipn n l) in H. now apply Forall_app in H.
Qed.

Lemma batches_Forall (P : WebsiteMonitoringResult -> Prop) (fuel : nat)
  (buf : list WebsiteMonitoringResult) :
  Forall P buf -> Forall (Forall P) (batches fuel buf).
Proof.
  revert buf. induction fuel as [|fuel IH]; intros buf HP.
  - destruct buf; constructor.
  - destruct buf as [|x l]; [constructor |].
    cbn [batches]. constructor.
    + now apply Forall_firstn_skipn.
    + apply IH. now apply Forall_firstn_skipn.
Qed.

Lemma committed_Forall (P : WebsiteMonitoringResult -> Prop) (env : Env) (k : nat)
  (bs : list (list WebsiteMonitoringResult)) :
  Forall (Forall P) bs -> Forall P (committed env k bs).
Proof.
  revert k. induction bs as [|b bs IH]; intros k HP; cbn [committed].
  - constructor.
  - inversion HP as [|? ? Hb Hbs]; subst.
    destruct (sink_outcome env k b).
    + now apply IH.
    + apply Forall_app. split; [assumption | now apply IH].
Qed.

Lemma committed_sink_works (env : Env) (k : nat)
  (bs : list (list WebsiteMonitoringResult)) :
  sink_works env -> committed env k bs = List.concat bs.
Proof.
  intros Hw. revert k. induction bs as [|b bs IH]; intros k; cbn [committed List.concat].
  - reflexivity.
  - rewrite Hw. now rewrite IH.
Qed.

Lemma committed_sink_down (env : Env) (k : nat)
  (bs : list (list WebsiteMonitoringResult)) :
  sink_down env -> committed env k bs = [].
Proof.
  intros Hd. revert k. induction bs as [|b bs IH]; intros k; cbn [committed].
  - reflexivity.
  - destruct (sink_outcome env k b) eqn:E; [apply IH |].
    now apply Hd in E.
Qed.

(** A run of the Scheduler loop, from the test of the inner [while] to the
    next sleep. *)
Lemma flush_until_empty_run (env : Env) (n fuel : nat) (st : state) :
  List.length (monitoring_results st) <= fuel ->
  exists st',
    flush_until_empty env n fuel st = (inl true, st') /\
    monitoring_results st' = [] /\
    sink_calls st' = sink_calls st ++ batches fuel (monitoring_results st) /\
    db_rows st' =
      db_rows st ++
      committed env (List.length (sink_calls st))
        (batches fuel (monitoring_results st)) /\
    now_count st' = now_count st /\
    net_trace st' = net_trace st.
Proof.
  revert st. induction fuel as [|fuel IH]; intros st Hlen.
  - destruct (monitoring_results st) as [|x l] eqn:Hbuf;
      cbn [List.length] in Hlen; [| lia].
    exists st. cbn. unfold bind, get_state. rewrite Hbuf.
    rewrite !app_nil_r. repeat split; assumption || reflexivity.
  - destruct (monitoring_results st) as [|x l] eqn:Hbuf.
    + exists st. cbn [flush_until_empty]. unfold bind, get_state. rewrite Hbuf.
      cbn [batches committed]. rewrite !app_nil_r.
      repeat split; assumption || reflexivity.
    + rewrite flush_until_empty_step by (rewrite Hbuf; discriminate).
      rewrite flush_cycle_eq. cbv zeta. rewrite Hbuf.
      cbn [batches committed].
      set (batch := firstn BATCH (x :: l)).
      set (remaining := skipn BATCH (x :: l)).
      assert (Hrem : List.length remaining <= fuel).
      { subst remaining. pose proof (skipn_batch_shorter _ x l).
        cbn [List.length] in Hlen. lia. }
      destruct (sink_outcome env (List.length (sink_calls st)) batch) as [e|];
        cbn [snd log];
        match goal with
        | |- context [flush_until_empty env n fuel ?s] =>
            destruct (IH s) as (st' & E & Hb & Hs & Hd & Hn & Ht);
            [exact Hrem |]
        end;
        exists st'; rewrite E;
        cbn [monitoring_results sink_calls db_rows now_count net_trace] in *;
        rewrite length_app, Nat.add_1_r in Hd; cbn [List.length] in Hd;
        rewrite Hs, Hd, <- !app_assoc; repeat split; assumption.
Qed.

Lemma run_scheduler_run (env : Env) (sys : system) :
  scheduler sys = NotStarted \/ scheduler sys = Waiting ->
  exists st',
    run_scheduler env sys = mkSystem st' (tasks sys) Waiting /\
    monitoring_results st' = [] /\
    sink_calls st' =
      sink_calls (mem sys) ++
      batches (List.length (monitoring_results (mem sys)))
        (monitoring_results (mem sys)) /\
    db_rows st' =
      db_rows (mem sys) ++
      committed env (List.length (sink_calls (mem sys)))
        (batches (List.length (monitoring_results (mem sys)))
           (monitoring_results (mem sys))) /\
    now_count st' = now_count (mem sys) /\
    net_trace st' = net_trace (mem sys).
Proof.
  intros Hs. unfold run_scheduler.
  destruct Hs as [Hs | Hs]; rewrite Hs.
  - unfold bind at 1. unfold log at 1.
    match goal with
    | |- context [flush_until_empty env ?n ?f ?s] =>
        destruct (flush_until_empty_run env n f s) as (st' & E & H);
        [cbn; lia |]
    end.
    rewrite E. exists st'. split; [reflexivity | exact H].
  - unfold bind at 1. unfold ret at 1.
    destruct (flush_until_empty_run env (num_tasks (tasks sys))
                (List.length (monitoring_results (mem sys))) (mem sys))
      as (st' & E & H); [lia |].
    rewrite E. exists st'. split; [reflexivity | exact H].
Qed.

(** X1.  Each time the Scheduler coroutine runs, it hands the whole
    buffer to the sink before it sleeps again: the batches of its sink
    calls, put end to end, are the buffer it found, in order; none of them
    is empty, none has more than 100 results, and all but the last have
    exactly 100.  It ends the run waiting, with an empty buffer, and does
    not touch the Site Tasks. *)
Theorem scheduler_run_hands_buffer_in_batches (env : Env) (sys : system) :
  scheduler sys = NotStarted \/ scheduler sys = Waiting ->
  let sys' := run_scheduler env sys in
  scheduler sys' = Waiting /\
  monitoring_results (mem sys') = [] /\
  tasks sys' = tasks sys /\
  exists new,
    sink_calls (mem sys') = sink_calls (mem sys) ++ new /\
    List.concat new = monitoring_results (mem sys) /\
    Forall (fun b => 1 <= List.length b <= 100) new /\
    Forall (fun b => List.length b = 100) (removelast new).
Proof.
  intros Hs. cbv zeta.
  destruct (run_scheduler_run env sys Hs) as (st' & E & Hb & Hc & _).
  rewrite E. cbn [scheduler mem tasks].
  split; [reflexivity |].
  split; [exact Hb |].
  split; [reflexivity |].
  exists (batches (List.length (monitoring_results (mem sys)))
            (monitoring_results (mem sys))).
  split; [exact Hc |].
  split; [apply batches_concat; lia |].
  split; [apply batches_bounds | apply batches_full].
Qed.

Lemma scheduler_run_hands_buffer_in_batches_witness :
  let sys' := run_scheduler env_up three_buffered in
  scheduler sys' = Waiting /\
  monitoring_results (mem sys') = [] /\
  sink_calls (mem sys') = [map result_with_code [200; 404; 200]%Z].
Proof.
  cbv zeta.
  destruct (scheduler_run_hands_buffer_in_batches env_up three_buffered)
    as (Hw & Hb & _).
  - right. reflexivity.
  - split; [exact Hw |]. split; [exact Hb | reflexivity].
Defined.

(** X2.  When no sink call raises, a run of the Scheduler commits the
    whole buffer to the database, in the order of the buffer: nothing is
    lost, repeated or reordered. *)
Theorem scheduler_run_commits_buffer (env : Env) (sys : system) :
  scheduler sys = NotStarted \/ scheduler sys = Waiting ->
  sink_works env ->
  db_rows (mem (run_scheduler env sys)) =
  db_rows (mem sys) ++ monitoring_results (mem sys).
Proof.
  intros Hs Hw.
  destruct (run_scheduler_run env sys Hs) as (st' & E & _ & _ & Hd & _).
  rewrite E. cbn [mem]. rewrite Hd.
  rewrite committed_sink_works by exact Hw.
  rewrite batches_concat by lia. reflexivity.
Qed.

Lemma scheduler_run_commits_buffer_witness :
  db_rows (mem (run_scheduler env_up three_buffered)) =
  map result_with_code [200; 404; 200]%Z.
Proof.
  apply (scheduler_run_commits_buffer env_up three_buffered).
  - right. reflexivity.
  - intros n batch. reflexivity.
Defined.

(** X3.  When every sink call raises, a run of the Scheduler still
    empties the buffer and commits nothing: every buffered result is
    lost, and the Scheduler goes on waiting. *)
Theorem scheduler_run_loses_buffer_when_sink_down (env : Env) (sys : system) :
  scheduler sys = NotStarted \/ scheduler sys = Waiting ->
  sink_down env ->
  let sys' := run_scheduler env sys in
  db_rows (mem sys') = db_rows (mem sys) /\
  monitoring_results (mem sys') = [] /\
  scheduler sys' = Waiting.
Proof.
  intros Hs Hd. cbv zeta.
  destruct (run_scheduler_run env sys Hs) as (st' & E & Hb & _ & Hrows & _).
  rewrite E. cbn [mem scheduler]. rewrite Hrows.
  rewrite committed_sink_down by exact Hd.
  rewrite app_nil_r. auto.
Qed.

Lemma scheduler_run_loses_buffer_when_sink_down_witness :
  monitoring_results (mem three_buffered) = map result_with_code [200; 404; 200]%Z /\
  db_rows (mem (run_scheduler env_db_down three_buffered)) = [] /\
  monitoring_results (mem (run_scheduler env_db_down three_buffered)) = [].
Proof.
  destruct (scheduler_run_loses_buffer_when_sink_down env_db_down three_buffered)
    as (Hrows & Hb & _).
  - right. reflexivity.
  - intros n batch. discriminate.
  - split; [reflexivity |]. split; [exact Hrows | exact Hb].
Defined.

(** ** Where results come from *)

(** Whatever happens in a probe, the state after it is the state before
    it with more clock readings, network events and log records. *)
Lemma probe_frame (env : Env) (u : string) (regexp_pattern : option string)
  (st : state) :
  exists ticks evs lg,
    snd (check_website_availability env u regexp_pattern st)
    = after_probe st ticks evs lg.
Proof.
  assert (H : exists ticks evs lg,
             snd (attempt env u regexp_pattern "https" st)
             = after_probe st ticks evs lg).
  { rewrite attempt_https_eq. cbv zeta.
    destruct (probe_outcome env u regexp_pattern st) as [status body | | msg | msg];
      try destruct (truthy_str regexp_pattern);
      try destruct body as [s | | msg | msg];
      try destruct (re_search env (pattern_text regexp_pattern) s) as [e | b];
      try destruct e;
      do 3 eexists; reflexivity. }
  rewrite check_website_availability_eq.
  destruct (attempt env u regexp_pattern "https" st) as [[r|e] st']; exact H.
Qed.

(** A pass of a Site Task leaves the sink calls and the database as they
    are, and appends nothing, or one result with the url and the id of its
    site. *)
Lemma probe_and_append_frame (env : Env) (wd : website_data) (st : state) :
  let st' := snd (probe_and_append env wd st) in
  sink_calls st' = sink_calls st /\
  db_rows st' = db_rows st /\
  (monitoring_results st' = monitoring_results st \/
   exists r, monitoring_results st' = monitoring_results st ++ [r] /\
             url r = Some (wd_url wd) /\ website_id r = Some (wd_id wd)).
Proof.
  cbv zeta.
  destruct (probe_frame env (wd_url wd) (wd_regexp_pattern wd) st)
    as (ticks & evs & lg & Hst).
  unfold probe_and_append, bind.
  destruct (check_website_availability env (wd_url wd) (wd_regexp_pattern wd) st)
    as [[[r|]|e] st1]; cbn [snd] in Hst; subst st1.
  - unfold append_result, bind, get_state, set_buffer. cbn.
    split; [reflexivity |]. split; [reflexivity |].
    right. eexists. split; [reflexivity |]. split; reflexivity.
  - cbn. auto.
  - cbn. auto.
Qed.

Lemma set_nth_sites (i : nat) (wd : website_data) (s s' : task_status)
  (ts : list (website_data * task_status)) :
  nth_error ts i = Some (wd, s) ->
  map fst (set_nth i (wd, s') ts) = map fst ts.
Proof.
  revert i. induction ts as [|t ts IH]; intros [|i] H; cbn in *;
    try discriminate.
  - inversion H; subst. reflexivity.
  - f_equal. now apply IH.
Qed.

Lemma belongs_more_sites (ws ws' : list website_data) (r : WebsiteMonitoringResult) :
  (forall wd, In wd ws -> In wd ws') -> belongs ws r -> belongs ws' r.
Proof.
  intros Hsub (wd & Hin & Hu & Hi). exists wd. auto.
Qed.

Lemma run_site_belong (env : Env) (i : nat) (sys : system) :
  all_results_belong sys -> all_results_belong (run_site env i sys).
Proof.
  intros (Hbuf & Hsink & Hrows). unfold run_site.
  destruct (nth_error (tasks sys) i) as [[wd s]|] eqn:Hi;
    [| repeat split; assumption].
  assert (Hin : In wd (sites sys)).
  { unfold sites. apply in_map_iff. exists (wd, s).
    split; [reflexivity | now apply nth_error_In with i]. }
  assert (Hloop :
            all_results_belong
              (let (s1, st') := run_task (recurrent_loop env wd 0) (mem sys) in
               mkSystem st' (set_nth i (wd, s1) (tasks sys)) (scheduler sys))).
  { unfold run_task. cbn [recurrent_loop]. unfold bind at 1.
    destruct (probe_and_append_frame env wd (mem sys)) as (Hs & Hd & Hb).
    destruct (probe_and_append env wd (mem sys)) as [[[]|e] st'];
      cbn [snd] in Hs, Hd, Hb; cbn [ret];
      unfold all_results_belong, sites; cbn [mem tasks];
      rewrite (set_nth_sites i wd s _ (tasks sys) Hi), Hs, Hd;
      (split; [| split; assumption]);
      destruct Hb as [-> | (r & -> & Hu & Hid)]; try assumption;
      apply Forall_app; (split; [assumption |]);
      (constructor; [| constructor]); exists wd; auto. }
  destruct s as [| | |e].
  - unfold check_website_recurrently.
    destruct (negb (truthy_int (wd_interval wd))).
    + unfold run_task, bind, log, ret. cbn.
      unfold all_results_belong, sites. cbn [mem tasks].
      rewrite (set_nth_sites i wd Pending _ (tasks sys) Hi).
      repeat split; assumption.
    + exact Hloop.
  - exact Hloop.
  - repeat split; assumption.
  - repeat split; assumption.
Qed.

Lemma run_scheduler_belong (env : Env) (sys : system) :
  all_results_belong sys -> all_results_belong (run_scheduler env sys).
Proof.
  intros (Hbuf & Hsink & Hrows).
  destruct (scheduler sys) as [| |e|] eqn:Hs;
    try (unfold run_scheduler; rewrite Hs; repeat split; assumption).
  - destruct (run_scheduler_run env sys (or_introl Hs))
      as (st' & E & Hb & Hc & Hd & _).
    rewrite E. unfold all_results_belong, sites. cbn [mem tasks].
    rewrite Hb, Hc, Hd.
    split; [constructor |].
    split; apply Forall_app; (split; [assumption |]).
    + now apply batches_Forall.
    + apply committed_Forall. now apply batches_Forall.
  - destruct (run_scheduler_run env sys (or_intror Hs))
      as (st' & E & Hb & Hc & Hd & _).
    rewrite E. unfold all_results_belong, sites. cbn [mem tasks].
    rewrite Hb, Hc, Hd.
    split; [constructor |].
    split; apply Forall_app; (split; [assumption |]).
    + now apply batches_Forall.
    + apply committed_Forall. now apply batches_Forall.
Qed.

Lemma step_belong (env : Env) (ev : event) (sys : system) :
  all_results_belong sys -> all_results_belong (step env ev sys).
Proof.
  destruct ev as [i | | wd]; cbn [step].
  - apply run_site_belong.
  - apply run_scheduler_belong.
  - intros (Hbuf & Hsink & Hrows).
    assert (Hmore : forall r, belongs (sites sys) r ->
                              belongs (map fst (tasks sys ++ [(wd, Pending)])) r).
    { intros r. apply belongs_more_sites. intros wd' Hin.
      rewrite map_app. apply in_or_app. now left. }
    unfold all_results_belong, sites. cbn [mem tasks].
    split; [| split].
    + eapply Forall_impl; [exact Hmore | exact Hbuf].
    + eapply Forall_impl; [| exact Hsink].
      intros b Hb. eapply Forall_impl; [exact Hmore | exact Hb].
    + eapply Forall_impl; [exact Hmore | exact Hrows].
Qed.

(** X4.  Every result that the engine holds (in the buffer, in a batch
    handed to the sink, in the database) carries the url and the id of a
    site the Scheduler has a task for, both set and of the same site: if
    that is so at some point, it is so after any sequence of events.  In
    particular no result reaches the sink with its url or its website id
    unset. *)
Theorem results_belong_to_sites (env : Env) (evs : list event) (sys : system) :
  all_results_belong sys -> all_results_belong (run env evs sys).
Proof.
  revert sys. induction evs as [|ev evs IH]; intros sys H; cbn.
  - exact H.
  - apply IH. now apply step_belong.
Qed.

Lemma results_belong_to_sites_witness :
  all_results_belong
    (run env_up [RunSite 0; RunSite 1; RunScheduler; RunSite 0]
       (monitor_websites env_up [site_a; site_b] initial_state)).
Proof.
  apply results_belong_to_sites.
  repeat split; constructor.
Defined.

(** ** What ends a Site Task and what does not *)

Lemma probe_times_out (env : Env) (u : string) (regexp_pattern : option string)
  (st : state) :
  request_times_out env u regexp_pattern st ->
  exists evs,
    check_website_availability env u regexp_pattern st =
    (inl (Some (mkResult (clock env (now_count st)) (clock env (S (now_count st)))
                  (inject_Z MonitoringSettings.REQUEST_TIMEOUT)
                  HTTPStatus.REQUEST_TIMEOUT None None None)),
     after_probe st 2 evs []).
Proof.
  intros H. rewrite check_website_availability_eq, attempt_https_eq. cbv zeta.
  destruct H as [Ho | [Ht [status Ho]]]; rewrite Ho; [| rewrite Ht];
    eexists; reflexivity.
Qed.

Lemma site_pass (env : Env) (i : nat) (sys : system) (wd : website_data)
  (s : task_status) :
  nth_error (tasks sys) i = Some (wd, s) ->
  about_to_probe wd s ->
  step env (RunSite i) sys =
  match probe_and_append env wd (mem sys) with
  | (inl _, st') => mkSystem st' (set_nth i (wd, Sleeping) (tasks sys)) (scheduler sys)
  | (inr e, st') => mkSystem st' (set_nth i (wd, Failed e) (tasks sys)) (scheduler sys)
  end.
Proof.
  intros Hi Hs. cbn [step].
  rewrite (run_site_about_to_probe env i sys wd s Hi Hs).
  unfold run_task. cbn [recurrent_loop]. unfold bind at 1.
  destruct (probe_and_append env wd (mem sys)) as [[[]|e] st']; reflexivity.
Qed.

(** X5.  A request that times out does not end the Site Task: the pass
    appends to the buffer a result with status 408, a response time of 30
    seconds, no compliance flag, and the url and id of the site; nothing
    is logged, and the task is left sleeping, to probe again. *)
Theorem timeout_keeps_site_task_running (env : Env) (sys : system) (i : nat)
  (wd : website_data) (s : task_status) :
  nth_error (tasks sys) i = Some (wd, s) ->
  about_to_probe wd s ->
  request_times_out env (wd_url wd) (wd_regexp_pattern wd) (mem sys) ->
  let sys' := step env (RunSite i) sys in
  nth_error (tasks sys') i = Some (wd, Sleeping) /\
  logs (mem sys') = logs (mem sys) /\
  exists r,
    monitoring_results (mem sys') = monitoring_results (mem sys) ++ [r] /\
    http_status_code r = 408%Z /\
    response_time r = inject_Z 30 /\
    is_regex_pattern_compliant r = None /\
    url r = Some (wd_url wd) /\
    website_id r = Some (wd_id wd).
Proof.
  intros Hi Hs Ht. cbv zeta.
  rewrite (site_pass env i sys wd s Hi Hs).
  destruct (probe_times_out env _ _ _ Ht) as [evs Hprobe].
  unfold probe_and_append, bind. rewrite Hprobe.
  unfold append_result, bind, get_state, set_buffer, after_probe.
  cbn [monitoring_results sink_calls db_rows logs now_count net_trace
       mem tasks fst snd].
  split; [now apply nth_error_set_nth_same with (wd, s) |].
  split; [apply app_nil_r |].
  eexists. split; [reflexivity |]. repeat split.
Qed.

Lemma timeout_keeps_site_task_running_witness :
  let sys' := step env_timeout (RunSite 0) (one_sleeping_site site_a) in
  nth_error (tasks sys') 0 = Some (site_a, Sleeping) /\
  map http_status_code (monitoring_results (mem sys')) = [408%Z].
Proof.
  cbv zeta.
  destruct (timeout_keeps_site_task_running env_timeout (one_sleeping_site site_a)
              0 site_a Sleeping)
    as (Hs & _ & r & Hb & Hc & _).
  - reflexivity.
  - left. reflexivity.
  - left. reflexivity.
  - split; [exact Hs |]. rewrite Hb. cbn. now rewrite Hc.
Defined.

(** X6.  A pattern that [re.search] rejects ends the Site Task without a
    record in the log of the engine: the GET is made and the body read,
    then the [re.error] leaves the probe through neither [except] clause;
    nothing is appended, the engine logs nothing, and the task has ended
    with that error. *)
Theorem invalid_pattern_ends_site_task_silently (env : Env) (sys : system)
  (i : nat) (wd : website_data) (s : task_status) (p body msg : string)
  (status : Z) :
  nth_error (tasks sys) i = Some (wd, s) ->
  about_to_probe wd s ->
  wd_regexp_pattern wd = Some p ->
  p <> ""%string ->
  http env (requests_made (net_trace (mem sys))) GET ("https://" ++ wd_url wd)%string
  = Response status (Text body) ->
  re_search env p body = inl (OtherException msg) ->
  let sys' := step env (RunSite i) sys in
  nth_error (tasks sys') i = Some (wd, Failed (OtherException msg)) /\
  logs (mem sys') = logs (mem sys) /\
  monitoring_results (mem sys') = monitoring_results (mem sys) /\
  net_trace (mem sys') =
    net_trace (mem sys) ++
    [Request GET ("https://" ++ wd_url wd)%string MonitoringSettings.REQUEST_TIMEOUT;
     ReadText ("https://" ++ wd_url wd)%string].
Proof.
  intros Hi Hs Hp Hne Hresp Hre. cbv zeta.
  rewrite (site_pass env i sys wd s Hi Hs).
  assert (Ht : truthy_str (Some p) = true).
  { cbn. destruct (String.eqb_spec p ""%string); [contradiction | reflexivity]. }
  assert (Hprobe :
    check_website_availability env (wd_url wd) (wd_regexp_pattern wd) (mem sys) =
    (inr (OtherException msg),
     after_probe (mem sys) 1
       [Request GET (https_url (wd_url wd)) MonitoringSettings.REQUEST_TIMEOUT;
        ReadText (https_url (wd_url wd))] [])).
  { rewrite check_website_availability_eq, attempt_https_eq. cbv zeta.
    unfold probe_outcome, method_for. rewrite Hp, Ht.
    change (https_url (wd_url wd)) with ("https://" ++ wd_url wd)%string.
    rewrite Hresp. cbn [pattern_text]. rewrite Hre. reflexivity. }
  rewrite (probe_and_append_raises env wd (mem sys) _ _ Hprobe).
  unfold after_probe.
  cbn [monitoring_results logs net_trace mem tasks].
  split; [now apply nth_error_set_nth_same with (wd, s) |].
  split; [apply app_nil_r |].
  split; reflexivity.
Qed.

Lemma invalid_pattern_ends_site_task_silently_witness :
  let sys' := step env_bad_pattern (RunSite 0) (one_sleeping_site site_bad_pattern) in
  map snd (tasks sys')
  = [Failed (OtherException "re.error: unterminated character set"%string)] /\
  logs (mem sys') = [].
Proof.
  cbv zeta.
  destruct (invalid_pattern_ends_site_task_silently env_bad_pattern
              (one_sleeping_site site_bad_pattern) 0 site_bad_pattern Sleeping
              "[a-"%string "Test Pattern in response"%string
              "re.error: unterminated character set"%string 200%Z)
    as (_ & Hlog & _).
  - reflexivity.
  - left. reflexivity.
  - reflexivity.
  - discriminate.
  - reflexivity.
  - reflexivity.
  - split; [reflexivity | exact Hlog].
Defined.

(** ** The breakdown that is logged *)

Lemma total_count_cons (k : Z) (v : nat) (d : counter) :
  total_count ((k, v) :: d) = v + total_count d.
Proof. reflexivity. Qed.

Lemma total_count_dict_set (k : Z) (v : nat) (d : counter) :
  total_count (dict_set k v d) + dict_get k d = total_count d + v.
Proof.
  induction d as [|[k' v'] d IH]; cbn [dict_get dict_set].
  - rewrite total_count_cons. unfold total_count. cbn. lia.
  - destruct (k =? k')%Z; rewrite !total_count_cons; lia.
Qed.

Lemma total_count_increment (k : Z) (d : counter) :
  total_count (increment k d) = S (total_count d).
Proof.
  unfold increment.
  pose proof (total_count_dict_set k (dict_get k d + 1) d). lia.
Qed.

Lemma total_count_count_codes (batch : list WebsiteMonitoringResult) (d : counter) :
  total_count (count_codes batch d) = total_count d + List.length batch.
Proof.
  revert d. induction batch as [|r batch IH]; intros d; cbn [count_codes fold_left].
  - cbn. lia.
  - fold (count_codes batch (increment (http_status_code r) d)).
    rewrite IH, total_count_increment. cbn [List.length]. lia.
Qed.

Lemma total_count_perm (d d' : counter) :
  Permutation d d' -> total_count d = total_count d'.
Proof.
  induction 1 as [| [k v] l l' _ IH | [k v] [k' v'] l | l l' l'' _ IH1 _ IH2];
    rewrite ?total_count_cons; lia.
Qed.

Lemma count_codes_positive (batch : list WebsiteMonitoringResult) :
  Forall (fun kv => 1 <= snd kv) (count_codes batch []).
Proof.
  rewrite count_codes_eq. apply Forall_forall. intros [c n] Hin.
  apply in_map_iff in Hin. destruct Hin as (c' & Heq & Hc').
  inversion Heq; subst. cbn [snd].
  apply (proj1 (first_occurrences_In _ _)) in Hc'.
  apply (proj1 (count_occ_In Z.eq_dec _ _)) in Hc'. lia.
Qed.

(** X7.  When a flush logs its summary, the counts of the breakdown add
    up to the number of results it reports as saved; no status code is
    listed twice, and none with a count of zero.  When the sink call
    raised, no summary is logged. *)
Theorem breakdown_counts_add_up (env : Env) (st : state) :
  let st' := snd (save_website_monitoring_results env st) in
  match fst (save_website_monitoring_results env st) with
  | inl _ =>
      exists n breakdown,
        logs st' = logs st ++ [InfoSaved n breakdown] /\
        total_count breakdown = n /\
        NoDup (keys breakdown) /\
        Forall (fun kv => 1 <= snd kv) breakdown
  | inr e => logs st' = logs st ++ sink_error_log e
  end.
Proof.
  cbv zeta. rewrite save_eq. cbv zeta.
  set (batch := firstn BATCH (monitoring_results st)).
  destruct (sink_outcome env (List.length (sink_calls st)) batch);
    cbn [fst snd logs]; [reflexivity |].
  exists (List.length batch), (breakdown_of batch).
  split; [reflexivity |].
  rewrite breakdown_of_eq.
  pose proof (sorted_by_count_reverse_perm (count_codes batch [])) as Hperm.
  split.
  - rewrite (total_count_perm _ _ Hperm), total_count_count_codes. reflexivity.
  - split.
    + apply Permutation_NoDup with (keys (count_codes batch [])).
      * apply Permutation_map, Permutation_sym, Hperm.
      * rewrite keys_count_codes_start. apply first_occurrences_NoDup.
    + apply Permutation_Forall with (count_codes batch []).
      * apply Permutation_sym, Hperm.
      * apply count_codes_positive.
Qed.

Lemma appends_then_flush_fifo_witness :
  let rs := map result_with_code [200; 500; 200]%Z in
  sink_calls (snd (save_website_monitoring_results env_up
                     (snd (append_all rs initial_state)))) = [rs].
Proof.
  cbv zeta.
  apply (appends_then_flush_fifo env_up (map result_with_code [200; 500; 200]%Z)
           initial_state).
  - reflexivity.
  - unfold MonitoringSettings.RESULTS_BATCH_SAVE_SIZE. cbn. lia.
Defined.

(** * The database layer and the API: properties *)

(** ** database_manager.py *)

(** [execute_sql_file], case by case on the file and on the statement. *)
Lemma execute_sql_file_eq (env : AppEnv) (file_path : string)
  (is_return_data : bool) (fields : option pydict) (a : webapp) :
  execute_sql_file env file_path is_return_data fields a =
  match sql_files env file_path with
  | None => (inr (NoSuchFile file_path), a)
  | Some query =>
      match cursor_execute env (statements_run (db_events a)) query fields with
      | ExecuteRaises msg =>
          (inr (DbError msg), after_db_error a query fields msg)
      | ExecuteReturns description rows =>
          (if negb is_return_data then inl None
           else match description with
                | None => inr TypeError
                | Some column_names =>
                    inl (Some (map (row_dict column_names) rows))
                end,
           after_commit a file_path query fields)
      end
  end.
Proof.
  unfold execute_sql_file, read_sql_file, abind, atry, execute, except_db_error,
    record_db_event, write_app_log, aret, araise, after_db_error, after_commit.
  destruct (sql_files env file_path) as [query|]; [| reflexivity].
  destruct (cursor_execute env (statements_run (db_events a)) query fields)
    as [msg | description rows]; cbn.
  - now rewrite <- app_assoc.
  - rewrite <- app_assoc.
    destruct is_return_data; cbn; [| reflexivity].
    destruct description; reflexivity.
Qed.

Lemma pydict_get_set (c k : string) (v : pyval) (d : pydict) :
  pydict_get c (pydict_set k v d) =
  if String.eqb c k then Some v else pydict_get c d.
Proof.
  induction d as [|[k' v'] d IH]; cbn.
  - reflexivity.
  - destruct (String.eqb_spec k k') as [-> | Hk]; cbn.
    + destruct (String.eqb c k'); reflexivity.
    + destruct (String.eqb_spec c k') as [-> | Hc].
      * destruct (String.eqb_spec k' k); [congruence | reflexivity].
      * exact IH.
Qed.

Lemma pydict_of_fold_get (c : string) (pairs : list (string * pyval)) (d : pydict) :
  ~ In c (map fst pairs) ->
  pydict_get c (fold_left (fun d kv => pydict_set (fst kv) (snd kv) d) pairs d)
  = pydict_get c d.
Proof.
  revert d. induction pairs as [|[k v] pairs IH]; intros d Hc; cbn.
  - reflexivity.
  - rewrite IH by (cbn in Hc; tauto).
    rewrite pydict_get_set.
    destruct (String.eqb_spec c k) as [-> | _]; [cbn in Hc; tauto | reflexivity].
Qed.

(** Looking up a column in the dict of a row gives the value at the place
    of the column, when no column name occurs twice. *)
Lemma row_dict_lookup (column_names : list string) (row : list pyval)
  (i : nat) (c : string) (v : pyval) :
  NoDup column_names ->
  nth_error column_names i = Some c ->
  nth_error row i = Some v ->
  pydict_get c (row_dict column_names row) = Some v.
Proof.
  unfold row_dict, pydict_of. generalize (@nil (string * pyval)) as d.
  revert row i.
  induction column_names as [|k ks IH]; intros row i d Hnd Hc Hv.
  - destruct i; discriminate.
  - destruct row as [|x row]; [destruct i; discriminate |].
    inversion Hnd as [|? ? Hk Hnd']; subst.
    destruct i as [|i]; cbn in Hc, Hv; cbn [combine fold_left fst snd].
    + inversion Hc; inversion Hv; subst.
      rewrite pydict_of_fold_get.
      * rewrite pydict_get_set. now rewrite String.eqb_refl.
      * intros Hin. apply Hk. apply in_map_iff in Hin.
        destruct Hin as ([k' v'] & Heq & Hin). cbn in Heq. subst k'.
        now apply in_combine_l in Hin.
    + now apply IH with i.
Qed.

(** X9.  [execute_sql_file] with [is_return_data] gives one dict for each
    row that the cursor holds, in the order of the rows, and in each dict
    a column name leads to the value at the place of that column in the
    row (the column names being distinct). *)
Theorem execute_sql_file_returns_rows_as_dicts (env : AppEnv)
  (file_path query : string) (fields : option pydict) (a : webapp)
  (column_names : list string) (rows : list (list pyval)) :
  sql_files env file_path = Some query ->
  cursor_execute env (statements_run (db_events a)) query fields
  = ExecuteReturns (Some column_names) rows ->
  NoDup column_names ->
  exists dicts,
    fst (execute_sql_file env file_path true fields a) = inl (Some dicts) /\
    List.length dicts = List.length rows /\
    forall j row i c v,
      nth_error rows j = Some row ->
      nth_error column_names i = Some c ->
      nth_error row i = Some v ->
      exists d, nth_error dicts j = Some d /\ pydict_get c d = Some v.
Proof.
  intros Hfile Hexec Hnd.
  exists (map (row_dict column_names) rows).
  rewrite execute_sql_file_eq, Hfile, Hexec. cbn [negb fst].
  split; [reflexivity |].
  split; [apply length_map |].
  intros j row i c v Hrow Hc Hv.
  exists (row_dict column_names row). split.
  - rewrite nth_error_map, Hrow. reflexivity.
  - now apply row_dict_lookup with i.
Qed.

Lemma execute_sql_file_returns_rows_as_dicts_witness :
  exists d,
    fst (execute_sql_file env_one_site "sql/get_all_websites_info.sql"%string true
           None initial_webapp) = inl (Some [d]) /\
    pydict_get "url"%string d = Some (PyStr "example.com") /\
    pydict_get "interval"%string d = Some (PyInt 30).
Proof.
  destruct (execute_sql_file_returns_rows_as_dicts env_one_site
              "sql/get_all_websites_info.sql"%string
              "sql/get_all_websites_info.sql"%string None initial_webapp
              website_columns [stored_row])
    as (dicts & Hres & Hlen & Hget).
  - reflexivity.
  - reflexivity.
  - repeat constructor; cbn; intuition discriminate.
  - destruct (Hget 0 stored_row 1 "url"%string (PyStr "example.com"))
      as (d & Hd & Hurl); try reflexivity.
    destruct (Hget 0 stored_row 2 "interval"%string (PyInt 30))
      as (d' & Hd' & Hint); try reflexivity.
    rewrite Hd in Hd'. inversion Hd'; subst d'.
    exists d. split; [| split; assumption].
    destruct dicts as [|d0 [|d1 ds]]; try discriminate Hlen.
    cbn in Hd. inversion Hd; subst d0. exact Hres.
Defined.

(** X10.  [execute_sql_file] leaves no transaction open and touches no
    task.  Whatever its arguments, it adds to the events of the database
    nothing at all (the SQL file could not be read, and that is what it
    raises), or one statement and a rollback (exactly when it raises a
    psycopg2.Error), or one statement and a commit. *)
Theorem execute_sql_file_closes_transaction (env : AppEnv) (file_path : string)
  (is_return_data : bool) (fields : option pydict) (a : webapp) :
  let r := fst (execute_sql_file env file_path is_return_data fields a) in
  let a' := snd (execute_sql_file env file_path is_return_data fields a) in
  launched a' = launched a /\
  ((r = inr (NoSuchFile file_path) /\ a' = a) \/
   (exists query msg,
      r = inr (DbError msg) /\
      db_events a' = db_events a ++ [Execute query fields; Rollback] /\
      app_logs a' = app_logs a ++ [ErrorDatabaseRollback (DbError msg)]) \/
   (exists query,
      (forall msg, r <> inr (DbError msg)) /\
      r <> inr (NoSuchFile file_path) /\
      db_events a' = db_events a ++ [Execute query fields; Commit])).
Proof.
  cbv zeta. rewrite execute_sql_file_eq.
  destruct (sql_files env file_path) as [query|].
  - destruct (cursor_execute env (statements_run (db_events a)) query fields)
      as [msg | description rows]; cbn [fst snd].
    + split; [reflexivity |]. right. left. exists query, msg. auto.
    + split; [reflexivity |]. right. right. exists query.
      destruct is_return_data; cbn [negb];
        [destruct description |]; repeat split; try discriminate; reflexivity.
  - cbn [fst snd]. split; [reflexivity |]. left. auto.
Qed.

(** X11.  [insert_website_data] with [is_return_data=True], on a
    statement that returns no rows: the statement is executed and
    committed, and then the call raises a TypeError; there is no
    rollback. *)
Theorem insert_returning_nothing_commits_then_raises (env : AppEnv)
  (fields : pydict) (query : string) (rows : list (list pyval)) (a : webapp) :
  sql_files env "sql/insert_website_info.sql"%string = Some query ->
  cursor_execute env (statements_run (db_events a)) query (Some fields)
  = ExecuteReturns None rows ->
  insert_website_data env fields true a =
  (inr TypeError,
   mkWebapp (db_events a ++ [Execute query (Some fields); Commit])
            (app_logs a ++ [InfoExecutedSqlFile "sql/insert_website_info.sql"%string])
            (launched a)).
Proof.
  intros Hfile Hexec. unfold insert_website_data, abind.
  rewrite execute_sql_file_eq, Hfile, Hexec. reflexivity.
Qed.

Lemma insert_returning_nothing_commits_then_raises_witness :
  let out := insert_website_data env_no_result_set
               [("url"%string, PyStr "example.com")] true initial_webapp in
  fst out = inr TypeError /\
  db_events (snd out)
  = [Execute "sql/insert_website_info.sql"%string
       (Some [("url"%string, PyStr "example.com")]); Commit].
Proof.
  cbv zeta.
  rewrite (insert_returning_nothing_commits_then_raises env_no_result_set
             [("url"%string, PyStr "example.com")]
             "sql/insert_website_info.sql"%string [] initial_webapp).
  - split; reflexivity.
  - reflexivity.
  - reflexivity.
Defined.

(** ** url_validator.py *)

Lemma char_in_www (c : Ascii.ascii) :
  char_in c "www."%string = true <-> w_or_dot c.
Proof.
  unfold char_in, w_or_dot, char_of. cbn [list_ascii_of_string existsb].
  repeat match goal with
         | |- context [Ascii.eqb c ?x] => destruct (Ascii.eqb_spec c x)
         end;
    cbn [orb]; intuition (congruence || discriminate).
Qed.

(** [lstrip] removes a prefix made of the characters to strip, and what
    is left does not begin with one of them. *)
Lemma lstrip_split (chars s : string) :
  exists prefix,
    s = (prefix ++ lstrip chars s)%string /\
    Forall (fun c => char_in c chars = true) (list_ascii_of_string prefix) /\
    match lstrip chars s with
    | EmptyString => True
    | String c _ => char_in c chars = false
    end.
Proof.
  induction s as [|c s IH].
  - exists EmptyString. repeat split. constructor.
  - cbn [lstrip]. destruct (char_in c chars) eqn:Hc.
    + destruct IH as (prefix & Hs & Hall & Hrest).
      exists (String c prefix). cbn. split; [now rewrite <- Hs |].
      split; [now constructor | exact Hrest].
    + exists EmptyString. repeat split; [constructor | exact Hc].
Qed.

(** X12.  [get_formatted_url] removes every leading [w] and [.] of the
    host, not only a leading ["www."]: the host is a run of these two
    characters followed by a rest that does not begin with either, and the
    result is that rest in lower case.  The state is not touched. *)
Theorem get_formatted_url_strips_w_and_dots (env : AppEnv) (u : string)
  (skip_validation : bool) (netloc path : string) (a : webapp) :
  skip_validation = true \/ url_regex_matches env u = true ->
  urlparse env u = Some (netloc, path) ->
  exists prefix rest,
    clean_url netloc path = (prefix ++ rest)%string /\
    Forall w_or_dot (list_ascii_of_string prefix) /\
    match rest with
    | EmptyString => True
    | String c _ => ~ w_or_dot c
    end /\
    get_formatted_url env u skip_validation a = (inl (str_lower env rest), a).
Proof.
  intros Hvalid Hparse.
  destruct (lstrip_split "www." (clean_url netloc path))
    as (prefix & Hs & Hall & Hrest).
  exists prefix, (lstrip "www." (clean_url netloc path)).
  split; [exact Hs |].
  split.
  { eapply Forall_impl; [| exact Hall]. intros c. apply char_in_www. }
  split.
  { destruct (lstrip "www." (clean_url netloc path)) as [|c rest]; [exact I |].
    intros Hc. apply char_in_www in Hc. congruence. }
  unfold get_formatted_url, is_website_url_valid.
  assert (Hif : negb skip_validation && negb (url_regex_matches env u) = false).
  { destruct Hvalid as [-> | ->]; [reflexivity | apply andb_false_r]. }
  rewrite Hif, Hparse. reflexivity.
Qed.

Lemma get_formatted_url_strips_w_and_dots_witness :
  get_formatted_url env_one_site "web.de"%string false initial_webapp
  = (inl "eb.de"%string, initial_webapp).
Proof.
  destruct (get_formatted_url_strips_w_and_dots env_one_site "web.de"%string
              false EmptyString "web.de"%string initial_webapp)
    as (prefix & rest & _ & _ & _ & Heq).
  - right. reflexivity.
  - reflexivity.
  - reflexivity.
Defined.

(** ** main.py: what the endpoints do to the tasks *)

Lemma keeps_aret {X} (x : X) : keeps_launched (aret x).
Proof. intros a. reflexivity. Qed.

Lemma keeps_araise {X} (e : app_exn) : keeps_launched (@araise X e).
Proof. intros a. reflexivity. Qed.

Lemma keeps_abind {X Y} (m : App X) (k : X -> App Y) :
  keeps_launched m -> (forall x, keeps_launched (k x)) ->
  keeps_launched (abind m k).
Proof.
  intros Hm Hk a. unfold abind. specialize (Hm a).
  destruct (m a) as [[x|e] a1]; cbn [snd] in *.
  - now rewrite Hk.
  - exact Hm.
Qed.

Lemma keeps_atry {X} (m : App X) (h : app_exn -> App X) :
  keeps_launched m -> (forall e, keeps_launched (h e)) ->
  keeps_launched (atry m h).
Proof.
  intros Hm Hh a. unfold atry. specialize (Hm a).
  destruct (m a) as [[x|e] a1]; cbn [snd] in *.
  - exact Hm.
  - now rewrite Hh.
Qed.

Lemma keeps_execute_sql_file (env : AppEnv) (file_path : string)
  (is_return_data : bool) (fields : option pydict) :
  keeps_launched (execute_sql_file env file_path is_return_data fields).
Proof.
  intros a. rewrite execute_sql_file_eq.
  destruct (sql_files env file_path) as [query|]; [| reflexivity].
  destruct (cursor_execute env (statements_run (db_events a)) query fields);
    reflexivity.
Qed.

Lemma keeps_get_website_data (env : AppEnv) (u : option string) :
  keeps_launched (get_website_data env u).
Proof.
  unfold get_website_data.
  destruct (negb (truthy_str u)); apply keeps_execute_sql_file.
Qed.

Lemma keeps_insert_website_data (env : AppEnv) (fields : pydict) (b : bool) :
  keeps_launched (insert_website_data env fields b).
Proof.
  apply keeps_abind; [apply keeps_execute_sql_file | intros; apply keeps_aret].
Qed.

Lemma keeps_update_website_data (env : AppEnv) (fields : pydict) :
  keeps_launched (update_website_data env fields).
Proof.
  apply keeps_abind; [apply keeps_execute_sql_file | intros; apply keeps_aret].
Qed.

Lemma keeps_get_formatted_url (env : AppEnv) (u : string) (skip : bool) :
  keeps_launched (get_formatted_url env u skip).
Proof.
  intros a. unfold get_formatted_url.
  destruct (negb skip && negb (is_website_url_valid env u)); [reflexivity |].
  destruct (urlparse env u) as [[netloc path]|]; reflexivity.
Qed.

Lemma keeps_first_row (found : option (list pydict)) :
  keeps_launched (first_row found).
Proof.
  intros a. destruct found as [[|row rows]|]; reflexivity.
Qed.

Lemma keeps_formatting (env : AppEnv) (wi : WebsiteInfo) :
  keeps_launched
    (atry (get_formatted_url env (wi_url wi) false) (except_invalid_url wi)).
Proof.
  apply keeps_atry; [apply keeps_get_formatted_url |].
  intros e a. destruct e; reflexivity.
Qed.

(** X13.  [update_website_info] never creates a task and never touches
    the tasks that run: whatever the request and whatever the database
    does, the tasks after the call are the tasks before it.  A change of
    interval or pattern reaches no Site Task. *)
Theorem update_website_info_never_launches (env : AppEnv) (wi : WebsiteInfo)
  (a : webapp) :
  launched (snd (update_website_info env wi a)) = launched a.
Proof.
  revert a. change (keeps_launched (update_website_info env wi)).
  unfold update_website_info, validate_and_alter_website_info_url.
  apply keeps_abind; [apply keeps_formatting |].
  intros u. unfold update_website_info_body. cbn [wi_url wi_interval wi_regexp_pattern].
  destruct (is_none (wi_interval wi) && is_none (wi_regexp_pattern wi));
    [apply keeps_araise |].
  apply keeps_abind; [apply keeps_get_website_data |].
  intros found.
  destruct (negb (truthy_rows found)); [apply keeps_araise |].
  apply keeps_abind; [apply keeps_first_row |].
  intros row.
  apply keeps_abind; [apply keeps_update_website_data |].
  intros _. apply keeps_aret.
Qed.

Lemma one_araise {X} (e : app_exn) : launches_one_on_success (@araise X e).
Proof. intros a. reflexivity. Qed.

Lemma one_abind {X Y} (m : App X) (k : X -> App Y) :
  keeps_launched m -> (forall x, launches_one_on_success (k x)) ->
  launches_one_on_success (abind m k).
Proof.
  intros Hm Hk a. unfold abind. specialize (Hm a).
  destruct (m a) as [[x|e] a1]; cbn [fst snd] in *.
  - specialize (Hk x a1). rewrite Hm in Hk. exact Hk.
  - exact Hm.
Qed.

Lemma one_launch (row : pydict) (msg : string) :
  launches_one_on_success
    (abind (launch_website_monitoring row) (fun _ => aret msg)).
Proof.
  intros a. unfold abind, launch_website_monitoring, aret, araise.
  destruct (pydict_get "url"%string row) as [v|] eqn:Hurl; cbn.
  - exists row. split; [reflexivity | congruence].
  - reflexivity.
Qed.

(** X14.  [create_website_info] creates a task only when it succeeds, and
    then exactly one, for a row that has a url: when the call returns its
    message the tasks are the former tasks and one more; when it raises
    (invalid URL, site already stored, database error, nothing read back)
    the tasks are unchanged. *)
Theorem create_website_info_launches_one_on_success (env : AppEnv)
  (wi : WebsiteInfo) (a : webapp) :
  match fst (create_website_info env wi a) with
  | inl _ =>
      exists row,
        launched (snd (create_website_info env wi a)) = launched a ++ [row] /\
        pydict_get "url"%string row <> None
  | inr _ => launched (snd (create_website_info env wi a)) = launched a
  end.
Proof.
  revert a. change (launches_one_on_success (create_website_info env wi)).
  unfold create_website_info, validate_and_alter_website_info_url.
  apply one_abind; [apply keeps_formatting |].
  intros u. unfold create_website_info_body.
  cbn [wi_url wi_interval wi_regexp_pattern].
  apply one_abind; [apply keeps_get_website_data |].
  intros found.
  destruct (truthy_rows found); [apply one_araise |].
  apply one_abind; [apply keeps_insert_website_data |].
  intros _.
  apply one_abind; [apply keeps_get_website_data |].
  intros found'.
  apply one_abind; [apply keeps_first_row |].
  intros row. apply one_launch.
Qed.

(** ** main.py: the decorator *)

Lemma decorator_invalid {X} (env : AppEnv) (func : WebsiteInfo -> App X)
  (wi : WebsiteInfo) (a : webapp) :
  url_regex_matches env (wi_url wi) = false ->
  validate_and_alter_website_info_url env func wi a =
  (inr (HTTPException 400 ("Invalid URL: " ++ wi_url wi)%string), a).
Proof.
  intros H. unfold validate_and_alter_website_info_url, abind, atry,
    get_formatted_url, is_website_url_valid.
  rewrite H. reflexivity.
Qed.

Lemma decorator_valid {X} (env : AppEnv) (func : WebsiteInfo -> App X)
  (wi : WebsiteInfo) (a : webapp) (netloc path : string) :
  url_regex_matches env (wi_url wi) = true ->
  urlparse env (wi_url wi) = Some (netloc, path) ->
  validate_and_alter_website_info_url env func wi a =
  func (mkWebsiteInfo (formatted env netloc path) (wi_interval wi)
          (wi_regexp_pattern wi)) a.
Proof.
  intros Hv Hp. unfold validate_and_alter_website_info_url, abind, atry,
    get_formatted_url, is_website_url_valid.
  rewrite Hv, Hp. reflexivity.
Qed.

(** X15.  A request whose URL does not match the validity pattern is
    answered with status 400 and the detail "Invalid URL: " followed by
    the URL as it was sent, by both endpoints; the handler is not run: no
    statement reaches the database and no task is created. *)
Theorem invalid_url_is_rejected_before_the_handler (env : AppEnv)
  (wi : WebsiteInfo) (a : webapp) :
  url_regex_matches env (wi_url wi) = false ->
  create_website_info env wi a =
    (inr (HTTPException 400 ("Invalid URL: " ++ wi_url wi)%string), a) /\
  update_website_info env wi a =
    (inr (HTTPException 400 ("Invalid URL: " ++ wi_url wi)%string), a).
Proof.
  intros H. split; now apply decorator_invalid.
Qed.

Lemma invalid_url_is_rejected_before_the_handler_witness :
  create_website_info env_no_valid_url example_info initial_webapp =
  (inr (HTTPException 400 "Invalid URL: www.Example.com"%string), initial_webapp).
Proof.
  apply (invalid_url_is_rejected_before_the_handler env_no_valid_url example_info
           initial_webapp).
  reflexivity.
Defined.

(** ** main.py: the endpoints, from the request to the database *)

Lemma statements_run_after_commit (a : webapp) (file_path query : string)
  (fields : option pydict) :
  statements_run (db_events (after_commit a file_path query fields))
  = S (statements_run (db_events a)).
Proof.
  unfold after_commit, statements_run. cbn [db_events].
  rewrite filter_app, length_app. cbn. lia.
Qed.

Lemma get_website_data_by_url (env : AppEnv) (u : string) :
  u <> EmptyString ->
  get_website_data env (Some u) =
  execute_sql_file env "sql/get_website_info.sql"%string true (url_fields u).
Proof.
  intros Hu. unfold get_website_data. cbn [truthy_str pattern_text].
  destruct (String.eqb_spec u EmptyString); [contradiction | reflexivity].
Qed.

Lemma lookup_eq (env : AppEnv) (u query : string) (a : webapp)
  (column_names : list string) (rows : list (list pyval)) :
  u <> EmptyString ->
  sql_files env "sql/get_website_info.sql"%string = Some query ->
  cursor_execute env (statements_run (db_events a)) query (url_fields u)
  = ExecuteReturns (Some column_names) rows ->
  get_website_data env (Some u) a =
  (inl (Some (map (row_dict column_names) rows)),
   after_commit a "sql/get_website_info.sql"%string query (url_fields u)).
Proof.
  intros Hu Hfile Hexec.
  rewrite get_website_data_by_url by exact Hu.
  rewrite execute_sql_file_eq, Hfile, Hexec. reflexivity.
Qed.

(** X16.  A site that is already stored is not stored again:
    [create_website_info] looks the site up by its formatted URL, and when
    the lookup gives a row it answers 400 with the formatted URL in the
    detail.  The lookup is the only statement: nothing is inserted and no
    task is created. *)
Theorem create_existing_site_is_rejected (env : AppEnv) (wi : WebsiteInfo)
  (a : webapp) (netloc path query : string) (column_names : list string)
  (row : list pyval) (rows : list (list pyval)) :
  url_regex_matches env (wi_url wi) = true ->
  urlparse env (wi_url wi) = Some (netloc, path) ->
  formatted env netloc path <> EmptyString ->
  sql_files env "sql/get_website_info.sql"%string = Some query ->
  cursor_execute env (statements_run (db_events a)) query
    (url_fields (formatted env netloc path))
  = ExecuteReturns (Some column_names) (row :: rows) ->
  create_website_info env wi a =
  (inr (HTTPException 400
          ("Website with URL " ++ formatted env netloc path ++ " already exists")%string),
   mkWebapp (db_events a ++
             [Execute query (url_fields (formatted env netloc path)); Commit])
            (app_logs a ++ [InfoExecutedSqlFile "sql/get_website_info.sql"%string])
            (launched a)).
Proof.
  intros Hv Hp Hu Hfile Hexec.
  unfold create_website_info.
  rewrite (decorator_valid env _ wi a netloc path Hv Hp).
  unfold create_website_info_body, abind. cbn [wi_url].
  rewrite (lookup_eq env _ query a column_names (row :: rows) Hu Hfile Hexec).
  reflexivity.
Qed.

Lemma create_existing_site_is_rejected_witness :
  fst (create_website_info env_one_site example_info initial_webapp) =
  inr (HTTPException 400 "Website with URL example.com already exists"%string) /\
  launched (snd (create_website_info env_one_site example_info initial_webapp)) = [].
Proof.
  rewrite (create_existing_site_is_rejected env_one_site example_info
             initial_webapp EmptyString "www.Example.com"%string
             "sql/get_website_info.sql"%string website_columns stored_row []).
  - split; reflexivity.
  - reflexivity.
  - reflexivity.
  - discriminate.
  - reflexivity.
  - reflexivity.
Defined.

(** X17.  [update_website_info] with neither an interval nor a pattern is
    answered 400 without any access to the database (the URL being
    valid). *)
Theorem update_without_fields_is_rejected (env : AppEnv) (wi : WebsiteInfo)
  (a : webapp) (netloc path : string) :
  url_regex_matches env (wi_url wi) = true ->
  urlparse env (wi_url wi) = Some (netloc, path) ->
  wi_interval wi = None ->
  wi_regexp_pattern wi = None ->
  update_website_info env wi a =
  (inr (HTTPException 400 "Interval or regexp_pattern should be filled"%string), a).
Proof.
  intros Hv Hp Hi Hr. unfold update_website_info.
  rewrite (decorator_valid env _ wi a netloc path Hv Hp).
  unfold update_website_info_body. cbn [wi_interval wi_regexp_pattern].
  rewrite Hi, Hr. reflexivity.
Qed.

Lemma update_without_fields_is_rejected_witness :
  update_website_info env_one_site
    (mkWebsiteInfo "example.com"%string None None) initial_webapp =
  (inr (HTTPException 400 "Interval or regexp_pattern should be filled"%string),
   initial_webapp).
Proof.
  apply (update_without_fields_is_rejected env_one_site
           (mkWebsiteInfo "example.com"%string None None) initial_webapp
           EmptyString "example.com"%string); reflexivity.
Defined.

(** X18.  [update_website_info] for a site that is not stored: the lookup
    by the formatted URL gives no row, the answer is 404 with the
    formatted URL in the detail, and no update statement is executed. *)
Theorem update_of_unknown_site_is_not_found (env : AppEnv) (wi : WebsiteInfo)
  (a : webapp) (netloc path query : string) (column_names : list string) :
  url_regex_matches env (wi_url wi) = true ->
  urlparse env (wi_url wi) = Some (netloc, path) ->
  formatted env netloc path <> EmptyString ->
  is_none (wi_interval wi) && is_none (wi_regexp_pattern wi) = false ->
  sql_files env "sql/get_website_info.sql"%string = Some query ->
  cursor_execute env (statements_run (db_events a)) query
    (url_fields (formatted env netloc path))
  = ExecuteReturns (Some column_names) [] ->
  update_website_info env wi a =
  (inr (HTTPException 404
          ("Website with URL " ++ formatted env netloc path ++ " not found")%string),
   mkWebapp (db_events a ++
             [Execute query (url_fields (formatted env netloc path)); Commit])
            (app_logs a ++ [InfoExecutedSqlFile "sql/get_website_info.sql"%string])
            (launched a)).
Proof.
  intros Hv Hp Hu Hgiven Hfile Hexec.
  unfold update_website_info.
  rewrite (decorator_valid env _ wi a netloc path Hv Hp).
  unfold update_website_info_body, abind.
  cbn [wi_url wi_interval wi_regexp_pattern]. rewrite Hgiven.
  rewrite (lookup_eq env _ query a column_names [] Hu Hfile Hexec).
  reflexivity.
Qed.

Lemma update_of_unknown_site_is_not_found_witness :
  fst (update_website_info env_empty_table
         (mkWebsiteInfo "nonexistent.com"%string (Some 60%Z) None) initial_webapp) =
  inr (HTTPException 404 "Website with URL nonexistent.com not found"%string).
Proof.
  rewrite (update_of_unknown_site_is_not_found env_empty_table
             (mkWebsiteInfo "nonexistent.com"%string (Some 60%Z) None)
             initial_webapp EmptyString "nonexistent.com"%string
             "sql/get_website_info.sql"%string website_columns).
  - reflexivity.
  - reflexivity.
  - reflexivity.
  - discriminate.
  - reflexivity.
  - reflexivity.
  - reflexivity.
Defined.

Lemma pydict_get_set_if_given (k key : string) (value : pyval) (row : pydict) :
  pydict_get k (set_if_given key value row) =
  match value with
  | PyNone => pydict_get k row
  | _ => if String.eqb k key then Some value else pydict_get k row
  end.
Proof.
  destruct value; cbn [set_if_given]; try reflexivity; apply pydict_get_set.
Qed.

(** X19.  [update_website_info] for a stored site sends to the update
    statement the row it found, with the interval and the pattern replaced
    by those of the request that are given; a field that is not given and
    every other column keep the value of the row found.  Two statements
    are executed, the lookup and the update, each one closed by a commit
    or a rollback. *)
Theorem update_changes_only_given_fields (env : AppEnv) (wi : WebsiteInfo)
  (a : webapp) (netloc path lookup update : string) (column_names : list string)
  (row : list pyval) (rows : list (list pyval)) :
  url_regex_matches env (wi_url wi) = true ->
  urlparse env (wi_url wi) = Some (netloc, path) ->
  formatted env netloc path <> EmptyString ->
  is_none (wi_interval wi) && is_none (wi_regexp_pattern wi) = false ->
  sql_files env "sql/get_website_info.sql"%string = Some lookup ->
  cursor_execute env (statements_run (db_events a)) lookup
    (url_fields (formatted env netloc path))
  = ExecuteReturns (Some column_names) (row :: rows) ->
  sql_files env "sql/update_website_info.sql"%string = Some update ->
  let found := row_dict column_names row in
  exists sent closing,
    db_events (snd (update_website_info env wi a)) =
      db_events a ++
      [Execute lookup (url_fields (formatted env netloc path)); Commit;
       Execute update (Some sent); closing] /\
    (closing = Commit \/ closing = Rollback) /\
    pydict_get "interval"%string sent =
      match wi_interval wi with
      | Some i => Some (PyInt i)
      | None => pydict_get "interval"%string found
      end /\
    pydict_get "regexp_pattern"%string sent =
      match wi_regexp_pattern wi with
      | Some p => Some (PyStr p)
      | None => pydict_get "regexp_pattern"%string found
      end /\
    (forall k, k <> "interval"%string -> k <> "regexp_pattern"%string ->
               pydict_get k sent = pydict_get k found).
Proof.
  intros Hv Hp Hu Hgiven Hlookup Hexec Hupdate. cbv zeta.
  set (found := row_dict column_names row).
  set (sent := set_if_given "regexp_pattern"%string (py_str (wi_regexp_pattern wi))
                 (set_if_given "interval"%string (py_int (wi_interval wi)) found)).
  assert (Hevents : exists closing,
            db_events (snd (update_website_info env wi a)) =
              db_events a ++
              [Execute lookup (url_fields (formatted env netloc path)); Commit;
               Execute update (Some sent); closing] /\
            (closing = Commit \/ closing = Rollback)).
  { unfold update_website_info.
    rewrite (decorator_valid env _ wi a netloc path Hv Hp).
    unfold update_website_info_body.
    cbn [wi_url wi_interval wi_regexp_pattern]. rewrite Hgiven.
    unfold abind at 1.
    rewrite (lookup_eq env _ lookup a column_names (row :: rows) Hu Hlookup Hexec).
    cbn [map truthy_rows negb first_row].
    unfold abind at 1. unfold aret at 1.
    unfold update_website_data, abind.
    fold found. fold sent.
    rewrite execute_sql_file_eq, Hupdate.
    destruct (cursor_execute env _ update (Some sent)) as [msg | d rs];
      cbn [negb snd fst db_events after_commit after_db_error aret];
      eexists; rewrite <- app_assoc; split; [reflexivity | auto | reflexivity | auto]. }
  destruct Hevents as (closing & Hev & Hclosing).
  exists sent, closing.
  split; [exact Hev |]. split; [exact Hclosing |].
  subst sent. repeat split.
  - rewrite !pydict_get_set_if_given.
    destruct (wi_regexp_pattern wi), (wi_interval wi); reflexivity.
  - rewrite !pydict_get_set_if_given.
    destruct (wi_regexp_pattern wi), (wi_interval wi); reflexivity.
  - intros k Hk1 Hk2. rewrite !pydict_get_set_if_given.
    destruct (String.eqb_spec k "regexp_pattern"%string); [contradiction |].
    destruct (String.eqb_spec k "interval"%string); [contradiction |].
    destruct (wi_regexp_pattern wi), (wi_interval wi); reflexivity.
Qed.

Lemma update_changes_only_given_fields_witness :
  exists sent,
    db_events (snd (update_website_info env_one_site
                      (mkWebsiteInfo "example.com"%string (Some 60%Z) None)
                      initial_webapp)) =
      [Execute "sql/get_website_info.sql"%string (url_fields "example.com"%string);
       Commit;
       Execute "sql/update_website_info.sql"%string (Some sent); Commit] /\
    pydict_get "interval"%string sent = Some (PyInt 60) /\
    pydict_get "regexp_pattern"%string sent = Some PyNone /\
    pydict_get "id"%string sent = Some (PyInt 7).
Proof.
  destruct (update_changes_only_given_fields env_one_site
              (mkWebsiteInfo "example.com"%string (Some 60%Z) None)
              initial_webapp EmptyString "example.com"%string
              "sql/get_website_info.sql"%string
              "sql/update_website_info.sql"%string
              website_columns stored_row [])
    as (sent & closing & Hev & _ & Hint & Hre & Hother).
  - reflexivity.
  - reflexivity.
  - discriminate.
  - reflexivity.
  - reflexivity.
  - reflexivity.
  - reflexivity.
  - exists sent.
    assert (Hc : closing = Commit).
    { cbn in Hev. inversion Hev. reflexivity. }
    subst closing.
    split; [exact Hev |].
    split; [exact Hint |].
    split; [exact Hre |].
    rewrite Hother by discriminate. reflexivity.
Defined.

(** [create_website_info] up to the read back, when the site is not
    stored and the insert is executed. *)
Lemma create_up_to_read_back (env : AppEnv) (wi : WebsiteInfo)
  (a : webapp) (netloc path lookup insert : string)
  (columns columns' : list string) (description : option (list string))
  (inserted : list (list pyval)) (rows : list (list pyval)) :
  let u := formatted env netloc path in
  let n := statements_run (db_events a) in
  let sent :=
    website_info_dict
      (mkWebsiteInfo u (wi_interval wi) (wi_regexp_pattern wi)) in
  url_regex_matches env (wi_url wi) = true ->
  urlparse env (wi_url wi) = Some (netloc, path) ->
  u <> EmptyString ->
  sql_files env "sql/get_website_info.sql"%string = Some lookup ->
  sql_files env "sql/insert_website_info.sql"%string = Some insert ->
  cursor_execute env n lookup (url_fields u) = ExecuteReturns (Some columns) [] ->
  cursor_execute env (S n) insert (Some sent) = ExecuteReturns description inserted ->
  cursor_execute env (S (S n)) lookup (url_fields u)
  = ExecuteReturns (Some columns') rows ->
  create_website_info env wi a =
  abind (first_row (Some (map (row_dict columns') rows)))
    (fun row =>
       abind (launch_website_monitoring row)
         (fun _ => aret "Website added to monitoring"%string))
    (mkWebapp
       (db_events a ++
        [Execute lookup (url_fields u); Commit;
         Execute insert (Some sent); Commit;
         Execute lookup (url_fields u); Commit])
       (app_logs a ++
        [InfoExecutedSqlFile "sql/get_website_info.sql"%string;
         InfoExecutedSqlFile "sql/insert_website_info.sql"%string;
         InfoExecutedSqlFile "sql/get_website_info.sql"%string])
       (launched a)).
Proof.
  cbv zeta. intros Hv Hp Hu Hlookup Hinsert H1 H2 H3.
  unfold create_website_info.
  rewrite (decorator_valid env _ wi a netloc path Hv Hp).
  unfold create_website_info_body. cbn [wi_url].
  unfold abind at 1.
  rewrite (lookup_eq env _ lookup a columns [] Hu Hlookup H1).
  cbn [map truthy_rows].
  unfold abind at 1. unfold insert_website_data, abind at 1.
  rewrite execute_sql_file_eq, Hinsert.
  rewrite statements_run_after_commit, H2. cbn [negb aret].
  unfold abind at 1.
  rewrite (lookup_eq env _ lookup _ columns' rows Hu Hlookup).
  2:{ rewrite !statements_run_after_commit. exact H3. }
  unfold after_commit. cbn [db_events app_logs launched].
  rewrite <- !app_assoc. reflexivity.
Qed.

(** X20.  [create_website_info] for a site that is not stored: after the
    lookup by the formatted URL has given no row, it inserts the dict of
    the request with the formatted URL in place of the URL sent, reads the
    site back by the formatted URL, creates a task for the first row read
    back (the row of the database, not the request) and returns its
    message.  Three statements are executed and committed. *)
Theorem create_new_site_stores_then_launches (env : AppEnv) (wi : WebsiteInfo)
  (a : webapp) (netloc path lookup insert : string)
  (columns columns' : list string) (description : option (list string))
  (inserted : list (list pyval)) (row : list pyval) (rows : list (list pyval)) :
  let u := formatted env netloc path in
  let n := statements_run (db_events a) in
  let sent : pydict :=
    [("url"%string, PyStr u);
     ("interval"%string, py_int (wi_interval wi));
     ("regexp_pattern"%string, py_str (wi_regexp_pattern wi))] in
  url_regex_matches env (wi_url wi) = true ->
  urlparse env (wi_url wi) = Some (netloc, path) ->
  u <> EmptyString ->
  sql_files env "sql/get_website_info.sql"%string = Some lookup ->
  sql_files env "sql/insert_website_info.sql"%string = Some insert ->
  cursor_execute env n lookup (url_fields u) = ExecuteReturns (Some columns) [] ->
  cursor_execute env (S n) insert (Some sent) = ExecuteReturns description inserted ->
  cursor_execute env (S (S n)) lookup (url_fields u)
  = ExecuteReturns (Some columns') (row :: rows) ->
  pydict_get "url"%string (row_dict columns' row) <> None ->
  fst (create_website_info env wi a) = inl "Website added to monitoring"%string /\
  db_events (snd (create_website_info env wi a)) =
    db_events a ++
    [Execute lookup (url_fields u); Commit;
     Execute insert (Some sent); Commit;
     Execute lookup (url_fields u); Commit] /\
  launched (snd (create_website_info env wi a)) =
    launched a ++ [row_dict columns' row].
Proof.
  cbv zeta. intros Hv Hp Hu Hlookup Hinsert H1 H2 H3 Hurl.
  rewrite (create_up_to_read_back env wi a netloc path lookup insert columns
             columns' description inserted (row :: rows)
             Hv Hp Hu Hlookup Hinsert H1 H2 H3).
  destruct (pydict_get "url"%string (row_dict columns' row)) as [v|] eqn:E;
    [| congruence].
  cbn [map first_row]. unfold abind, aret, launch_website_monitoring.
  rewrite E. cbn [fst snd db_events launched]. repeat split.
Qed.

Lemma create_new_site_stores_then_launches_witness :
  let out := create_website_info env_empty_table example_info initial_webapp in
  fst out = inl "Website added to monitoring"%string /\
  launched (snd out) = [row_dict website_columns stored_row] /\
  In (Execute "sql/insert_website_info.sql"%string
        (Some [("url"%string, PyStr "example.com");
               ("interval"%string, PyInt 30);
               ("regexp_pattern"%string, PyNone)]))
     (db_events (snd out)).
Proof.
  cbv zeta.
  destruct (create_new_site_stores_then_launches env_empty_table example_info
              initial_webapp EmptyString "www.Example.com"%string
              "sql/get_website_info.sql"%string
              "sql/insert_website_info.sql"%string
              website_columns website_columns (Some website_columns) []
              stored_row [])
    as (Hres & Hev & Hl).
  - reflexivity.
  - reflexivity.
  - discriminate.
  - reflexivity.
  - reflexivity.
  - reflexivity.
  - reflexivity.
  - reflexivity.
  - discriminate.
  - split; [exact Hres |]. split; [exact Hl |].
    rewrite Hev. cbn. tauto.
Defined.

(** X21.  When the read back after the insert gives no row,
    [create_website_info] raises an IndexError: the site has been
    inserted and committed, but no task is created for it. *)
Theorem create_without_read_back_stores_but_does_not_launch (env : AppEnv)
  (wi : WebsiteInfo) (a : webapp) (netloc path lookup insert : string)
  (columns columns' : list string) (description : option (list string))
  (inserted : list (list pyval)) :
  let u := formatted env netloc path in
  let n := statements_run (db_events a) in
  let sent : pydict :=
    [("url"%string, PyStr u);
     ("interval"%string, py_int (wi_interval wi));
     ("regexp_pattern"%string, py_str (wi_regexp_pattern wi))] in
  url_regex_matches env (wi_url wi) = true ->
  urlparse env (wi_url wi) = Some (netloc, path) ->
  u <> EmptyString ->
  sql_files env "sql/get_website_info.sql"%string = Some lookup ->
  sql_files env "sql/insert_website_info.sql"%string = Some insert ->
  cursor_execute env n lookup (url_fields u) = ExecuteReturns (Some columns) [] ->
  cursor_execute env (S n) insert (Some sent) = ExecuteReturns description inserted ->
  cursor_execute env (S (S n)) lookup (url_fields u)
  = ExecuteReturns (Some columns') [] ->
  fst (create_website_info env wi a) = inr IndexError /\
  db_events (snd (create_website_info env wi a)) =
    db_events a ++
    [Execute lookup (url_fields u); Commit;
     Execute insert (Some sent); Commit;
     Execute lookup (url_fields u); Commit] /\
  launched (snd (create_website_info env wi a)) = launched a.
Proof.
  cbv zeta. intros Hv Hp Hu Hlookup Hinsert H1 H2 H3.
  rewrite (create_up_to_read_back env wi a netloc path lookup insert columns
             columns' description inserted []
             Hv Hp Hu Hlookup Hinsert H1 H2 H3).
  repeat split.
Qed.

Lemma lstrip_only_w_and_dots (s : string) :
  only_w_and_dots s -> lstrip "www."%string s = EmptyString.
Proof.
  unfold only_w_and_dots.
  induction s as [|c s IH]; cbn [list_ascii_of_string lstrip]; intros H.
  - reflexivity.
  - inversion H as [|? ? Hc Hs]; subst.
    apply char_in_www in Hc. rewrite Hc. now apply IH.
Qed.

(** X22.  A valid URL whose host is made of [w] and [.] only (such as
    "www.ww") is formatted to the empty string, and the lookup of the
    empty string is the query of all websites: [create_website_info] then
    answers "already exists", with an empty URL in the detail, as soon as
    any website is stored, and inserts nothing. *)
Theorem create_with_blank_host_hits_all_websites (env : AppEnv)
  (wi : WebsiteInfo) (a : webapp) (netloc path query : string)
  (column_names : list string) (row : list pyval) (rows : list (list pyval)) :
  url_regex_matches env (wi_url wi) = true ->
  urlparse env (wi_url wi) = Some (netloc, path) ->
  only_w_and_dots (clean_url netloc path) ->
  str_lower env EmptyString = EmptyString ->
  sql_files env "sql/get_all_websites_info.sql"%string = Some query ->
  cursor_execute env (statements_run (db_events a)) query None
  = ExecuteReturns (Some column_names) (row :: rows) ->
  create_website_info env wi a =
  (inr (HTTPException 400 "Website with URL  already exists"%string),
   mkWebapp (db_events a ++ [Execute query None; Commit])
            (app_logs a ++ [InfoExecutedSqlFile "sql/get_all_websites_info.sql"%string])
            (launched a)).
Proof.
  intros Hv Hp Hhost Hlower Hfile Hexec.
  unfold create_website_info.
  rewrite (decorator_valid env _ wi a netloc path Hv Hp).
  unfold formatted. rewrite (lstrip_only_w_and_dots _ Hhost), Hlower.
  unfold create_website_info_body, abind, get_website_data.
  cbn [wi_url truthy_str String.eqb negb].
  rewrite execute_sql_file_eq, Hfile, Hexec. reflexivity.
Qed.

Lemma create_with_blank_host_hits_all_websites_witness :
  fst (create_website_info env_one_site
         (mkWebsiteInfo "www.ww"%string (Some 30%Z) None) initial_webapp) =
  inr (HTTPException 400 "Website with URL  already exists"%string).
Proof.
  rewrite (create_with_blank_host_hits_all_websites env_one_site
             (mkWebsiteInfo "www.ww"%string (Some 30%Z) None) initial_webapp
             EmptyString "www.ww"%string "sql/get_all_websites_info.sql"%string
             website_columns stored_row []).
  - reflexivity.
  - reflexivity.
  - reflexivity.
  - repeat constructor; (now left) || (now right).
  - reflexivity.
  - reflexivity.
  - reflexivity.
Defined.

Lemma create_without_read_back_stores_but_does_not_launch_witness :
  let out := create_website_info env_never_reads_back example_info initial_webapp in
  fst out = inr IndexError /\
  launched (snd out) = [] /\
  In (Execute "sql/insert_website_info.sql"%string
        (Some [("url"%string, PyStr "example.com");
               ("interval"%string, PyInt 30);
               ("regexp_pattern"%string, PyNone)]))
     (db_events (snd out)).
Proof.
  cbv zeta.
  destruct (create_without_read_back_stores_but_does_not_launch
              env_never_reads_back example_info
              initial_webapp EmptyString "www.Example.com"%string
              "sql/get_website_info.sql"%string
              "sql/insert_website_info.sql"%string
              website_columns website_columns (Some website_columns) [])
    as (Hres & Hev & Hl).
  - reflexivity.
  - reflexivity.
  - discriminate.
  - reflexivity.
  - reflexivity.
  - reflexivity.
  - reflexivity.
  - reflexivity.
  - split; [exact Hres |]. split; [exact Hl |].
    rewrite Hev. cbn. tauto.
Defined.

(** ** main.py: the start of the application *)

Lemma launch_all_eq (rows : list pydict) (a : webapp) :
  launched (snd (launch_all rows a)) = launched a ++ rows_with_url rows /\
  (Forall (fun row => pydict_get "url"%string row <> None) rows ->
   fst (launch_all rows a) = inl tt) /\
  db_events (snd (launch_all rows a)) = db_events a.
Proof.
  revert a. induction rows as [|row rows IH]; intros a;
    cbn [launch_all rows_with_url].
  - cbn. rewrite app_nil_r. auto.
  - unfold abind, launch_website_monitoring.
    destruct (pydict_get "url"%string row) as [v|] eqn:Hurl.
    + destruct (IH (mkWebapp (db_events a) (app_logs a) (launched a ++ [row])))
        as (Hl & Hr & He).
      cbn [launched db_events] in Hl, He.
      split; [rewrite Hl, <- app_assoc; reflexivity |].
      split; [| exact He].
      intros Hall. inversion Hall; subst. now apply Hr.
    + cbn. rewrite app_nil_r. split; [reflexivity |].
      split; [| reflexivity].
      intros Hall. inversion Hall; subst. congruence.
Qed.

(** A row without a url ends the loop with a KeyError. *)
Lemma launch_all_key_error (rows : list pydict) (a : webapp) :
  Exists (fun row => pydict_get "url"%string row = None) rows ->
  fst (launch_all rows a) = inr (KeyError "url"%string).
Proof.
  revert a. induction rows as [|row rows IH]; intros a Hex.
  - inversion Hex.
  - cbn [launch_all]. unfold abind, launch_website_monitoring.
    destruct (pydict_get "url"%string row) as [v|] eqn:Hurl.
    + apply IH. inversion Hex; subst; [congruence | assumption].
    + reflexivity.
Qed.

Lemma rows_with_url_all (rows : list pydict) :
  Forall (fun row => pydict_get "url"%string row <> None) rows ->
  rows_with_url rows = rows.
Proof.
  induction rows as [|row rs IH]; cbn [rows_with_url]; [reflexivity |].
  intros Hall. inversion Hall as [|? ? Hrow Hrs]; subst.
  destruct (pydict_get "url"%string row); [| congruence].
  f_equal. now apply IH.
Qed.

(** X23.  [startup_event] runs the version check (executed, not
    committed), the creation of the tables and the query for all
    websites (both committed), creates the task of [monitor_websites]
    with the rows that the query returned, and returns; it launches no
    Site Task itself.  The tasks are launched by the [for] loop of
    [monitor_websites], when the event loop first runs the created task:
    one task for each row, in the order of the rows, whatever its
    interval.  A row without a url ends that task with a KeyError, which
    the handler, having returned, does not see; the rows before it have
    their tasks, the rows after it get none. *)
Theorem startup_hands_stored_websites_to_monitor_task (env : AppEnv)
  (a : webapp)
  (tables websites : string) (version_columns columns : list string)
  (version : pyval) (version_row : list pyval) (version_rows rows : list (list pyval))
  (description : option (list string)) (created : list (list pyval)) :
  let n := statements_run (db_events a) in
  cursor_execute env n "SELECT VERSION()"%string None
  = ExecuteReturns (Some version_columns) ((version :: version_row) :: version_rows) ->
  sql_files env "sql/create_tables.sql"%string = Some tables ->
  cursor_execute env (S n) tables None = ExecuteReturns description created ->
  sql_files env "sql/get_all_websites_info.sql"%string = Some websites ->
  cursor_execute env (S (S n)) websites None = ExecuteReturns (Some columns) rows ->
  let websites_data := map (row_dict columns) rows in
  let s := snd (startup_event env a) in
  let s' := run_monitor_task s in
  fst (startup_event env a) = inl tt /\
  monitor s = MonitorCreated (Some websites_data) /\
  launched (web s) = launched a /\
  db_events (web s) =
    db_events a ++
    [Execute "SELECT VERSION()"%string None;
     Execute tables None; Commit;
     Execute websites None; Commit] /\
  launched (web s') = launched a ++ rows_with_url websites_data /\
  db_events (web s') = db_events (web s) /\
  (Forall (fun row => pydict_get "url"%string row <> None) websites_data ->
   monitor s' = MonitorLaunched /\
   launched (web s') = launched a ++ websites_data) /\
  (Exists (fun row => pydict_get "url"%string row = None) websites_data ->
   monitor s' = MonitorFailed (KeyError "url"%string)).
Proof.
  cbv zeta. intros Hversion Htables Hcreate Hwebsites Hselect.
  assert (Hrun1 : forall evs q f,
            statements_run (evs ++ [Execute q f]) = S (statements_run evs)).
  { intros. unfold statements_run. rewrite filter_app, length_app. cbn. lia. }
  assert (Hstart : startup_event env a =
            (inl tt,
             mkServer
               (mkWebapp
                  (db_events a ++
                   [Execute "SELECT VERSION()"%string None;
                    Execute tables None; Commit;
                    Execute websites None; Commit])
                  (app_logs a ++
                   [InfoDbVersion version;
                    InfoExecutedSqlFile "sql/create_tables.sql"%string;
                    InfoExecutedSqlFile "sql/get_all_websites_info.sql"%string])
                  (launched a))
               (MonitorCreated (Some (map (row_dict columns) rows))))).
  { unfold startup_event. unfold abind at 1.
    unfold check_db, abind, execute at 1. rewrite Hversion.
    unfold write_app_log at 1. cbn [db_events app_logs launched].
    unfold create_tables. rewrite execute_sql_file_eq, Htables.
    cbn [db_events]. rewrite Hrun1, Hcreate. cbn [negb].
    unfold get_website_data. cbn [truthy_str negb].
    rewrite execute_sql_file_eq, Hwebsites.
    rewrite statements_run_after_commit. cbn [db_events].
    rewrite Hrun1, Hselect. cbn [negb].
    unfold after_commit. cbn [db_events app_logs launched].
    rewrite <- !app_assoc. reflexivity. }
  rewrite Hstart. cbn [fst snd web monitor launched db_events].
  split; [reflexivity |]. split; [reflexivity |].
  split; [reflexivity |]. split; [reflexivity |].
  unfold run_monitor_task. cbn [monitor web launch_websites].
  match goal with
  | |- context [launch_all ?rs ?w] =>
      destruct (launch_all_eq rs w) as (Hl & Hr & He);
      pose proof (launch_all_key_error rs w) as Hk;
      destruct (launch_all rs w) as [[u|e] a1]
  end;
    cbn [fst snd launched db_events] in Hl, Hr, He, Hk;
    cbn [web monitor].
  - split; [exact Hl |]. split; [exact He |].
    split.
    + intros Hall. split; [reflexivity |].
      rewrite Hl. now rewrite rows_with_url_all.
    + intros Hex. specialize (Hk Hex). discriminate.
  - split; [exact Hl |]. split; [exact He |].
    split.
    + intros Hall. specialize (Hr Hall). discriminate.
    + intros Hex. specialize (Hk Hex). congruence.
Qed.

Lemma startup_hands_stored_websites_to_monitor_task_witness :
  let s := snd (startup_event env_two_sites initial_webapp) in
  fst (startup_event env_two_sites initial_webapp) = inl tt /\
  launched (web s) = [] /\
  monitor (run_monitor_task s) = MonitorLaunched /\
  map (pydict_get "url"%string) (launched (web (run_monitor_task s)))
  = [Some (PyStr "example.com"); Some (PyStr "test.org")].
Proof.
  cbv zeta.
  destruct (startup_hands_stored_websites_to_monitor_task
              env_two_sites initial_webapp
              "sql/create_tables.sql"%string
              "sql/get_all_websites_info.sql"%string
              ["version"%string] website_columns
              (PyStr "PostgreSQL 15") [] [] [stored_row; second_row]
              (Some website_columns) [stored_row; second_row])
    as (Hres & _ & Hl0 & _ & _ & _ & Hall & _).
  - reflexivity.
  - reflexivity.
  - reflexivity.
  - reflexivity.
  - reflexivity.
  - destruct Hall as [Hm Hl].
    + repeat constructor; discriminate.
    + split; [exact Hres |]. split; [exact Hl0 |].
      split; [exact Hm |]. rewrite Hl. reflexivity.
Defined.
